(** * question_logger: a Slack question/answer relay, verified against its
    specification.

    The development embeds the Python sources [app.py] and [google_utils.py]
    as Rocq functions and proves the properties the specification states
    about them.

    Modelling conventions.
    - A Python [str] is a [string], one [ascii] per character: the texts
      considered are those whose code points lie below 256.  On that range
      the class [\d] of [re] is exactly [0-9] and [str.strip] removes the
      twelve characters listed in [isspace].  The document formatter, whose
      header holds U+2013, works on lists of code points instead.
    - A [dict] is a [gmap]; a [deque] or [list] is a [list].
    - [time.time()] is a clock reading in seconds, modelled as an integer.
    - Code that raises runs in a state-and-exception monad [Py]; a mutation
      made before a [raise] stays made, as in Python.
    - The lock of [RelayMemory] serialises its methods; the model is
      sequential, so every method body is one atomic step. *)

From Stdlib Require Import ZArith QArith Ascii String.
From stdpp Require Import gmap strings list fin_maps pretty.

Local Open Scope Z_scope.
Local Open Scope string_scope.

(** ** Python values *)

Module Py.

(** [str.isspace] on the code points below 256. *)
Definition isspace (c : ascii) : bool :=
  let n := nat_of_ascii c in
  ((9 <=? n) && (n <=? 13) || (28 <=? n) && (n <=? 32)
   || (n =? 133) || (n =? 160))%nat.

Fixpoint lstrip (s : string) : string :=
  match s with
  | EmptyString => EmptyString
  | String c r => if isspace c then lstrip r else s
  end.

Fixpoint rstrip (s : string) : string :=
  match s with
  | EmptyString => EmptyString
  | String c r =>
      match rstrip r with
      | EmptyString => if isspace c then EmptyString else String c EmptyString
      | r' => String c r'
      end
  end.

(** [s.strip()] *)
Definition strip (s : string) : string := rstrip (lstrip s).

(** Truth value of a [str]: the empty string is false. *)
Definition truthy (s : string) : bool :=
  match s with EmptyString => false | _ => true end.

(** Truth value of [d.get(key)] for a string-valued field. *)
Definition truthy_opt (o : option string) : bool :=
  match o with Some s => truthy s | None => false end.

(** [a or b] on optional strings. *)
Definition or_else (a b : option string) : option string :=
  if truthy_opt a then a else b.

(** Exceptions the modelled code can meet. *)
Inductive exn : Type :=
  | NameError (name : string)
  | ValueError (msg : string)
  | HttpError (msg : string)
  | SlackApiError (msg : string)
  | FileNotFoundError (path : string)
  | BinasciiError.

Definition exn_str (e : exn) : string :=
  match e with
  | NameError n => "name '" ++ n ++ "' is not defined"
  | ValueError m => m
  | HttpError m => m
  | SlackApiError m => m
  | FileNotFoundError p => "[Errno 2] No such file or directory: '" ++ p ++ "'"
  | BinasciiError => "Incorrect padding"
  end.

Inductive outcome (A : Type) : Type :=
  | Return (a : A)
  | Raise (e : exn).
Arguments Return {A} a.
Arguments Raise {A} e.

(** A computation over a state [S] that returns or raises. *)
Definition M (S A : Type) : Type := S -> outcome A * S.

Definition ret {S A} (a : A) : M S A := fun s => (Return a, s).
Definition raise {S A} (e : exn) : M S A := fun s => (Raise e, s).
Definition bind {S A B} (c : M S A) (k : A -> M S B) : M S B :=
  fun s => match c s with
           | (Return a, s') => k a s'
           | (Raise e, s') => (Raise e, s')
           end.
Definition get {S} : M S S := fun s => (Return s, s).
Definition modify {S} (f : S -> S) : M S unit := fun s => (Return tt, f s).

(** [try: c  except Exception as e: h e] *)
Definition try_except {S A} (c : M S A) (h : exn -> M S A) : M S A :=
  fun s => match c s with
           | (Return a, s') => (Return a, s')
           | (Raise e, s') => h e s'
           end.

(** [for x in xs: body x] *)
Fixpoint for_each {S A} (xs : list A) (body : A -> M S unit) : M S unit :=
  match xs with
  | [] => ret tt
  | x :: rest => bind (body x) (fun _ => for_each rest body)
  end.

(** [if b: c] *)
Definition when {S} (b : bool) (c : M S unit) : M S unit :=
  if b then c else ret tt.

End Py.

Notation "'let*' x ':=' c 'in' k" := (Py.bind c (fun x => k))
  (at level 10, x name, c at level 100, k at level 200).
Notation "c '>>' k" := (Py.bind c (fun _ => k))
  (at level 100, k at level 200, right associativity).

(** ** [class RelayMemory] (app.py) *)

Module RelayMemory.

(** Value stored under a client timestamp:
    [(job, internal_channel, internal_ts, created_at)]. *)
Definition entry : Type := string * string * string * Z.

Definition created_at (v : entry) : Z := snd v.

Record t : Type := mk {
  max_items : nat;
  ttl : Z;
  map : gmap string entry;
  order : list string
}.

(** [__init__(self, max_items=30, ttl_seconds=72*3600)] *)
Definition init (max_items : nat) (ttl_seconds : Z) : t :=
  mk max_items ttl_seconds ∅ [].

Definition default : t := init 30 (72 * 3600).

(** First loop of [_evict]: pop the front of [order] while it names no
    entry or an entry older than [ttl]; stop at the first live one. *)
Fixpoint ttl_evict (now ttl : Z) (m : gmap string entry) (o : list string)
  : gmap string entry * list string :=
  match o with
  | [] => (m, [])
  | k :: rest =>
      match m !! k with
      | None => ttl_evict now ttl m rest
      | Some v =>
          if now - created_at v >? ttl
          then ttl_evict now ttl (delete k m) rest
          else (m, o)
      end
  end.

(** Second loop of [_evict]: pop the front while [order] is longer than
    [max_items]. *)
Fixpoint size_evict (max_items : nat) (m : gmap string entry) (o : list string)
  : gmap string entry * list string :=
  match o with
  | [] => (m, [])
  | k :: rest =>
      if (max_items <? length o)%nat
      then size_evict max_items (delete k m) rest
      else (m, o)
  end.

(** [_evict(self)], with [now] the reading of [time.time()]. *)
Definition _evict (now : Z) (self : t) : t :=
  let '(m1, o1) := ttl_evict now (ttl self) (map self) (order self) in
  let '(m2, o2) := size_evict (max_items self) m1 o1 in
  mk (max_items self) (ttl self) m2 o2.

(** State of [self] after the two statements that precede [_evict] in
    [save_map]. *)
Definition stored (self : t) (job internal_channel internal_ts client_ts : string)
    (t_created : Z) : t :=
  mk (max_items self) (ttl self)
     (<[client_ts := (job, internal_channel, internal_ts, t_created)]> (map self))
     (order self ++ [client_ts]).

(** [save_map(self, job, internal_channel, internal_ts, client_ts)];
    [t_created] and [t_now] are the two readings of the clock, the first
    taken by [save_map], the second by [_evict]. *)
Definition save_map (self : t) (job internal_channel internal_ts client_ts : string)
    (t_created t_now : Z) : t :=
  _evict t_now (stored self job internal_channel internal_ts client_ts t_created).

(** [by_client_thread(self, client_ts)]: the result and the cache after
    the call. *)
Definition by_client_thread (self : t) (client_ts : string)
  : option (string * string * string) * t :=
  match map self !! client_ts with
  | None => (None, self)
  | Some (job, internal_channel, internal_ts, _) =>
      (Some (job, internal_channel, internal_ts), self)
  end.

End RelayMemory.

(** ** Regular expressions: the fragment of [re] that [JOB_TAG_RE] uses *)

Module Re.

Inductive re : Type :=
  | Lit (c : ascii)            (* a literal character, escaped or not *)
  | Digit                      (* \d *)
  | Rep (r : re) (n : nat)     (* r{n} *)
  | Cat (r1 r2 : re)           (* r1 r2 *)
  | Group (r : re).            (* ( r ) *)

(** [\d] on the code points below 256. *)
Definition is_digit (c : ascii) : bool :=
  let n := nat_of_ascii c in ((48 <=? n) && (n <=? 57))%nat.

(** Match [r] at the start of [s]: the groups captured (in the order of
    their opening parentheses), the text matched and the text left.  No
    construct of the fragment offers a choice, so there is nothing to
    backtrack over. *)
Fixpoint match_here (r : re) (s : string)
  : option (list string * string * string) :=
  match r with
  | Lit c =>
      match s with
      | String c' rest =>
          if Ascii.eqb c c' then Some ([], String c' EmptyString, rest) else None
      | EmptyString => None
      end
  | Digit =>
      match s with
      | String c' rest =>
          if is_digit c' then Some ([], String c' EmptyString, rest) else None
      | EmptyString => None
      end
  | Rep r1 n =>
      (fix times (n : nat) (s : string) : option (list string * string * string) :=
         match n with
         | O => Some ([], EmptyString, s)
         | S n' =>
             match match_here r1 s with
             | None => None
             | Some (g1, m1, s1) =>
                 match times n' s1 with
                 | None => None
                 | Some (g2, m2, s2) =>
                     Some (match n' with O => g1 | S _ => g2 end, m1 ++ m2, s2)
                 end
             end
         end) n s
  | Cat r1 r2 =>
      match match_here r1 s with
      | None => None
      | Some (g1, m1, s1) =>
          match match_here r2 s1 with
          | None => None
          | Some (g2, m2, s2) => Some ((g1 ++ g2)%list, m1 ++ m2, s2)
          end
      end
  | Group r1 =>
      match match_here r1 s with
      | None => None
      | Some (g, m, s1) => Some (m :: g, m, s1)
      end
  end.

(** A match object: where the match starts, and its groups. *)
Record Match : Type := mkMatch { start : nat; groups : list string }.

(** [m.group(i)] for [i >= 1]. *)
Definition group (m : Match) (i : nat) : option string :=
  groups m !! (i - 1)%nat.

(** [r.search(s)]: the match at the leftmost position that has one;
    [pos] counts the characters already skipped. *)
Fixpoint search_from (pos : nat) (r : re) (s : string) : option Match :=
  match match_here r s with
  | Some (g, _, _) => Some (mkMatch pos g)
  | None =>
      match s with
      | EmptyString => None
      | String _ rest => search_from (S pos) r rest
      end
  end.

Definition search (r : re) (s : string) : option Match := search_from 0 r s.

End Re.

(** ** The spreadsheet service

    A tab is the grid of its cells, kept in the form the service returns
    it: a list of rows, each a list of cells, where a row may be shorter
    than the tab is wide because trailing empty cells are left out.  Values
    are written as given ([USER_ENTERED] parsing is not modelled). *)

Module Sheets.

Abbreviation Row := (list string) (only parsing).
Abbreviation Grid := (list (list string)) (only parsing).

(** Index of a column letter: [A] is 0. *)
Definition col (letter : ascii) : nat := (nat_of_ascii letter - 65)%nat.

(** The cell of a row at column [c] (from 0); an absent cell is empty. *)
Definition at_col (r : Row) (c : nat) : string :=
  match r !! c with Some v => v | None => "" end.

(** The cell at row [r], column [c] (both from 0). *)
Definition cell (g : Grid) (r c : nat) : string :=
  match g !! r with
  | Some row => at_col row c
  | None => ""
  end.

(** [values().get(range="tab!A:X")]: the rows, cut to the columns of the
    range. *)
Definition values_get (g : Grid) (last_col : ascii) : Grid :=
  take (S (col last_col)) <$> g.

(** A range [tab!X<row>:Y<row>] inside one row; [row] counts from 1. *)
Record RowRange : Type := mkRange {
  first_col : ascii;
  last_col : ascii;
  row : nat
}.

Definition set_cell (r : Row) (c : nat) (v : string) : Row :=
  if (c <? length r)%nat then <[c := v]> r
  else (r ++ replicate (c - length r) "" ++ [v])%list.

(** Write [vs] into consecutive cells of a row, starting at column [c]. *)
Fixpoint write_at (r : Row) (c : nat) (vs : list string) : Row :=
  match vs with
  | [] => r
  | v :: vs' => write_at (set_cell r c v) (S c) vs'
  end.

Definition write_row (g : Grid) (r c : nat) (vs : list string) : Grid :=
  if (r <? length g)%nat
  then <[r := write_at (g !!! r) c vs]> g
  else (g ++ replicate (r - length g) [] ++ [write_at [] c vs])%list.

(** [values().update(range, body={"values": values})]: the values are laid
    down from the top-left cell of the range, one cell per value; cells of
    the range that get no value keep their content, and values that do not
    fit in the range are refused. *)
Definition values_update (g : Grid) (rg : RowRange) (values : list Row)
  : Py.outcome Grid :=
  match values with
  | [] => Py.Return g
  | [vs] =>
      if (col (first_col rg) + length vs <=? S (col (last_col rg)))%nat
      then Py.Return (write_row g (row rg - 1) (col (first_col rg)) vs)
      else Py.Raise (Py.HttpError "Requested writing within range, but tried writing outside it")
  | _ => Py.Raise (Py.HttpError "Requested writing within range, but tried writing outside it")
  end.

(** [values().append(..., insertDataOption="INSERT_ROWS")]: new rows after
    the last row of the table. *)
Definition values_append (g : Grid) (values : list Row) : Grid :=
  (g ++ values)%list.

End Sheets.

(** ** google_utils.py *)

Module GoogleUtils.

Import Sheets.

(** *** Credentials *)

(** The process environment, and the files by path. *)
Abbreviation Environ := (gmap string string) (only parsing).
Abbreviation Files := (gmap string string) (only parsing).

Section Credentials.

(** [base64.b64decode]; [None] when it raises. *)
Variable b64decode : string -> option string.

(** Module-level statements of lines 10-13, run when [google_utils] is
    imported. *)
Definition bootstrap (env : Environ) (fs : Files) : Py.outcome Files :=
  let base64_creds := env !! "GOOGLE_CREDS_BASE64" in
  if Py.truthy_opt base64_creds && negb (bool_decide (is_Some (fs !! "google_creds.json")))
  then match b64decode (default "" base64_creds) with
       | Some blob => Py.Return (<["google_creds.json" := blob]> fs)
       | None => Py.Raise Py.BinasciiError
       end
  else Py.Return fs.

(** The path [get_google_creds] hands to
    [Credentials.from_service_account_file]. *)
Definition creds_file (env : Environ) : string :=
  default "google_creds.json" (env !! "GOOGLE_CREDS_FILE").

(** [get_google_creds()]: the content of the credential file, from which
    the credentials are built. *)
Definition get_google_creds (env : Environ) (fs : Files) : Py.outcome string :=
  match fs !! creds_file env with
  | Some content => Py.Return content
  | None => Py.Raise (Py.FileNotFoundError (creds_file env))
  end.

End Credentials.

(** *** Job Log lookup *)

Record JobLogEntry : Type := mkJobLogEntry {
  job_num : string;
  job_name : string;
  monday_item_id : string;
  wl_item_id : string;
  raw_row : Row;
  headers : list string
}.

(** [{h: i for i, h in enumerate(headers)}], built left to right: a header
    that occurs twice keeps its last index. *)
Fixpoint enumerate_into (i : nat) (hs : list string) (idx : gmap string nat)
  : gmap string nat :=
  match hs with
  | [] => idx
  | h :: rest => enumerate_into (S i) rest (<[h := i]> idx)
  end.

(** [a or b] on the results of [idx.get]: [None] and [0] are false. *)
Definition index_or (a b : option nat) : option nat :=
  match a with
  | Some (S _) => a
  | _ => b
  end.

(** [r[i].strip() if i is not None and i < len(r) else ""] *)
Definition field_at (r : Row) (i : option nat) : string :=
  match i with
  | Some n => match r !! n with Some v => Py.strip v | None => "" end
  | None => ""
  end.

(** The loop [for r in rows[1:]] of [find_job_in_joblog]. *)
Fixpoint scan_rows (hs : list string) (job_idx name_idx monday_idx wl_idx : option nat)
    (job : string) (rows : Grid) : option JobLogEntry :=
  match rows with
  | [] => None
  | r :: rest =>
      match job_idx with
      | None => scan_rows hs job_idx name_idx monday_idx wl_idx job rest
      | Some j =>
          match r !! j with
          | None => scan_rows hs job_idx name_idx monday_idx wl_idx job rest
          | Some v =>
              if String.eqb (Py.strip v) job
              then Some (mkJobLogEntry (Py.strip v) (field_at r name_idx)
                           (field_at r monday_idx) (field_at r wl_idx) r hs)
              else scan_rows hs job_idx name_idx monday_idx wl_idx job rest
          end
      end
  end.

(** [find_job_in_joblog], after [read_range] has returned [rows]. *)
Definition find_job_in_rows (rows : Grid) (job : string) : option JobLogEntry :=
  match rows with
  | [] => None
  | header :: data =>
      let hs := Py.strip <$> header in
      let idx := enumerate_into 0 hs ∅ in
      let job_idx := idx !! "Job #" in
      let name_idx := idx !! "Job Name" in
      let monday_idx := index_or (idx !! "Ewing Board Item ID") (idx !! "Monday ID") in
      let wl_idx := idx !! "WLIII Item ID" in
      scan_rows hs job_idx name_idx monday_idx wl_idx job data
  end.

(** *** Document revisions

    A text is the list of its code points, so that [len] is [length] also
    for the dash U+2013 of the header. *)

Abbreviation text := (list N) (only parsing).

(** A literal of the source; its characters are ASCII. *)
Definition lit (s : string) : text := N_of_ascii <$> list_ascii_of_string s.

Definition newline : N := 10%N.
Definition en_dash : N := 8211%N.

(** [str(n)] for a non-negative integer. *)
Definition str_of_N (n : N) : text := lit (pretty n).

(** A field of [strftime] padded with zeros to two digits. *)
Definition two_digits (n : N) : text :=
  let d := str_of_N n in (replicate (2 - length d) 48%N ++ d)%list.

Record Date : Type := mkDate { year : N; month : N; day : N }.

(** [d.strftime("%m/%d/%Y")] *)
Definition strftime_mdY (d : Date) : text :=
  (two_digits (month d) ++ lit "/" ++ two_digits (day d) ++ lit "/"
   ++ str_of_N (year d))%list.

(** An element of [doc["body"]["content"]]. *)
Record StructuralElement : Type := mkElement { startIndex : Z; endIndex : Z }.

Record RgbColor : Type := mkRgb { red : Q; green : Q; blue : Q }.

(** A [textStyle]: the keys that are present. *)
Record TextStyle : Type := mkStyle {
  bold : option bool;
  italic : option bool;
  foregroundColor : option RgbColor
}.

Inductive Request : Type :=
  | updateTextStyle (range_start range_end : Z) (textStyle : TextStyle) (fields : string)
  | insertText (index : Z) (content : text).

(** [body_content[-1]["endIndex"] - 1 if body_content else 1] *)
Definition end_index_of (body_content : list StructuralElement) : Z :=
  match last body_content with
  | Some e => endIndex e - 1
  | None => 1
  end.

Definition divider_line : text := replicate 72 61%N.

Definition header_text (rev_num : N) (today : Date) : text :=
  (lit "REVISION #" ++ str_of_N rev_num ++ [32%N; en_dash; 32%N]
   ++ strftime_mdY today)%list.

Definition text_to_insert (triggering_text : text) (rev_num : N) (today : Date) : text :=
  ([newline; newline]
   ++ divider_line ++ [newline; newline]
   ++ header_text rev_num today ++ [newline; newline]
   ++ triggering_text ++ [newline; newline])%list.

Definition grey_italic : TextStyle :=
  mkStyle None (Some true) (Some (mkRgb (1 # 2) (1 # 2) (1 # 2))).
Definition bold_only : TextStyle := mkStyle (Some true) None None.
Definition bold_upright_black : TextStyle :=
  mkStyle (Some true) (Some false) (Some (mkRgb 0 0 0)).
Definition upright_black : TextStyle :=
  mkStyle None (Some false) (Some (mkRgb 0 0 0)).

(** The [requests] list that [append_revision_divider] builds. *)
Definition revision_requests (body_content : list StructuralElement)
    (triggering_text : text) (rev_num : N) (today : Date) : list Request :=
  let end_index := end_index_of body_content in
  let divider_rel_start := 2 in
  let divider_rel_end := divider_rel_start + Z.of_nat (length divider_line) in
  let header_rel_start := divider_rel_end + 2 in
  let header_rel_end := header_rel_start + Z.of_nat (length (header_text rev_num today)) in
  let msg_rel_start := header_rel_end + 2 in
  let msg_rel_end := msg_rel_start + Z.of_nat (length triggering_text) in
  let requests :=
    if end_index >? 1
    then [updateTextStyle 1 end_index grey_italic "italic,foregroundColor"]
    else [] in
  let requests :=
    (requests ++ [insertText end_index (text_to_insert triggering_text rev_num today)])%list in
  let abs_divider_start := end_index + divider_rel_start in
  let abs_divider_end := end_index + divider_rel_end in
  let abs_header_start := end_index + header_rel_start in
  let abs_header_end := end_index + header_rel_end in
  let abs_msg_start := end_index + msg_rel_start in
  let abs_msg_end := end_index + msg_rel_end in
  let requests :=
    (requests ++ [updateTextStyle abs_divider_start abs_divider_end bold_only "bold"])%list in
  let requests :=
    (requests ++ [updateTextStyle abs_header_start abs_header_end bold_upright_black
                    "bold,italic,foregroundColor"])%list in
  (requests ++ [updateTextStyle abs_msg_start abs_msg_end upright_black
                  "italic,foregroundColor"])%list.

(** [append_revision_divider]: the [batchUpdate] calls it makes on the
    document, each with its list of requests. *)
Definition append_revision_divider (body_content : list StructuralElement)
    (triggering_text : text) (rev_num : N) (today : Date) : list (list Request) :=
  [revision_requests body_content triggering_text rev_num today].

End GoogleUtils.

(** ** app.py *)

Module App.

Import Sheets.

Definition JOB_TAG_RE : Re.re :=
  Re.Cat (Re.Lit "#") (Re.Cat (Re.Group (Re.Rep Re.Digit 5)) (Re.Lit "?")).

(** [JOB_TAG_RE.search(text)] followed by [m.group(1)]. *)
Definition job_tag (text : string) : option string :=
  match Re.search JOB_TAG_RE text with
  | Some m => Re.group m 1
  | None => None
  end.

Inductive Level : Type := DEBUG | INFO | WARNING | ERROR.

(** The calls that leave the process. *)
Inductive Api : Type :=
  | SheetsGet | SheetsUpdate | SheetsAppend | UsersInfo | ChatPostMessage.

(** What [users_info] returns about a user. *)
Record UserInfo : Type := mkUser {
  real_name : option string;
  display_name : option string;
  name : option string
}.

(** A message event: [body["event"]]. *)
Record Event : Type := mkEvent {
  subtype : option string;
  bot_id : option string;
  channel : string;
  text : option string;
  ts : string;
  thread_ts : option string;
  user : option string
}.

(** The module globals, the services the process talks to, and the log.
    [PENDING_INTERNAL] is [None] until the module body has bound the name.
    [down] tells which calls raise; [clock] lists the readings [time.time()]
    will give and [ticks] counts those taken. *)
Record State : Type := mkState {
  INTERNAL_CHANNEL_IDS : list string;
  CLIENT_CHANNEL_IDS : list string;
  JOBLOG_SHEET_ID : option string;
  PENDING_INTERNAL : option (gmap string (string * string));
  RELAY_MEM : RelayMemory.t;
  questions : Grid;
  joblog : Grid;
  users : gmap string UserInfo;
  posted : list (string * string * string);
  down : Api -> bool;
  log : list (Level * string);
  clock : nat -> Z;
  ticks : nat;
  today : string;
  time_of_day : string
}.

Definition set_PENDING_INTERNAL (v : option (gmap string (string * string))) (s : State) : State :=
  mkState (INTERNAL_CHANNEL_IDS s) (CLIENT_CHANNEL_IDS s) (JOBLOG_SHEET_ID s) v
    (RELAY_MEM s) (questions s) (joblog s) (users s) (posted s) (down s) (log s)
    (clock s) (ticks s) (today s) (time_of_day s).

Definition set_RELAY_MEM (v : RelayMemory.t) (s : State) : State :=
  mkState (INTERNAL_CHANNEL_IDS s) (CLIENT_CHANNEL_IDS s) (JOBLOG_SHEET_ID s)
    (PENDING_INTERNAL s) v (questions s) (joblog s) (users s) (posted s) (down s)
    (log s) (clock s) (ticks s) (today s) (time_of_day s).

Definition set_questions (v : Grid) (s : State) : State :=
  mkState (INTERNAL_CHANNEL_IDS s) (CLIENT_CHANNEL_IDS s) (JOBLOG_SHEET_ID s)
    (PENDING_INTERNAL s) (RELAY_MEM s) v (joblog s) (users s) (posted s) (down s)
    (log s) (clock s) (ticks s) (today s) (time_of_day s).

Definition set_posted (v : list (string * string * string)) (s : State) : State :=
  mkState (INTERNAL_CHANNEL_IDS s) (CLIENT_CHANNEL_IDS s) (JOBLOG_SHEET_ID s)
    (PENDING_INTERNAL s) (RELAY_MEM s) (questions s) (joblog s) (users s) v (down s)
    (log s) (clock s) (ticks s) (today s) (time_of_day s).

Definition set_log (v : list (Level * string)) (s : State) : State :=
  mkState (INTERNAL_CHANNEL_IDS s) (CLIENT_CHANNEL_IDS s) (JOBLOG_SHEET_ID s)
    (PENDING_INTERNAL s) (RELAY_MEM s) (questions s) (joblog s) (users s) (posted s)
    (down s) v (clock s) (ticks s) (today s) (time_of_day s).

Definition set_ticks (v : nat) (s : State) : State :=
  mkState (INTERNAL_CHANNEL_IDS s) (CLIENT_CHANNEL_IDS s) (JOBLOG_SHEET_ID s)
    (PENDING_INTERNAL s) (RELAY_MEM s) (questions s) (joblog s) (users s) (posted s)
    (down s) (log s) (clock s) v (today s) (time_of_day s).

Definition Cmd (A : Type) : Type := Py.M State A.

(** [logger.<level>(msg)]; the log keeps the newest line last. *)
Definition logger (lvl : Level) (msg : string) : Cmd unit :=
  Py.modify (fun s => set_log (log s ++ [(lvl, msg)])%list s).

(** [time.time()] *)
Definition time_time : Cmd Z :=
  fun s => (Py.Return (clock s (ticks s)), set_ticks (S (ticks s)) s).

(** A call to a service: raises when the service is down. *)
Definition call (api : Api) (e : Py.exn) : Cmd unit :=
  fun s => if down s api then (Py.Raise e, s) else (Py.Return tt, s).

(** [sheets_service.spreadsheets().values().get(spreadsheetId=SPREADSHEET_ID,
    range="QuestionsLog!A:<last_col>").execute().get("values", []) or []] *)
Definition get_questions (last_col : ascii) : Cmd Grid :=
  call SheetsGet (Py.HttpError "values.get failed") >>
  let* s := Py.get in
  Py.ret (values_get (questions s) last_col).

(** [values().update(range="QuestionsLog!...", valueInputOption="USER_ENTERED",
    body={"values": values}).execute()] *)
Definition update_questions (rg : RowRange) (values : list Row) : Cmd unit :=
  call SheetsUpdate (Py.HttpError "values.update failed") >>
  let* s := Py.get in
  match values_update (questions s) rg values with
  | Py.Return g => Py.modify (set_questions g)
  | Py.Raise e => Py.raise e
  end.

(** [append_to_sheet(sheets_service, SPREADSHEET_ID, "QuestionsLog!A:<c>", values)] *)
Definition append_to_sheet (values : list Row) : Cmd unit :=
  call SheetsAppend (Py.HttpError "values.append failed") >>
  Py.modify (fun s => set_questions (values_append (questions s) values) s).

(** [read_range(sheets_service, spreadsheet_id, "Active!A:<last_col>")] on
    the Job Log. *)
Definition read_range (spreadsheet_id : option string) (last_col : ascii) : Cmd Grid :=
  if negb (Py.truthy_opt spreadsheet_id)
  then Py.raise (Py.ValueError "read_range: spreadsheet_id is missing/empty")
  else
    call SheetsGet (Py.HttpError "values.get failed") >>
    let* s := Py.get in
    Py.ret (values_get (joblog s) last_col).

(** [find_job_in_joblog(sheets_service, JOBLOG_SHEET_ID, JOBLOG_RANGE, job_num)] *)
Definition find_job_in_joblog (job_num : string) : Cmd (option GoogleUtils.JobLogEntry) :=
  let* s := Py.get in
  let* rows := read_range (JOBLOG_SHEET_ID s) "H" in
  Py.ret (GoogleUtils.find_job_in_rows rows job_num).

(** [RELAY_MEM.save_map(job, internal_channel, internal_ts, client_ts)] *)
Definition relay_save (job internal_channel internal_ts client_ts : string) : Cmd unit :=
  let* t_created := time_time in
  let* t_now := time_time in
  Py.modify (fun s =>
    set_RELAY_MEM (RelayMemory.save_map (RELAY_MEM s) job internal_channel internal_ts
                     client_ts t_created t_now) s).

(** [save_map(job, internal_channel, internal_ts, client_channel, client_ts)] *)
Definition save_map (job internal_channel internal_ts client_channel client_ts : string)
  : Cmd unit :=
  relay_save job internal_channel internal_ts client_ts.

(** [by_client_thread(client_ts)] *)
Definition by_client_thread (client_ts : string) : Cmd (option (string * string * string)) :=
  fun s =>
    let '(r, m) := RelayMemory.by_client_thread (RELAY_MEM s) client_ts in
    (Py.Return r, set_RELAY_MEM m s).

(** Reading the global [PENDING_INTERNAL]. *)
Definition pending_internal : Cmd (gmap string (string * string)) :=
  let* s := Py.get in
  match PENDING_INTERNAL s with
  | Some d => Py.ret d
  | None => Py.raise (Py.NameError "PENDING_INTERNAL")
  end.

(** [PENDING_INTERNAL[job] = (channel, ts)] *)
Definition pending_internal_setitem (job : string) (v : string * string) : Cmd unit :=
  let* d := pending_internal in
  Py.modify (set_PENDING_INTERNAL (Some (<[job := v]> d))).

(** [r[i].strip() if len(r) > i else ""] *)
Definition field (r : Row) (i : nat) : string :=
  match r !! i with Some v => Py.strip v | None => "" end.

(** Body of the loop of [rebuild_from_sheet_cache]. *)
Definition rebuild_row (r : Row) : Cmd unit :=
  let job := field r 0 in
  let internal_ts := field r 11 in
  let client_ts := field r 12 in
  let internal_ch := field r 13 in
  let client_ch := field r 14 in
  Py.when (Py.truthy job && Py.truthy internal_ts && Py.truthy internal_ch)
    (pending_internal_setitem job (internal_ch, internal_ts)) >>
  Py.when (Py.truthy job && Py.truthy client_ts && Py.truthy internal_ts
           && Py.truthy internal_ch)
    (Py.try_except (relay_save job internal_ch internal_ts client_ts)
       (fun _ => Py.ret tt)).

Definition rebuild_from_sheet_cache (max_rows : nat) : Cmd unit :=
  Py.try_except
    (let* values := get_questions "O" in
     match values with
     | [] => Py.ret tt
     | header :: rows =>
         let start := (length rows - max_rows)%nat in
         Py.for_each (drop start rows) rebuild_row >>
         let* pending := pending_internal in
         let* s := Py.get in
         logger INFO ("Rebuilt cache from sheet: " ++ pretty (size pending)
                      ++ " internal threads, "
                      ++ pretty (size (RelayMemory.map (RELAY_MEM s)))
                      ++ " client threads")
     end)
    (fun e => logger ERROR ("rebuild_from_sheet_cache failed: " ++ Py.exn_str e)).

(** The statements of the module body that touch the two caches, in the
    order of the file: [RELAY_MEM = RelayMemory()] (line 72),
    [rebuild_from_sheet_cache(app.logger)] (line 180) and
    [PENDING_INTERNAL = {}] (line 185). *)
Definition module_body : Cmd unit :=
  Py.modify (set_RELAY_MEM RelayMemory.default) >>
  rebuild_from_sheet_cache 200 >>
  Py.modify (set_PENDING_INTERNAL (Some ∅)).

(** The process before [app.py] runs: no global is bound yet. *)
Definition before_import (s : State) : State :=
  set_PENDING_INTERNAL None s.

Definition _is_client_channel (chan : string) : Cmd bool :=
  let* s := Py.get in
  if bool_decide (chan ∈ INTERNAL_CHANNEL_IDS s)
  then logger INFO ("_is_client_channel FALSE (internal): " ++ chan) >> Py.ret false
  else match CLIENT_CHANNEL_IDS s with
       | _ :: _ =>
           logger INFO ("_is_client_channel explicit list | checking " ++ chan) >>
           Py.ret (bool_decide (chan ∈ CLIENT_CHANNEL_IDS s))
       | [] =>
           logger INFO ("_is_client_channel fallback TRUE for " ++ chan) >>
           Py.ret true
       end.

(** [client.users_info(user=user_id)] *)
Definition users_info (user_id : string) : Cmd UserInfo :=
  call UsersInfo (Py.SlackApiError "users.info failed") >>
  let* s := Py.get in
  match users s !! user_id with
  | Some ui => Py.ret ui
  | None => Py.raise (Py.SlackApiError "user_not_found")
  end.

Definition _get_user_name_safe (user_id : string) : Cmd string :=
  Py.try_except
    (let* ui := users_info user_id in
     Py.ret (default user_id
               (Py.or_else (real_name ui)
                  (Py.or_else (display_name ui)
                     (Py.or_else (Some (default "" (name ui))) (Some user_id))))))
    (fun e => logger ERROR ("users_info failed: " ++ Py.exn_str e) >> Py.ret user_id).

(** The scan [for idx in range(len(values) - 1, 0, -1)] shared by the two
    sheet writers, entered with [idx = len(values) - 1]: the 1-based number
    of the lowest row below the header whose job matches and whose response
    date is empty. *)
Fixpoint find_unanswered (values : Grid) (job_num : string) (idx : nat) : option nat :=
  match idx with
  | O => None
  | S below =>
      let row := values !!! idx in
      let a_job := field row 0 in
      let g_resp_date := field row 6 in
      if String.eqb a_job job_num && negb (Py.truthy g_resp_date)
      then Some (idx + 1)%nat
      else find_unanswered values job_num below
  end.

Definition _update_sheet_response_for_job
    (job_num resp_date resp_time resp_from resp_body : string) : Cmd unit :=
  Py.try_except
    (let* values := get_questions "K" in
     match values with
     | [] => Py.ret tt
     | _ :: _ =>
         match find_unanswered values job_num (length values - 1) with
         | None =>
             logger WARNING ("No unanswered row found for job " ++ job_num
                             ++ "; appending a response-only row.") >>
             append_to_sheet
               [[job_num; ""; ""; ""; ""; ""; resp_date; resp_time; resp_from; resp_body; ""]]
         | Some target =>
             update_questions (mkRange "G" "J" target)
               [[resp_date; resp_time; resp_from; resp_body]]
         end
     end)
    (fun e => logger ERROR ("Sheet response update failed: " ++ Py.exn_str e)).

Definition _update_client_thread_info (job_num client_ts client_channel : string) : Cmd unit :=
  Py.try_except
    (let* values := get_questions "O" in
     match values with
     | [] => Py.ret tt
     | _ :: _ =>
         match find_unanswered values job_num (length values - 1) with
         | None =>
             logger WARNING ("No unanswered row found for job " ++ job_num
                             ++ "; skipping client thread info write.")
         | Some target =>
             update_questions (mkRange "M" "O" target) [[client_ts; client_channel]]
         end
     end)
    (fun e => logger ERROR ("Sheet client thread write failed: " ++ Py.exn_str e)).

(** [str(x)] for an optional string, as an f-string shows it. *)
Definition show_opt (o : option string) : string := default "None" o.

Definition nl : string := String (ascii_of_nat 10) EmptyString.

(** The branch of [message_router] for a job-tagged message of an internal
    channel. *)
Definition internal_question (ev : Event) (text job_num : string) : Cmd unit :=
  let user_id := default "" (user ev) in
  let* user_name := _get_user_name_safe user_id in
  let* s := Py.get in
  let request_date := today s in
  let request_time := time_of_day s in
  let* found :=
    Py.try_except
      (let* hit := find_job_in_joblog job_num in
       match hit with
       | Some e => Py.ret (GoogleUtils.job_name e, GoogleUtils.monday_item_id e)
       | None => Py.ret ("", "")
       end)
      (fun e => logger ERROR ("Job Log lookup failed: " ++ Py.exn_str e) >>
                Py.ret ("", "")) in
  let row := [job_num; fst found; request_date; request_time; user_name; text;
              ""; ""; ""; ""; snd found; ts ev; ""; channel ev; ""] in
  Py.try_except (append_to_sheet [row])
    (fun e => logger ERROR ("Sheet append failed: " ++ Py.exn_str e)) >>
  pending_internal_setitem job_num (channel ev, ts ev) >>
  logger INFO ("[INTERNAL] logged job " ++ job_num ++ " and cached thread ("
               ++ channel ev ++ "," ++ ts ev ++ ")").

(** The branch for a job-tagged thread root of a client channel. *)
Definition client_root (ev : Event) (job_num : string) : Cmd unit :=
  let* pending := pending_internal in
  match pending !! job_num with
  | None => logger WARNING ("[REGURG] no cached internal thread for job " ++ job_num)
  | Some (internal_channel, internal_ts) =>
      Py.try_except
        (save_map job_num internal_channel internal_ts (channel ev) (ts ev) >>
         _update_client_thread_info job_num (ts ev) (channel ev) >>
         logger INFO ("[REGURG] saved map for job " ++ job_num))
        (fun e => logger ERROR ("[REGURG] save_map failed: " ++ Py.exn_str e))
  end.

(** The branch for a reply in a client thread. *)
Definition client_reply (ev : Event) (text thread : string) : Cmd unit :=
  let* mapping := by_client_thread thread in
  match mapping with
  | None => logger DEBUG ("[CLIENT REPLY] no mapping for (" ++ channel ev ++ ","
                          ++ thread ++ ")")
  | Some (job_num, internal_channel, internal_ts) =>
      let user_id := default "" (user ev) in
      let* user_name := _get_user_name_safe user_id in
      let* s := Py.get in
      let resp_date := today s in
      let resp_time := time_of_day s in
      _update_sheet_response_for_job job_num resp_date resp_time user_name text >>
      Py.try_except
        (call ChatPostMessage (Py.SlackApiError "chat.postMessage failed") >>
         (let echo := "*Client reply* (" ++ user_name ++ ")" ++ nl ++ text in
          Py.modify (fun s =>
            set_posted (posted s ++ [(internal_channel, internal_ts, echo)])%list s)) >>
         logger INFO ("[CLIENT REPLY] echoed to internal thread for job " ++ job_num))
        (fun e => logger ERROR ("Failed posting back to internal thread: "
                                ++ Py.exn_str e))
  end.

(** [message_router(body, client, logger)], with [body.get("event")] as
    its argument. *)
Definition message_router (event : option Event) : Cmd unit :=
  match event with
  | None => Py.ret tt
  | Some ev =>
      if Py.truthy_opt (subtype ev) || Py.truthy_opt (bot_id ev) then Py.ret tt
      else
        let text := Py.strip (default "" (text ev)) in
        logger DEBUG ("[ROUTER] ch=" ++ channel ev ++ " ts=" ++ ts ev ++ " thread_ts="
                      ++ show_opt (thread_ts ev) ++ " text=" ++ text) >>
        let* s := Py.get in
        let is_internal := bool_decide (channel ev ∈ INTERNAL_CHANNEL_IDS s) in
        let* is_client := _is_client_channel (channel ev) in
        if is_internal then
          match Re.search JOB_TAG_RE text with
          | Some m => internal_question ev text (default "" (Re.group m 1))
          | None => Py.ret tt
          end
        else if is_client then
          let is_root := negb (Py.truthy_opt (thread_ts ev))
                         || bool_decide (thread_ts ev = Some (ts ev)) in
          match Re.search JOB_TAG_RE text, is_root with
          | Some m, true => client_root ev (default "" (Re.group m 1))
          | _, _ =>
              match thread_ts ev with
              | Some thread =>
                  if Py.truthy thread then client_reply ev text thread else Py.ret tt
              | None => Py.ret tt
              end
          end
        else Py.ret tt
  end.

End App.

Local Open Scope list_scope.

(** ** Vocabulary of the specification *)

Module RelaySpec.

Import RelayMemory.

(** One call of [save_map], with the two readings of the clock it takes. *)
Record Save : Type := mkSave {
  s_job : string;
  s_channel : string;
  s_ts : string;
  s_key : string;
  s_created : Z;
  s_now : Z
}.

Definition apply_save (self : t) (op : Save) : t :=
  save_map self (s_job op) (s_channel op) (s_ts op) (s_key op) (s_created op) (s_now op).

(** The cache after a sequence of saves. *)
Definition run (self : t) (ops : list Save) : t := foldl apply_save self ops.

(** The caches the process can hold: [RELAY_MEM] after any saves. *)
Definition reachable (self : t) : Prop := exists ops, self = run default ops.

(** The map without the keys [ks]. *)
Definition without (m : gmap string entry) (ks : list string) : gmap string entry :=
  foldr delete m ks.

(** The entry is older than [ttl] at time [now]. *)
Definition expired (now ttl : Z) (v : entry) : Prop := now - created_at v > ttl.

(** Every key of the queue names an entry, created no later than the
    entries of the keys behind it. *)
Fixpoint ascending (m : gmap string entry) (o : list string) : Prop :=
  match o with
  | [] => True
  | k :: rest =>
      (exists v, m !! k = Some v /\
         forall k' v', k' ∈ rest -> m !! k' = Some v' -> created_at v <= created_at v')
      /\ ascending m rest
  end.

(** The queue holds each cached key once, in the order of creation: the
    state of a cache in which no key was saved twice and whose clock never
    ran backwards. *)
Definition chronological (self : t) : Prop :=
  NoDup (order self)
  /\ (forall k, is_Some (map self !! k) -> k ∈ order self)
  /\ ascending (map self) (order self).

(** Every cached key is still in the queue. *)
Definition covered (m : gmap string entry) (o : list string) : Prop :=
  forall k, is_Some (m !! k) -> k ∈ o.

(** The entry a save stores. *)
Definition entry_of (op : Save) : entry :=
  (s_job op, s_channel op, s_ts op, s_created op).

(** Saves of pairwise distinct keys whose creation times never decrease. *)
Definition orderly (ops : list Save) : Prop :=
  forall i j a b, (i < j)%nat -> ops !! i = Some a -> ops !! j = Some b ->
    s_key a <> s_key b /\ s_created a <= s_created b.

(** No clock reading of the saves lies more than [ttl] after the creation
    time of any of them: nothing expires while they run. *)
Definition unexpiring (ttl : Z) (ops : list Save) : Prop :=
  forall a b, a ∈ ops -> b ∈ ops -> s_now b - s_created a <= ttl.

(** Lookups only: the cache after looking up each key of [ks]. *)
Definition lookups (self : t) (ks : list string) : t :=
  foldl (fun s k => snd (by_client_thread s k)) self ks.

End RelaySpec.

Module TagSpec.

(** Five characters, all decimal digits. *)
Definition five_digits (job : string) : Prop :=
  String.length job = 5%nat
  /\ forallb Re.is_digit (list_ascii_of_string job) = true.


(** The groups of a match of [JOB_TAG_RE] at the start of the text. *)
Definition groups_here (s : string) : option (list string) :=
  match Re.match_here App.JOB_TAG_RE s with
  | Some (g, _, _) => Some g
  | None => None
  end.

End TagSpec.

Module SheetSpec.

Import Sheets.

(** Row [i] of the grid (from 0) is an open question of [job]: its job
    cell, trimmed, is [job] and its response date, trimmed, is empty. *)
Definition unanswered (g : Grid) (job : string) (i : nat) : Prop :=
  Py.strip (cell g i 0) = job /\ Py.strip (cell g i 6) = "".

(** [i] is the lowest open question of [job] below the header. *)
Definition lowest_unanswered (g : Grid) (job : string) (i : nat) : Prop :=
  (1 <= i < length g)%nat /\ unanswered g job i
  /\ forall j, (i < j < length g)%nat -> ~ unanswered g job j.

(** No row below the header is an open question of [job]. *)
Definition none_unanswered (g : Grid) (job : string) : Prop :=
  forall j, (1 <= j < length g)%nat -> ~ unanswered g job j.

End SheetSpec.

Module DocSpec.

Import GoogleUtils.

(** The part of an inserted text that the document range [[a, b)] covers,
    when the text was inserted at index [at_index]. *)
Definition covered_by (inserted : text) (at_index a b : Z) : text :=
  take (Z.to_nat (b - a)) (drop (Z.to_nat (a - at_index)) inserted).

End DocSpec.

Module RouterSpec.

Import App.

(** A command that returns without raising and changes nothing but the
    log. *)
Definition quiet {A : Type} (c : Cmd A) : Prop :=
  forall s : State, exists a lg, c s = (Py.Return a, set_log lg s).

(** The row carries a job, an internal timestamp and an internal channel:
    the rebuild restores a Pending-Internal entry from it. *)
Definition restores_pending (r : list string) : bool :=
  Py.truthy (field r 0) && Py.truthy (field r 11) && Py.truthy (field r 13).

(** The row carries a client timestamp as well: the rebuild saves a relay
    mapping from it. *)
Definition restores_relay (r : list string) : bool :=
  Py.truthy (field r 0) && Py.truthy (field r 12) && Py.truthy (field r 11)
  && Py.truthy (field r 13).

(** The Pending-Internal dictionary after the rows have been replayed in
    order. *)
Definition replay_pending (d : gmap string (string * string)) (rows : list (list string))
  : gmap string (string * string) :=
  foldl (fun d r => if restores_pending r
                    then <[field r 0 := (field r 13, field r 11)]> d else d) d rows.

(** The relay cache after the rows have been replayed in order, and the
    number of clock readings taken: two for each save. *)
Fixpoint replay_relay (clock : nat -> Z) (tick : nat) (m : RelayMemory.t)
    (rows : list (list string)) : RelayMemory.t * nat :=
  match rows with
  | [] => (m, tick)
  | r :: rest =>
      if restores_relay r
      then replay_relay clock (S (S tick))
             (RelayMemory.save_map m (field r 0) (field r 13) (field r 11) (field r 12)
                (clock tick) (clock (S tick))) rest
      else replay_relay clock tick m rest
  end.

End RouterSpec.

(** ** Scenarios *)

Module Scenario.

Import RelaySpec App.

(** Save number [i] of a run that saves once per second, each time under
    a new key. *)
Definition demo_save (i : nat) : Save :=
  mkSave "12345" "C08HUKW7NDU" "1.000100" (pretty i) (Z.of_nat i) (Z.of_nat i).

Definition demo_saves (first n : nat) : list Save := demo_save <$> seq first n.

Definition header_row : Sheets.Row :=
  ["Job #"; "Job name"; "Request DATE"; "Request TIME"; "Requested by"; "Request BODY";
   "Response DATE"; "Response TIME"; "Response FROM"; "Response BODY"; "Monday Item ID";
   "Internal TS"; "Client Root TS"; "Internal Channel ID"; "Client Channel ID"].

(** A question of job 12345, asked in an internal channel and not yet
    reposted or answered; the service leaves out the empty last cell. *)
Definition open_question : Sheets.Row :=
  ["12345"; "Elm Street"; "2025-01-06"; "09:15:00"; "Dana"; "Please confirm #12345?";
   ""; ""; ""; ""; "8801"; "1736154900.000100"; ""; "C08HUKW7NDU"].

(** The same question once reposted to a client channel. *)
Definition reposted_question : Sheets.Row :=
  ["12345"; "Elm Street"; "2025-01-06"; "09:15:00"; "Dana"; "Please confirm #12345?";
   ""; ""; ""; ""; "8801"; "1736154900.000100"; "1736155000.000200"; "C08HUKW7NDU";
   "C0CLIENT01"].

(** A running process with every service up, empty caches and the given
    Question Log. *)
Definition running (questions : Sheets.Grid) : State :=
  mkState ["C08HUKW7NDU"; "C08SLQ1J952"] [] (Some "joblog-sheet") (Some ∅)
    RelayMemory.default questions [] ∅ [] (fun _ => false) []
    (fun n => 1736155000 + Z.of_nat n) 0 "2025-01-06" "09:20:00".

(** The same process while appends to the sheet fail. *)
Definition append_down (s : State) : State :=
  mkState (INTERNAL_CHANNEL_IDS s) (CLIENT_CHANNEL_IDS s) (JOBLOG_SHEET_ID s)
    (PENDING_INTERNAL s) (RELAY_MEM s) (questions s) (joblog s) (users s) (posted s)
    (fun api => match api with SheetsAppend => true | _ => down s api end)
    (log s) (clock s) (ticks s) (today s) (time_of_day s).

(** A tagged question posted by a staff member in an internal channel. *)
Definition internal_message : Event :=
  mkEvent None None "C08HUKW7NDU" (Some "Please confirm #12345?")
    "1736154900.000100" None (Some "U024BE7LH").

(** A Job Log whose work-item column [Ewing Board Item ID] comes first. *)
Definition joblog_ewing_first : Sheets.Grid :=
  [["Ewing Board Item ID"; "Job #"; "Job Name"; "Monday ID"];
   ["8801"; "12345"; "Elm Street"; "7702"]].

(** The same Job Log without a [Monday ID] column. *)
Definition joblog_ewing_only : Sheets.Grid :=
  [["Ewing Board Item ID"; "Job #"; "Job Name"];
   ["8801"; "12345"; "Elm Street"]].

(** A Job Log with the work-item column elsewhere. *)
Definition joblog_ewing_last : Sheets.Grid :=
  [["Job #"; "Job Name"; "Monday ID"; "Ewing Board Item ID"];
   ["12345"; "Elm Street"; "7702"; "8801"]].

(** An environment that carries the credential blob and names another
    credential file. *)
Definition env_both : GoogleUtils.Environ :=
  <["GOOGLE_CREDS_BASE64" := "e30="]> (<["GOOGLE_CREDS_FILE" := "/secrets/sa.json"]> ∅).

(** A decoder that knows the blob of [env_both]. *)
Definition decode_demo (s : string) : option string :=
  if String.eqb s "e30=" then Some "{}" else None.

End Scenario.

(** ** app.py: the channel lists

    Lines 110 to 123 of the module body read the two channel lists from
    the environment. *)

Module Config.

(** [s.split(sep)] for a separator of one character. *)
Fixpoint split (sep : ascii) (s : string) : list string :=
  match s with
  | EmptyString => [EmptyString]
  | String c rest =>
      if Ascii.eqb c sep then EmptyString :: split sep rest
      else match split sep rest with
           | [] => [String c EmptyString]
           | piece :: pieces => String c piece :: pieces
           end
  end.

(** [[c.strip() for c in value.split(",") if c.strip()]] *)
Definition listed (value : string) : list string :=
  List.filter Py.truthy (Py.strip <$> split "," value).

(** [os.getenv(name, "").strip()] *)
Definition getenv_stripped (environ : gmap string string) (name : string) : string :=
  Py.strip (default "" (environ !! name)).

(** The value [INTERNAL_CHANNEL_IDS] is bound to after line 118. *)
Definition INTERNAL_CHANNEL_IDS (environ : gmap string string) : list string :=
  let _internal_env := getenv_stripped environ "INTERNAL_CHANNEL_IDS" in
  let ids := if Py.truthy _internal_env then listed _internal_env else [] in
  match ids with
  | [] => ["C08HUKW7NDU"; "C08SLQ1J952"]
  | _ :: _ => ids
  end.

(** The value [CLIENT_CHANNEL_IDS] is bound to after line 123. *)
Definition CLIENT_CHANNEL_IDS (environ : gmap string string) : list string :=
  let _client_env := getenv_stripped environ "CLIENT_CHANNEL_IDS" in
  if Py.truthy _client_env then listed _client_env else [].

End Config.

Module ConfigSpec.

(** A channel id as one would write it in the list: not empty, no white
    space at either end, no comma. *)
Definition clean (id : string) : Prop :=
  id <> "" /\ Py.strip id = id /\ (","%char ∉ list_ascii_of_string id).

End ConfigSpec.

(** ** google_utils.py: document links

    The two patterns of [google_utils] use an optional character, a
    repeated character class and nested groups.  A pattern is given the
    list of the ways it can match at the start of a text, in the order in
    which a backtracking matcher tries them; the match that [re] reports is
    the first of the list. *)

Module Rx.

Inductive rx : Type :=
  | Str (lit : string)
  | Opt (c : ascii)
  | Plus (cls : ascii -> bool)
  | Seq (r1 r2 : rx)
  | Grp (r : rx).

(** The text after the literal, when the text starts with it. *)
Fixpoint after (lit s : string) : option string :=
  match lit, s with
  | EmptyString, _ => Some s
  | String a lit', String b s' => if Ascii.eqb a b then after lit' s' else None
  | String _ _, EmptyString => None
  end.

(** The ways [[cls]+] matches at the start of the text, longest first:
    the characters matched and the rest. *)
Fixpoint runs (cls : ascii -> bool) (s : string) : list (string * string) :=
  match s with
  | EmptyString => []
  | String c rest =>
      if cls c
      then ((fun mr => (String c (fst mr), snd mr)) <$> runs cls rest)
           ++ [(String c EmptyString, rest)]
      else []
  end.

(** A way to match: the characters matched, the texts of the groups in
    the order of their opening parentheses, and the rest of the text. *)
Definition Way : Type := string * list string * string.

Fixpoint ways (r : rx) (s : string) : list Way :=
  match r with
  | Str lit =>
      match after lit s with
      | Some rest => [(lit, [], rest)]
      | None => []
      end
  | Opt c =>
      match s with
      | String c' rest =>
          if Ascii.eqb c c' then [(String c EmptyString, [], rest)] else []
      | EmptyString => []
      end ++ [(EmptyString, [], s)]
  | Plus cls => (fun mr => (fst mr, [], snd mr)) <$> runs cls s
  | Seq r1 r2 =>
      w1 ← ways r1 s;
      w2 ← ways r2 (snd w1);
      [(fst (fst w1) +:+ fst (fst w2), snd (fst w1) ++ snd (fst w2), snd w2)]
  | Grp r1 => (fun w => (fst (fst w), fst (fst w) :: snd (fst w), snd w)) <$> ways r1 s
  end.

(** A match object: [groups] holds group 0, the whole match, and then
    the groups of the pattern. *)
Record Match : Type := mkMatch { groups : list string }.

(** [m.group(i)] *)
Definition group (m : Match) (i : nat) : option string := groups m !! i.

(** [re.search(r, s)]: the first way to match at the leftmost position
    that has one. *)
Fixpoint search (r : rx) (s : string) : option Match :=
  match ways r s with
  | w :: _ => Some (mkMatch (fst (fst w) :: snd (fst w)))
  | [] =>
      match s with
      | EmptyString => None
      | String _ rest => search r rest
      end
  end.

End Rx.

Module DocLinks.

(** [[a-zA-Z0-9_-]] *)
Definition id_char (c : ascii) : bool :=
  let n := nat_of_ascii c in
  ((97 <=? n) && (n <=? 122) || (65 <=? n) && (n <=? 90) || (48 <=? n) && (n <=? 57)
   || (n =? 95) || (n =? 45))%nat.

(** [_DOC_URL_RE]: [(https?://docs\.google\.com/document/d/([a-zA-Z0-9_-]+))] *)
Definition _DOC_URL_RE : Rx.rx :=
  Rx.Grp (Rx.Seq (Rx.Str "http")
            (Rx.Seq (Rx.Opt "s")
               (Rx.Seq (Rx.Str "://docs.google.com/document/d/")
                  (Rx.Grp (Rx.Plus id_char))))).

Definition extract_google_doc_link (text : string) : option string * option string :=
  if negb (Py.truthy text) then (None, None)
  else match Rx.search _DOC_URL_RE text with
       | None => (None, None)
       | Some m => (Rx.group m 1, Rx.group m 2)
       end.

(** [doc_id_from_url]: the pattern is [/document/d/([a-zA-Z0-9_-]+)]. *)
Definition doc_id_from_url (url : string) : option string :=
  match Rx.search (Rx.Seq (Rx.Str "/document/d/") (Rx.Grp (Rx.Plus id_char))) url with
  | Some m => Rx.group m 1
  | None => None
  end.

End DocLinks.

Module DocLinkSpec.

(** A document id: one or more of the characters a document id is made
    of. *)
Definition doc_id (id : string) : Prop :=
  id <> "" /\ forallb DocLinks.id_char (list_ascii_of_string id) = true.

(** The text does not go on with a character of a document id. *)
Definition stops (post : string) : Prop :=
  match post with
  | EmptyString => True
  | String c _ => DocLinks.id_char c = false
  end.

End DocLinkSpec.

(** ** google_utils.py: appending to a document *)

Module Docs.

Import GoogleUtils.



End Docs.

(** ** Further vocabulary *)

Module RelayLookupSpec.

Import RelayMemory RelaySpec.

(** The last of the saves made under the key [k]. *)
Definition last_save (k : string) (ops : list Save) : option Save :=
  last (filter (fun a => s_key a = k) ops).

(** The triple a lookup returns for the entry a save stores. *)
Definition triple_of (op : Save) : string * string * string :=
  (s_job op, s_channel op, s_ts op).

End RelayLookupSpec.

Module RouterFrame.

Import Sheets App RelaySpec.

(** Line 185 has run: the name [PENDING_INTERNAL] is bound. *)
Definition bound (s : State) : Prop := is_Some (PENDING_INTERNAL s).

(** Row [i] of the Question Log carries a response date. *)
Definition answered (g : Grid) (i : nat) : Prop := Py.strip (cell g i 6) <> "".

(** The columns of a row the router writes after the row was appended:
    G to J and M, N. *)
Definition rewritable (c : nat) : Prop := (6 <= c <= 9)%nat \/ (12 <= c <= 13)%nat.

(** [g'] still has every row of [g]: outside the rewritable columns the
    cells are those of [g], and an answered row is the same in all its
    cells. *)
Definition keeps_rows (g g' : Grid) : Prop :=
  (length g <= length g')%nat
  /\ forall i, (i < length g)%nat ->
       (forall c, ~ rewritable c -> cell g' i c = cell g i c)
       /\ (answered g i -> forall c, cell g' i c = cell g i c).

(** The dictionary stays bound and loses no key. *)
Definition keeps_keys (p p' : option (gmap string (string * string))) : Prop :=
  forall d, p = Some d ->
    exists d', p' = Some d' /\ forall k, is_Some (d !! k) -> is_Some (d' !! k).

(** What handling events may turn the state [s] into: the configuration,
    the Job Log and the services are those of [s]; the Pending-Internal
    dictionary loses no key; the relay cache changes by saves only; the
    Question Log keeps its rows; posted messages and log lines are only
    added. *)
Record evolves (s s' : State) : Prop := mkEvolves {
  ev_internal : INTERNAL_CHANNEL_IDS s' = INTERNAL_CHANNEL_IDS s;
  ev_client : CLIENT_CHANNEL_IDS s' = CLIENT_CHANNEL_IDS s;
  ev_joblog_id : JOBLOG_SHEET_ID s' = JOBLOG_SHEET_ID s;
  ev_joblog : joblog s' = joblog s;
  ev_users : users s' = users s;
  ev_down : down s' = down s;
  ev_clock : clock s' = clock s;
  ev_today : today s' = today s;
  ev_time_of_day : time_of_day s' = time_of_day s;
  ev_pending : keeps_keys (PENDING_INTERNAL s) (PENDING_INTERNAL s');
  ev_relay : exists ops, RELAY_MEM s' = run (RELAY_MEM s) ops;
  ev_questions : keeps_rows (questions s) (questions s');
  ev_posted : posted s `prefix_of` posted s';
  ev_log : log s `prefix_of` log s';
  ev_ticks : (ticks s <= ticks s')%nat
}.

(** The first of the candidates that is a non-empty string, or else the
    fallback. *)
Fixpoint first_truthy (candidates : list (option string)) (fallback : string) : string :=
  match candidates with
  | [] => fallback
  | c :: rest => if Py.truthy_opt c then default "" c else first_truthy rest fallback
  end.

(** The command, run once the dictionary is bound, leaves a state the
    one it started from may turn into, whether it returns or raises. *)
Definition steady {A : Type} (c : Cmd A) : Prop :=
  forall s, bound s -> evolves s (snd (c s)).

(** The command is steady and returns. *)
Definition sure {A : Type} (c : Cmd A) : Prop :=
  forall s, bound s -> evolves s (snd (c s)) /\ exists a, fst (c s) = Py.Return a.

(** The events [message_router] drops at its first test: no event, a
    subtype, or a bot as author. *)
Definition ignored (event : option Event) : Prop :=
  match event with
  | None => True
  | Some ev => Py.truthy_opt (subtype ev) = true \/ Py.truthy_opt (bot_id ev) = true
  end.

(** The events handled one after another, each by [message_router]. *)
Definition deliver (events : list (option Event)) (s : State) : State :=
  foldl (fun s ev => snd (message_router ev s)) s events.

End RouterFrame.

Module JobLogSpec.

(** [j] is the last position of the header [k] in the header row [hs]. *)
Definition last_index (hs : list string) (k : string) (j : nat) : Prop :=
  hs !! j = Some k /\ forall j', (j < j')%nat -> hs !! j' <> Some k.

(** The row has a cell in column [j] that, trimmed, is the job number. *)
Definition names_job (j : nat) (job : string) (r : list string) : Prop :=
  exists v, r !! j = Some v /\ Py.strip v = job.

End JobLogSpec.

(** ** Further scenarios *)

Module Flows.

Import App Scenario.

(** The question reposted by staff as a thread root in a client channel. *)
Definition client_root_message : Event :=
  mkEvent None None "C0CLIENT01" (Some "Please confirm #12345?")
    "1736155000.000200" None (Some "U0STAFF02").

(** A client answering in that thread. *)
Definition client_reply_message : Event :=
  mkEvent None None "C0CLIENT01" (Some "Yes, confirmed.")
    "1736155100.000300" (Some "1736155000.000200") (Some "U0CLIENT03").

(** The echo of the bot coming back as an event of the internal channel. *)
Definition bot_echo : Event :=
  mkEvent None (Some "B0RELAY") "C08HUKW7NDU" (Some "*Client reply* (U0CLIENT03) #12345?")
    "1736155101.000400" (Some "1736154900.000100") None.

(** Small talk in an internal channel. *)
Definition untagged_message : Event :=
  mkEvent None None "C08HUKW7NDU" (Some "Lunch at noon? #123")
    "1736154000.000050" None (Some "U024BE7LH").

(** The user directory of the workspace. *)
Definition directory : gmap string UserInfo :=
  <["U024BE7LH" := mkUser (Some "Dana Reyes") (Some "dana") (Some "dreyes")]>
    (<["U0CLIENT03" := mkUser (Some "") (Some "Sam (client)") (Some "sam")]> ∅).

(** A running process that knows these users. *)
Definition staffed (questions : Sheets.Grid) : State :=
  mkState ["C08HUKW7NDU"; "C08SLQ1J952"] [] (Some "joblog-sheet") (Some ∅)
    RelayMemory.default questions joblog_ewing_last directory [] (fun _ => false) []
    (fun n => 1736155000 + Z.of_nat n) 0 "2025-01-06" "09:20:00".

(** The process after the question was asked, and after it was reposted. *)
Definition asked : State :=
  snd (message_router (Some internal_message) (staffed [header_row])).

Definition reposted : State :=
  snd (message_router (Some client_root_message) asked).

End Flows.

(** * Properties *)

(** ** Relay Memory Cache *)

Section RelayFacts.

Import RelayMemory RelaySpec.

Implicit Types (m : gmap string entry) (o d : list string) (k : string).

Lemma without_delete m k ks : without (delete k m) ks = delete k (without m ks).
Proof.
  induction ks as [|k' ks IH]; simpl; [done|].
  by rewrite IH, delete_delete.
Qed.

Lemma without_app m d1 d2 : without m (d1 ++ d2) = without (without m d1) d2.
Proof.
  induction d1 as [|k d1 IH]; simpl; [done|].
  by rewrite without_delete, IH.
Qed.

Lemma lookup_without_Some m ks k v :
  without m ks !! k = Some v -> m !! k = Some v /\ k ∉ ks.
Proof.
  induction ks as [|k' ks IH]; simpl.
  - intros H. split; [done | apply not_elem_of_nil].
  - rewrite lookup_delete_Some. intros [Hne H]. destruct (IH H) as [Hm Hn].
    split; [done|]. rewrite not_elem_of_cons. done.
Qed.

(** What the first loop of [_evict] does: it drops a prefix [d] of the
    queue, all of whose keys name no entry or an expired one, removes their
    entries, and stops at a key that names a live entry (or at the end). *)
Lemma ttl_evict_spec now ttl m o :
  exists d,
    o = d ++ snd (ttl_evict now ttl m o)
    /\ fst (ttl_evict now ttl m o) = without m d
    /\ (forall k v, k ∈ d -> m !! k = Some v -> expired now ttl v)
    /\ (forall k, head (snd (ttl_evict now ttl m o)) = Some k ->
          exists v, m !! k = Some v /\ ~ expired now ttl v).
Proof.
  revert m. induction o as [|k rest IH]; intros m; simpl.
  - exists []. repeat split; try done. intros k v H. by apply elem_of_nil in H.
  - destruct (m !! k) as [v|] eqn:Hk.
    + destruct (now - created_at v >? ttl) eqn:Hexp.
      * destruct (IH (delete k m)) as (d & Ho & Hm & Hd & Hh).
        exists (k :: d). simpl. split; [by f_equal|]. split.
        { rewrite Hm. apply without_delete. }
        split.
        { intros k' v' Hin Hl. apply elem_of_cons in Hin as [->|Hin].
          - rewrite Hk in Hl. inversion Hl; subst. unfold expired. lia.
          - destruct (decide (k' = k)) as [->|Hne].
            + rewrite Hk in Hl. inversion Hl; subst. unfold expired. lia.
            + apply (Hd k' v' Hin). by rewrite lookup_delete_ne. }
        intros k' Hhd. destruct (Hh k' Hhd) as (v' & Hl & Hlive).
        apply lookup_delete_Some in Hl as [_ Hl]. eauto.
      * exists []. simpl. repeat split; try done.
        { intros k' v' H. by apply elem_of_nil in H. }
        intros k' [= <-]. exists v. split; [done|]. unfold expired. lia.
    + destruct (IH m) as (d & Ho & Hm & Hd & Hh).
      exists (k :: d). simpl. split; [by f_equal|]. split.
      { rewrite Hm. symmetry. apply delete_id.
        destruct (without m d !! k) eqn:E; [|done].
        apply lookup_without_Some in E as [E _]. congruence. }
      split.
      { intros k' v' Hin Hl. apply elem_of_cons in Hin as [->|Hin]; [congruence|].
        by apply (Hd k' v'). }
      exact Hh.
Qed.

(** What the second loop does: it drops exactly the keys in excess of
    [max_items] from the front, and their entries. *)
Lemma size_evict_spec n m o :
  snd (size_evict n m o) = drop (length o - n) o
  /\ fst (size_evict n m o) = without m (take (length o - n) o).
Proof.
  revert m. induction o as [|k rest IH]; intros m; simpl; [done|].
  destruct (n <? S (length rest))%nat eqn:Hlt.
  - apply Nat.ltb_lt in Hlt.
    destruct (IH (delete k m)) as [Ho Hm].
    replace (S (length rest) - n)%nat with (S (length rest - n)) by lia.
    simpl. split; [done|]. rewrite Hm. apply without_delete.
  - apply Nat.ltb_ge in Hlt.
    replace (S (length rest) - n)%nat with 0%nat by lia. done.
Qed.

Lemma covered_without m d o : covered m (d ++ o) -> covered (without m d) o.
Proof.
  intros Hc k [v Hv]. apply lookup_without_Some in Hv as [Hm Hn].
  specialize (Hc k (ex_intro _ v Hm)). apply elem_of_app in Hc as [?|?]; done.
Qed.

Lemma covered_size m o : covered m o -> (size m <= length o)%nat.
Proof.
  revert m. induction o as [|k rest IH]; intros m Hc; simpl.
  - assert (m = ∅) as ->.
    { apply map_empty. intros i. destruct (m !! i) eqn:E; [|done].
      specialize (Hc i (ex_intro _ _ E)). by apply elem_of_nil in Hc. }
    by rewrite map_size_empty.
  - assert (covered (delete k m) rest) as Hd.
    { intros k' [v Hv]. apply lookup_delete_Some in Hv as [Hne Hv].
      specialize (Hc k' (ex_intro _ v Hv)). apply elem_of_cons in Hc as [?|?]; congruence. }
    specialize (IH _ Hd). rewrite map_size_delete in IH.
    destruct (m !! k); simpl in IH; lia.
Qed.

(** [save_map] step by step: the key is appended to the queue and its entry
    stored; TTL eviction drops the prefix [d1] and leaves [o1]; capacity
    eviction then drops the excess of [o1] over [max_items]. *)
Lemma save_map_spec (self : t) job ich its k tc tn :
  let st := stored self job ich its k tc in
  let s' := save_map self job ich its k tc tn in
  exists d1 o1,
    order self ++ [k] = d1 ++ o1
    /\ (forall k1 v, k1 ∈ d1 -> map st !! k1 = Some v -> expired tn (ttl self) v)
    /\ (forall k1, head o1 = Some k1 ->
          exists v, map st !! k1 = Some v /\ ~ expired tn (ttl self) v)
    /\ order s' = drop (length o1 - max_items self) o1
    /\ map s' = without (map st) (d1 ++ take (length o1 - max_items self) o1)
    /\ max_items s' = max_items self /\ ttl s' = ttl self.
Proof.
  intros st s'. subst st s'. unfold save_map, _evict. simpl.
  pose proof (ttl_evict_spec tn (ttl self)
                (<[k:=(job, ich, its, tc)]> (map self)) (order self ++ [k]))
    as (d1 & Ho & Hm & Hd & Hh).
  destruct (ttl_evict tn (ttl self) (<[k:=(job, ich, its, tc)]> (map self))
              (order self ++ [k])) as [m1 o1] eqn:E1. simpl in *.
  pose proof (size_evict_spec (max_items self) m1 o1) as [Ho2 Hm2].
  destruct (size_evict (max_items self) m1 o1) as [m2 o2] eqn:E2. simpl in *.
  exists d1, o1. repeat split; try done.
  rewrite Hm2, Hm. symmetry. apply without_app.
Qed.

Lemma save_map_covered (self : t) job ich its k tc tn :
  covered (map self) (order self) ->
  covered (map (save_map self job ich its k tc tn))
          (order (save_map self job ich its k tc tn)).
Proof.
  intros Hc.
  destruct (save_map_spec self job ich its k tc tn)
    as (d1 & o1 & Ho & _ & _ & Ho' & Hm' & _).
  rewrite Ho', Hm'. apply covered_without.
  rewrite <- app_assoc, take_drop, <- Ho. simpl.
  intros k' Hk'. apply lookup_insert_is_Some in Hk' as [<-|[Hne Hk']].
  - apply elem_of_app. right. by apply list_elem_of_singleton.
  - apply elem_of_app. left. by apply Hc.
Qed.

Lemma run_snoc (self : t) ops op : run self (ops ++ [op]) = apply_save (run self ops) op.
Proof. unfold run. by rewrite foldl_app. Qed.

Lemma run_params (self : t) ops :
  max_items (run self ops) = max_items self /\ ttl (run self ops) = ttl self.
Proof.
  induction ops as [|op ops IH] using rev_ind; [done|].
  rewrite run_snoc. unfold apply_save.
  destruct (save_map_spec (run self ops) (s_job op) (s_channel op) (s_ts op)
              (s_key op) (s_created op) (s_now op))
    as (_ & _ & _ & _ & _ & _ & _ & Hmax & Httl).
  destruct IH. split; congruence.
Qed.

Lemma reachable_covered (self : t) : reachable self -> covered (map self) (order self).
Proof.
  intros [ops ->]. induction ops as [|op ops IH] using rev_ind.
  - intros k [v Hv]. simpl in Hv. by rewrite lookup_empty in Hv.
  - rewrite run_snoc. by apply save_map_covered.
Qed.

Lemma reachable_params (self : t) :
  reachable self -> max_items self = 30%nat /\ ttl self = 259200.
Proof. intros [ops ->]. apply (run_params default ops). Qed.

Lemma save_map_size (self : t) job ich its k tc tn :
  covered (map self) (order self) ->
  (size (map (save_map self job ich its k tc tn)) <= max_items self)%nat.
Proof.
  intros Hc. pose proof (save_map_covered self job ich its k tc tn Hc) as Hc'.
  apply covered_size in Hc'.
  destruct (save_map_spec self job ich its k tc tn)
    as (d1 & o1 & _ & _ & _ & Ho' & _).
  rewrite Ho' in Hc'. rewrite length_drop in Hc'. lia.
Qed.

Lemma lookup_without_notin m d k : k ∉ d -> without m d !! k = m !! k.
Proof.
  induction d as [|k' d IH]; simpl; [done|].
  rewrite not_elem_of_cons. intros [Hne Hn]. by rewrite lookup_delete_ne, IH.
Qed.

Lemma ascending_in m o k : ascending m o -> k ∈ o -> is_Some (m !! k).
Proof.
  induction o as [|k0 rest IH]; simpl.
  - intros _ H. by apply elem_of_nil in H.
  - intros [(v & Hv & _) Hr] Hin. apply elem_of_cons in Hin as [->|Hin]; eauto.
Qed.

Lemma ascending_app m d o : ascending m (d ++ o) -> ascending m o.
Proof. induction d as [|k d IH]; simpl; [done|]. intros [_ H]. auto. Qed.

Lemma ascending_without m d o :
  (forall k, k ∈ o -> k ∉ d) -> ascending m o -> ascending (without m d) o.
Proof.
  induction o as [|k0 rest IH]; simpl; [done|].
  intros Hnd [(v & Hv & Hle) Hr]. split.
  - exists v. split.
    + rewrite lookup_without_notin; [done|]. apply Hnd, elem_of_cons. by left.
    + intros k' v' Hin Hl. apply lookup_without_Some in Hl as [Hl _]. eauto.
  - apply IH; [|done]. intros k Hk. apply Hnd, elem_of_cons. by right.
Qed.

Lemma ascending_stored m o k (e : entry) :
  m !! k = None -> ascending m o ->
  (forall k' v', m !! k' = Some v' -> created_at v' <= created_at e) ->
  ascending (<[k := e]> m) (o ++ [k]).
Proof.
  intros Hfresh Ha Hle. induction o as [|k0 rest IH]; simpl.
  - split; [|done]. exists e. rewrite lookup_insert_eq. split; [done|].
    intros k' v' Hin. by apply elem_of_nil in Hin.
  - simpl in Ha. destruct Ha as [(v & Hv & Hlater) Hr].
    assert (k0 <> k) as Hne by congruence.
    split; [|by apply IH].
    exists v. rewrite lookup_insert_ne by done. split; [done|].
    intros k' v' Hin Hl. apply lookup_insert_Some in Hl as [[<- <-]|[Hne' Hl]].
    + eauto.
    + apply elem_of_app in Hin as [Hin|Hin]; [eauto|].
      apply list_elem_of_singleton in Hin. congruence.
Qed.

(** A save of a new key, created no earlier than the entries present, keeps
    the cache chronological and leaves no expired entry in it. *)
Lemma save_map_chronological (self : t) job ich its k tc tn :
  chronological self ->
  map self !! k = None ->
  (forall k' v', map self !! k' = Some v' -> created_at v' <= tc) ->
  chronological (save_map self job ich its k tc tn)
  /\ forall k' v', map (save_map self job ich its k tc tn) !! k' = Some v' ->
       ~ expired tn (ttl self) v'.
Proof.
  intros (Hnd & Hcov & Hasc) Hfresh Hle.
  destruct (save_map_spec self job ich its k tc tn)
    as (d1 & o1 & Ho & _ & Hlive & Ho' & Hm' & _).
  simpl in *.
  set (e := (job, ich, its, tc)) in *.
  set (n := (length o1 - max_items self)%nat) in *.
  assert (k ∉ order self) as Hk.
  { intros Hin. destruct (ascending_in _ _ _ Hasc Hin) as [? ?]. congruence. }
  assert (NoDup (d1 ++ o1)) as Hnd1.
  { rewrite <- Ho. apply NoDup_app. repeat split; [done| |apply NoDup_singleton].
    intros x Hx Hx'. apply list_elem_of_singleton in Hx'. congruence. }
  assert (ascending (<[k:=e]> (map self)) (d1 ++ o1)) as Hasc1.
  { rewrite <- Ho. by apply ascending_stored. }
  assert (covered (<[k:=e]> (map self)) (d1 ++ o1)) as Hcov1.
  { rewrite <- Ho. intros k' Hk'. apply lookup_insert_is_Some in Hk' as [<-|[Hne Hk']].
    - apply elem_of_app. right. by apply list_elem_of_singleton.
    - apply elem_of_app. left. by apply Hcov. }
  assert (d1 ++ o1 = (d1 ++ take n o1) ++ drop n o1) as Hsplit.
  { by rewrite <- app_assoc, take_drop. }
  split.
  - unfold chronological. rewrite Ho', Hm'. rewrite Hsplit in Hnd1, Hasc1, Hcov1.
    apply NoDup_app in Hnd1 as (_ & Hdisj & Hnd2).
    repeat split; [done|by apply covered_without|].
    apply ascending_without.
    + intros x Hx Hx'. by apply (Hdisj x).
    + by apply ascending_app in Hasc1.
  - intros k' v' Hl. rewrite Hm' in Hl. apply lookup_without_Some in Hl as [Hl Hn].
    assert (k' ∈ o1) as Hin.
    { specialize (Hcov1 k' (ex_intro _ v' Hl)).
      apply elem_of_app in Hcov1 as [Hd|?]; [|done].
      exfalso. apply Hn, elem_of_app. by left. }
    destruct o1 as [|k1 r1]; [by apply elem_of_nil in Hin|].
    destruct (Hlive k1 eq_refl) as (v1 & Hv1 & Hnexp).
    apply ascending_app in Hasc1. simpl in Hasc1.
    destruct Hasc1 as [(v1' & Hv1' & Hlater) _].
    assert (v1' = v1) as -> by congruence.
    apply elem_of_cons in Hin as [->|Hin].
    + by assert (v' = v1) as -> by congruence.
    + specialize (Hlater k' v' Hin Hl). unfold expired in *. lia.
Qed.

(** Every entry of a cache built by saves was stored by one of them. *)
Lemma run_provenance ops k v :
  map (run default ops) !! k = Some v ->
  exists a, a ∈ ops /\ s_key a = k /\ v = entry_of a.
Proof.
  revert k v. induction ops as [|op ops IH] using rev_ind; intros k v.
  - simpl. by rewrite lookup_empty.
  - rewrite run_snoc. unfold apply_save. intros Hl.
    destruct (save_map_spec (run default ops) (s_job op) (s_channel op) (s_ts op)
                (s_key op) (s_created op) (s_now op))
      as (d1 & o1 & _ & _ & _ & _ & Hm' & _).
    rewrite Hm' in Hl. apply lookup_without_Some in Hl as [Hl _]. simpl in Hl.
    apply lookup_insert_Some in Hl as [[<- <-]|[Hne Hl]].
    + exists op. split; [|done]. apply elem_of_app. right. by apply list_elem_of_singleton.
    + destruct (IH _ _ Hl) as (a & Ha & Hk & Hv). exists a. split; [|done].
      apply elem_of_app. by left.
Qed.

Lemma orderly_snoc ops op :
  orderly (ops ++ [op]) ->
  orderly ops /\ forall a, a ∈ ops -> s_key a <> s_key op /\ s_created a <= s_created op.
Proof.
  intros H. split.
  - intros i j a b Hij Ha Hb. apply (H i j a b Hij).
    + by apply lookup_app_l_Some.
    + by apply lookup_app_l_Some.
  - intros a Ha. apply list_elem_of_lookup in Ha as [i Hi].
    apply (H i (length ops) a op).
    + by apply lookup_lt_Some in Hi.
    + by apply lookup_app_l_Some.
    + rewrite lookup_app_r by lia. by rewrite Nat.sub_diag.
Qed.

Lemma run_orderly ops : orderly ops -> chronological (run default ops).
Proof.
  induction ops as [|op ops IH] using rev_ind; intros Hord.
  - repeat split; simpl; [apply NoDup_nil_2|].
    intros k [v Hv]. by rewrite lookup_empty in Hv.
  - apply orderly_snoc in Hord as [Hord Hop]. rewrite run_snoc.
    apply save_map_chronological; [by apply IH| |].
    + destruct (map (run default ops) !! s_key op) as [v|] eqn:E; [|done].
      apply run_provenance in E as (a & Ha & Hk & _). by destruct (Hop a Ha).
    + intros k' v' Hl. apply run_provenance in Hl as (a & Ha & _ & ->).
      by destruct (Hop a Ha).
Qed.

Lemma run_orderly_live ops op k v :
  orderly (ops ++ [op]) ->
  map (run default (ops ++ [op])) !! k = Some v ->
  s_now op - created_at v <= 259200.
Proof.
  intros Hord Hl. apply orderly_snoc in Hord as [Hord Hop].
  rewrite run_snoc in Hl. unfold apply_save in Hl.
  destruct (save_map_chronological (run default ops) (s_job op) (s_channel op) (s_ts op)
              (s_key op) (s_created op) (s_now op)) as [_ Hlive].
  - by apply run_orderly.
  - destruct (map (run default ops) !! s_key op) as [v0|] eqn:E; [|done].
    apply run_provenance in E as (a & Ha & Hk & _). by destruct (Hop a Ha).
  - intros k' v' Hl'. apply run_provenance in Hl' as (a & Ha & _ & ->).
    by destruct (Hop a Ha).
  - specialize (Hlive k v Hl).
    destruct (run_params default ops) as [_ Httl]. rewrite Httl in Hlive.
    unfold expired in Hlive. simpl in Hlive. lia.
Qed.

Lemma exact_size m o :
  NoDup o -> covered m o -> (forall k, k ∈ o -> is_Some (m !! k)) -> size m = length o.
Proof.
  intros Hnd Hc Hp.
  assert (dom m = list_to_set o) as Hdom.
  { apply set_eq. intros k. rewrite elem_of_dom, elem_of_list_to_set. split; auto. }
  rewrite <- (size_dom (D := gset string)), Hdom. by apply size_list_to_set.
Qed.

Lemma last_window {A} (l : list A) (x : A) (n : nat) :
  (0 < n)%nat ->
  drop (length (drop (length l - n) l ++ [x]) - n) (drop (length l - n) l ++ [x])
  = drop (length (l ++ [x]) - n) (l ++ [x]).
Proof.
  intros Hn. rewrite !length_app, length_drop. simpl.
  destruct (decide (length l < n)%nat) as [Hlt|Hge].
  - replace (length l - n)%nat with 0%nat by lia. rewrite drop_0.
    by replace (length l - 0 + 1 - n)%nat with (length l + 1 - n)%nat by lia.
  - replace (length l - (length l - n) + 1 - n)%nat with 1%nat by lia.
    rewrite (drop_app_le l [x]) by lia.
    rewrite (drop_app_le _ [x]) by (rewrite length_drop; lia).
    rewrite drop_drop. f_equal. f_equal. lia.
Qed.

(** Saves of distinct keys during which nothing expires: the queue is the
    window of the last [30] keys and the map holds exactly their entries. *)
Lemma run_window ops :
  NoDup (s_key <$> ops) -> unexpiring 259200 ops ->
  order (run default ops) = drop (length ops - 30) (s_key <$> ops)
  /\ (forall a, a ∈ drop (length ops - 30) ops ->
        map (run default ops) !! s_key a = Some (entry_of a)).
Proof.
  induction ops as [|op ops IH] using rev_ind; intros Hnd Hun.
  - split; [done|]. intros a Ha. by apply elem_of_nil in Ha.
  - rewrite fmap_app in Hnd. simpl in Hnd.
    apply NoDup_app in Hnd as (Hnd & Hnew & _).
    assert (s_key op ∉ s_key <$> ops) as Hfresh.
    { intros Hin. apply (Hnew _ Hin). by apply list_elem_of_singleton. }
    assert (unexpiring 259200 ops) as Hun'.
    { intros a b Ha Hb. apply Hun; apply elem_of_app; by left. }
    destruct (IH Hnd Hun') as [IHo IHm]. clear IH.
    rewrite run_snoc. unfold apply_save.
    destruct (save_map_spec (run default ops) (s_job op) (s_channel op) (s_ts op)
                (s_key op) (s_created op) (s_now op))
      as (d1 & o1 & Ho & Hexp & _ & Ho' & Hm' & _).
    destruct (run_params default ops) as [Hmax Httl].
    rewrite Hmax, Httl in *. simpl in Hexp, Hm', Ho', Hmax, Httl.
    fold (entry_of op) in Hexp, Hm'.
    (* what the stored map holds under each key of the queue *)
    assert (forall k, k ∈ order (run default ops) ++ [s_key op] ->
              exists a, a ∈ ops ++ [op] /\
                <[s_key op := entry_of op]> (map (run default ops)) !! k
                = Some (entry_of a)) as Hheld.
    { intros k Hk. apply elem_of_app in Hk as [Hk|Hk].
      - rewrite IHo, <- fmap_drop in Hk.
        apply list_elem_of_fmap in Hk as (a & -> & Ha).
        exists a. split.
        + apply elem_of_app. left. by apply (subseteq_drop _ _ _ Ha).
        + rewrite lookup_insert_ne; [by apply IHm|].
          intros E. apply Hfresh. rewrite E. apply list_elem_of_fmap_2.
          by apply (subseteq_drop _ _ _ Ha).
      - apply list_elem_of_singleton in Hk as ->. exists op. split.
        + apply elem_of_app. right. by apply list_elem_of_singleton.
        + by rewrite lookup_insert_eq. }
    (* so TTL eviction drops nothing *)
    assert (d1 = []) as ->.
    { destruct d1 as [|k1 d1]; [done|]. exfalso.
      assert (k1 ∈ order (run default ops) ++ [s_key op]) as Hin.
      { rewrite Ho. apply elem_of_cons. by left. }
      destruct (Hheld k1 Hin) as (a & Ha & Hl).
      assert (k1 ∈ k1 :: d1) as Hin' by (apply elem_of_cons; by left).
      specialize (Hexp k1 _ Hin' Hl). unfold expired in Hexp. simpl in Hexp.
      assert (op ∈ ops ++ [op]) as Hop
        by (apply elem_of_app; right; by apply list_elem_of_singleton).
      specialize (Hun a op Ha Hop). lia. }
    simpl in Ho, Hm'. subst o1. rewrite IHo in Ho', Hm'.
    assert (order
              (save_map (run default ops) (s_job op) (s_channel op) (s_ts op)
                 (s_key op) (s_created op) (s_now op))
            = drop (length (ops ++ [op]) - 30) (s_key <$> ops ++ [op])) as Hwin.
    { rewrite Ho'. rewrite <- (length_fmap s_key ops).
      rewrite last_window by lia. rewrite fmap_app. simpl.
      by rewrite !length_app, length_fmap. }
    split; [exact Hwin|].
    intros a Ha.
    assert (s_key a ∈ drop (length (ops ++ [op]) - 30) (s_key <$> ops ++ [op])) as Hka.
    { rewrite <- fmap_drop. by apply list_elem_of_fmap_2. }
    rewrite <- Hwin, Ho' in Hka.
    rewrite Hm'. rewrite lookup_without_notin.
    + rewrite length_app in Ha. simpl in Ha.
      rewrite drop_app_le in Ha by lia.
      apply elem_of_app in Ha as [Ha|Ha].
      * assert (a ∈ drop (length ops - 30) ops) as Ha'.
        { replace (length ops + 1 - 30)%nat
            with ((length ops - 30) + (length ops + 1 - 30 - (length ops - 30)))%nat
            in Ha by lia.
          rewrite <- drop_drop in Ha. by apply (subseteq_drop _ _ _ Ha). }
        rewrite lookup_insert_ne; [by apply IHm|].
        intros E. apply Hfresh. rewrite E. apply list_elem_of_fmap_2.
        by apply (subseteq_drop _ _ _ Ha').
      * apply list_elem_of_singleton in Ha as ->. by rewrite lookup_insert_eq.
    + set (o := drop (length ops - 30) (s_key <$> ops) ++ [s_key op]) in *.
      set (n := (length o - 30)%nat) in *.
      assert (NoDup o) as Hndo.
      { subst o. apply NoDup_app. repeat split; [|
          intros x Hx Hx'; apply list_elem_of_singleton in Hx'; subst x;
          apply Hfresh; by apply (subseteq_drop _ _ _ Hx) | apply NoDup_singleton].
        rewrite <- (take_drop (length ops - 30) (s_key <$> ops)) in Hnd.
        by apply NoDup_app in Hnd as (_ & _ & ?). }
      rewrite <- (take_drop n o) in Hndo.
      apply NoDup_app in Hndo as (_ & Hdisj & _).
      intros Hin. by apply (Hdisj _ Hin).
Qed.

End RelayFacts.

(** ** Relay Memory Cache: the claims *)

Section RelayClaims.

Import RelayMemory RelaySpec Scenario.

(** C7, as stated, fails: the TTL half of the invariant does not hold after
    every save.  Key [A] is saved at time 0, key [B] at time 1, and key [A]
    again at time 300000.  The queue is then [A; B; A] and its front key
    names the entry just refreshed, so the first loop of [_evict] stops at
    once and the entry of [B], 299999 seconds old, stays in the map. *)
Lemma relay_ttl_invariant_fails :
  ~ (forall self op k v,
       reachable self ->
       map (apply_save self op) !! k = Some v ->
       s_now op - created_at v <= 259200).
Proof.
  intros H.
  pose (a := mkSave "11111" "C08HUKW7NDU" "1.000100" "A" 0 0).
  pose (b := mkSave "22222" "C08HUKW7NDU" "2.000200" "B" 1 1).
  pose (a' := mkSave "11111" "C08HUKW7NDU" "1.000100" "A" 300000 300000).
  specialize (H (run default [a; b]) a' "B" ("22222", "C08HUKW7NDU", "2.000200", 1)).
  assert (reachable (run default [a; b])) as Hr by (by exists [a; b]).
  specialize (H Hr). simpl in H.
  assert (300000 - 1 <= 259200) as Habs; [|lia].
  apply H. vm_compute. reflexivity.
Qed.

(** C7, amended.  For every save on a cache the process can hold:
    - the map holds at most 30 entries afterwards;
    - no entry older than 259200 seconds at that save remains, provided the
      saves so far had pairwise distinct keys and creation times that never
      decrease;
    - eviction takes keys from the front of the queue only, the queue being
      the old one with the saved key appended (a key saved again keeps its
      old place): first the prefix [d1] of keys that name no entry or an
      expired one, up to the first key naming a live entry, then the excess
      over 30 of what is left;
    - 31 saves of distinct keys, none of which expires meanwhile, leave
      exactly the 30 entries saved last, the first key being evicted. *)
Theorem relay_save_eviction :
  (forall self op, reachable self -> (size (map (apply_save self op)) <= 30)%nat)
  /\ (forall ops op k v,
        orderly (ops ++ [op]) ->
        map (run default (ops ++ [op])) !! k = Some v ->
        s_now op - created_at v <= 259200)
  /\ (forall self op, reachable self ->
        exists d1 o1,
          order self ++ [s_key op] = d1 ++ o1
          /\ (forall k v, k ∈ d1 ->
                <[s_key op := entry_of op]> (map self) !! k = Some v ->
                s_now op - created_at v > 259200)
          /\ (forall k, head o1 = Some k ->
                exists v, <[s_key op := entry_of op]> (map self) !! k = Some v
                          /\ s_now op - created_at v <= 259200)
          /\ order (apply_save self op) = drop (length o1 - 30) o1
          /\ map (apply_save self op)
             = without (<[s_key op := entry_of op]> (map self))
                 (d1 ++ take (length o1 - 30) o1))
  /\ (forall first rest,
        length rest = 30%nat ->
        NoDup (s_key <$> first :: rest) ->
        unexpiring 259200 (first :: rest) ->
        size (map (run default (first :: rest))) = 30%nat
        /\ map (run default (first :: rest)) !! s_key first = None
        /\ order (run default (first :: rest)) = s_key <$> rest
        /\ forall a, a ∈ rest ->
             map (run default (first :: rest)) !! s_key a = Some (entry_of a)).
Proof.
  split; [|split; [|split]].
  - intros self op Hr. destruct (reachable_params self Hr) as [Hmax _].
    rewrite <- Hmax. apply save_map_size. by apply reachable_covered.
  - intros ops op k v. apply run_orderly_live.
  - intros self op Hr. destruct (reachable_params self Hr) as [Hmax Httl].
    destruct (save_map_spec self (s_job op) (s_channel op) (s_ts op) (s_key op)
                (s_created op) (s_now op))
      as (d1 & o1 & Ho & Hexp & Hlive & Ho' & Hm' & _).
    rewrite Hmax, Httl in *. simpl in Hexp, Hlive, Hm'.
    exists d1, o1. repeat split; done.
  - intros first rest Hlen Hnd Hun.
    destruct (run_window (first :: rest) Hnd Hun) as [Ho Hm].
    replace (length (first :: rest) - 30)%nat with 1%nat in Ho, Hm by (simpl; lia).
    change (drop 1 (first :: rest)) with rest in Hm.
    change (drop 1 (s_key <$> first :: rest)) with (s_key <$> rest) in Ho.
    assert (covered (map (run default (first :: rest)))
              (order (run default (first :: rest)))) as Hcov.
    { apply reachable_covered. by exists (first :: rest). }
    rewrite fmap_cons in Hnd. apply NoDup_cons in Hnd as [Hfirst Hnd].
    split; [|split; [|split]]; [| |exact Ho|exact Hm].
    + rewrite (exact_size _ (s_key <$> rest)).
      * by rewrite length_fmap.
      * done.
      * by rewrite <- Ho.
      * intros k Hk. apply list_elem_of_fmap in Hk as (a & -> & Ha).
        rewrite (Hm a Ha). eauto.
    + destruct (map (run default (first :: rest)) !! s_key first) eqn:E; [|done].
      exfalso. apply Hfirst. rewrite <- Ho. apply Hcov. eauto.
Qed.

(** The invariant on a run of 31 saves, one per second. *)
Lemma relay_save_eviction_witness :
  (size (map (apply_save (run default (demo_saves 0 30)) (demo_save 30))) <= 30)%nat
  /\ (forall k v,
        map (run default (demo_saves 0 1 ++ [demo_save 1])) !! k = Some v ->
        s_now (demo_save 1) - created_at v <= 259200)
  /\ size (map (run default (demo_save 0 :: demo_saves 1 30))) = 30%nat
  /\ map (run default (demo_save 0 :: demo_saves 1 30)) !! s_key (demo_save 0) = None.
Proof.
  destruct relay_save_eviction as (Hsize & Httl & _ & Hwindow).
  split; [|split].
  - apply Hsize. by exists (demo_saves 0 30).
  - intros k v. apply Httl.
    intros i j a b Hij Ha Hb.
    destruct i as [|[|i]], j as [|[|j]]; try lia; simpl in Ha, Hb; try done.
    inversion Ha; inversion Hb; subst; simpl. split; [done|lia].
  - destruct (Hwindow (demo_save 0) (demo_saves 1 30)) as (H1 & H2 & _).
    + reflexivity.
    + apply (bool_decide_unpack _). vm_compute. reflexivity.
    + change (demo_save 0 :: demo_saves 1 30) with (demo_saves 0 31).
      intros a b Ha Hb.
      apply list_elem_of_fmap in Ha as (i & -> & Hi).
      apply list_elem_of_fmap in Hb as (j & -> & Hj).
      apply elem_of_seq in Hi. apply elem_of_seq in Hj. simpl. lia.
    + split; [exact H1 | exact H2].
Defined.

(** C9.  A lookup returns the triple of every entry that is in the map,
    however old: [by_client_thread] reads no clock and leaves the cache as
    it is, so an entry older than the TTL stays visible through any number
    of lookups; only the eviction run by a later save can remove it. *)
Theorem lookup_ignores_ttl (self : t) (k job ich its : string) (created now : Z)
    (ks : list string) :
  map self !! k = Some (job, ich, its, created) ->
  now - created > ttl self ->
  by_client_thread self k = (Some (job, ich, its), self)
  /\ lookups self ks = self
  /\ fst (by_client_thread (lookups self ks) k) = Some (job, ich, its).
Proof.
  intros Hk _.
  assert (forall s k', snd (by_client_thread s k') = s) as Hsame.
  { intros s k'. unfold by_client_thread.
    destruct (map s !! k') as [[[[? ?] ?] ?]|]; done. }
  assert (lookups self ks = self) as Hl.
  { unfold lookups. induction ks as [|k' ks IH]; simpl; [done|]. by rewrite Hsame. }
  rewrite Hl. unfold by_client_thread. rewrite Hk. done.
Qed.

(** An entry created at time 0 and looked up at time 300000. *)
Lemma lookup_ignores_ttl_witness :
  let self := stored default "12345" "C08HUKW7NDU" "1.000100" "2.000200" 0 in
  by_client_thread self "2.000200" = (Some ("12345", "C08HUKW7NDU", "1.000100"), self)
  /\ lookups self ["2.000200"; "9.9"] = self
  /\ fst (by_client_thread (lookups self ["2.000200"; "9.9"]) "2.000200")
     = Some ("12345", "C08HUKW7NDU", "1.000100").
Proof.
  intros self.
  apply (lookup_ignores_ttl self "2.000200" "12345" "C08HUKW7NDU" "1.000100" 0 300000).
  - vm_compute. reflexivity.
  - simpl. lia.
Defined.

End RelayClaims.

(** ** Job tags *)

Section JobTagFacts.

Import Re TagSpec.

Local Arguments Ascii.eqb : simpl never.
Local Arguments is_digit : simpl never.
Local Arguments String.append : simpl nomatch.

Lemma length_append (a b : string) :
  String.length (a +:+ b) = (String.length a + String.length b)%nat.
Proof. induction a as [|c a IH]; simpl; [done|]. by rewrite IH. Qed.


Lemma append_assoc (a b c : string) : (a +:+ b) +:+ c = a +:+ (b +:+ c).
Proof.
  induction a as [|x a IH]; [done|].
  change (String x ((a +:+ b) +:+ c) = String x (a +:+ (b +:+ c))). by rewrite IH.
Qed.

(** A match of [JOB_TAG_RE] at the start of [s] is a job tag there. *)
Lemma match_here_tag_inv s g m r :
  match_here App.JOB_TAG_RE s = Some (g, m, r) ->
  exists job, s = "#" +:+ job +:+ "?" +:+ r /\ five_digits job /\ g = [job].
Proof.
  unfold App.JOB_TAG_RE. cbn.
  destruct s as [|c0 s]; [done|].
  destruct (Ascii.eqb_spec "#" c0) as [<-|]; [|done].
  destruct s as [|c1 s]; [done|]. destruct (is_digit c1) eqn:E1; [|done].
  destruct s as [|c2 s]; [done|]. destruct (is_digit c2) eqn:E2; [|done].
  destruct s as [|c3 s]; [done|]. destruct (is_digit c3) eqn:E3; [|done].
  destruct s as [|c4 s]; [done|]. destruct (is_digit c4) eqn:E4; [|done].
  destruct s as [|c5 s]; [done|]. destruct (is_digit c5) eqn:E5; [|done].
  destruct s as [|c6 s]; [done|].
  destruct (Ascii.eqb_spec "?" c6) as [<-|]; [|done].
  intros [= <- <- <-].
  exists (String c1 (String c2 (String c3 (String c4 (String c5 EmptyString))))).
  split; [reflexivity|]. split; [|reflexivity]. split; [reflexivity|].
  change (is_digit c1 && (is_digit c2 && (is_digit c3 && (is_digit c4
            && (is_digit c5 && true)))) = true).
  by rewrite E1, E2, E3, E4, E5.
Qed.

(** A job tag at the start of [s] is matched, and its digits captured. *)
Lemma match_here_tag_intro job r :
  five_digits job ->
  match_here App.JOB_TAG_RE ("#" +:+ job +:+ "?" +:+ r)
  = Some ([job], "#" +:+ job +:+ "?", r).
Proof.
  intros [Hlen Hdig].
  destruct job as [|c1 [|c2 [|c3 [|c4 [|c5 [|c6 job]]]]]]; try done.
  change (is_digit c1 && (is_digit c2 && (is_digit c3 && (is_digit c4
            && (is_digit c5 && true)))) = true) in Hdig.
  destruct (is_digit c1) eqn:E1; [|done]. destruct (is_digit c2) eqn:E2; [|done].
  destruct (is_digit c3) eqn:E3; [|done]. destruct (is_digit c4) eqn:E4; [|done].
  destruct (is_digit c5) eqn:E5; [|done].
  unfold App.JOB_TAG_RE. cbn. rewrite Ascii.eqb_refl. cbn.
  rewrite E1. cbn. rewrite E2. cbn. rewrite E3. cbn. rewrite E4. cbn.
  rewrite E5. cbn. rewrite Ascii.eqb_refl. reflexivity.
Qed.

(** [search] returns the match at the leftmost position that has one. *)
Lemma search_from_Some pos r s m :
  search_from pos r s = Some m ->
  exists pre suf mm rest,
    s = pre +:+ suf
    /\ match_here r suf = Some (groups m, mm, rest)
    /\ start m = (pos + String.length pre)%nat
    /\ forall p q, s = p +:+ q -> (String.length p < String.length pre)%nat ->
         match_here r q = None.
Proof.
  revert pos. induction s as [|c s IH]; intros pos; simpl.
  - destruct (match_here r "") as [[[g mm] rest]|] eqn:E; [|done].
    intros [= <-]. exists "", "", mm, rest.
    split; [done|]. split; [done|]. split; [simpl; lia|].
    intros p q _ Hlt. simpl in Hlt. lia.
  - destruct (match_here r (String c s)) as [[[g mm] rest]|] eqn:E.
    + intros [= <-]. exists "", (String c s), mm, rest.
      split; [done|]. split; [done|]. split; [simpl; lia|].
      intros p q _ Hlt. simpl in Hlt. lia.
    + intros Hs. destruct (IH _ Hs) as (pre & suf & mm & rest & -> & Hm & Hst & Hmin).
      exists (String c pre), suf, mm, rest.
      split; [done|]. split; [done|]. split; [simpl; lia|].
      intros [|c' p] q Heq Hlt; simpl in *.
      * by subst q.
      * injection Heq as <- Heq. apply (Hmin p q Heq). lia.
Qed.



End JobTagFacts.

Section StripFacts.

Import Re TagSpec.

Local Arguments Ascii.eqb : simpl never.
Local Arguments is_digit : simpl never.
Local Arguments Py.isspace : simpl never.
Local Arguments String.append : simpl nomatch.

(** No character of a job tag is whitespace. *)
Lemma digit_not_space c : is_digit c = true -> Py.isspace c = false.
Proof.
  unfold is_digit, Py.isspace. intros H.
  apply andb_true_iff in H as [H1 H2].
  apply Nat.leb_le in H1. apply Nat.leb_le in H2.
  repeat (apply orb_false_iff; split); try apply andb_false_iff.
  - right. apply Nat.leb_gt. lia.
  - right. apply Nat.leb_gt. lia.
  - apply Nat.eqb_neq. lia.
  - apply Nat.eqb_neq. lia.
Qed.

Lemma rstrip_cons c s : Py.isspace c = false -> Py.rstrip (String c s) = String c (Py.rstrip s).
Proof. intros H. simpl. rewrite H. by destruct (Py.rstrip s). Qed.

(** [rstrip] cuts a suffix off. *)
Lemma rstrip_prefix s : exists ws, s = Py.rstrip s +:+ ws.
Proof.
  induction s as [|c s [ws IH]]; [by exists ""|].
  simpl. destruct (Py.rstrip s) as [|c' r'] eqn:E.
  - destruct (Py.isspace c).
    + by exists (String c s).
    + exists ws. simpl in *. congruence.
  - exists ws. simpl in *. congruence.
Qed.

Lemma groups_here_rstrip s : groups_here (Py.rstrip s) = groups_here s.
Proof.
  unfold groups_here.
  destruct (match_here App.JOB_TAG_RE s) as [[[g m] r]|] eqn:E.
  - apply match_here_tag_inv in E as (job & -> & Hdig & ->).
    assert (Py.rstrip ("#" +:+ job +:+ "?" +:+ r) = "#" +:+ job +:+ "?" +:+ Py.rstrip r) as ->.
    { destruct Hdig as [Hlen Hdig].
      destruct job as [|c1 [|c2 [|c3 [|c4 [|c5 [|c6 job]]]]]]; try done.
      change (is_digit c1 && (is_digit c2 && (is_digit c3 && (is_digit c4
                && (is_digit c5 && true)))) = true) in Hdig.
      destruct (is_digit c1) eqn:E1; [|done]. destruct (is_digit c2) eqn:E2; [|done].
      destruct (is_digit c3) eqn:E3; [|done]. destruct (is_digit c4) eqn:E4; [|done].
      destruct (is_digit c5) eqn:E5; [|done].
      change (Py.rstrip (String "#" (String c1 (String c2 (String c3 (String c4
                (String c5 (String "?" r)))))))
              = String "#" (String c1 (String c2 (String c3 (String c4
                  (String c5 (String "?" (Py.rstrip r)))))))).
      rewrite (rstrip_cons "#") by reflexivity.
      rewrite (rstrip_cons c1), (rstrip_cons c2), (rstrip_cons c3), (rstrip_cons c4),
        (rstrip_cons c5) by (by apply digit_not_space).
      by rewrite (rstrip_cons "?") by reflexivity. }
    by rewrite match_here_tag_intro.
  - destruct (match_here App.JOB_TAG_RE (Py.rstrip s)) as [[[g m] r]|] eqn:E'; [|done].
    exfalso. apply match_here_tag_inv in E' as (job & Heq & Hdig & _).
    destruct (rstrip_prefix s) as [ws Hs]. rewrite Heq in Hs.
    rewrite Hs in E.
    replace (("#" +:+ job +:+ "?" +:+ r) +:+ ws) with ("#" +:+ job +:+ "?" +:+ (r +:+ ws)) in E.
    + by rewrite match_here_tag_intro in E.
    + change (String "#" (job +:+ String "?" (r +:+ ws))
              = String "#" ((job +:+ String "?" r) +:+ ws)).
      f_equal. by rewrite append_assoc.
Qed.

(** The groups of the match found do not depend on where the count of
    positions starts. *)
Lemma search_groups_pos pos pos' (r : re) s :
  groups <$> search_from pos r s = groups <$> search_from pos' r s.
Proof.
  revert pos pos'. induction s as [|c s IH]; intros pos pos'; simpl.
  - by destruct (match_here r "") as [[[? ?] ?]|].
  - destruct (match_here r (String c s)) as [[[g m] rest]|]; [done|]. apply IH.
Qed.

Lemma search_groups_rstrip pos pos' s :
  groups <$> search_from pos App.JOB_TAG_RE (Py.rstrip s)
  = groups <$> search_from pos' App.JOB_TAG_RE s.
Proof.
  revert pos pos'. induction s as [|c s IH]; intros pos pos'; [done|].
  pose proof (groups_here_rstrip (String c s)) as Hh. unfold groups_here in Hh.
  change (search_from pos' App.JOB_TAG_RE (String c s))
    with (match match_here App.JOB_TAG_RE (String c s) with
          | Some (g, _, _) => Some (mkMatch pos' g)
          | None => search_from (S pos') App.JOB_TAG_RE s
          end).
  destruct (Py.rstrip (String c s)) as [|c' r'] eqn:E.
  - (* the text is all whitespace *)
    change (groups <$> search_from pos App.JOB_TAG_RE "") with (@None (list string)).
    change (match_here App.JOB_TAG_RE "") with (@None (list string * string * string)) in Hh.
    destruct (match_here App.JOB_TAG_RE (String c s)) as [[[g m] r]|]; [done|].
    rewrite <- (IH 0%nat (S pos')).
    simpl in E. destruct (Py.rstrip s); [reflexivity|done].
  - assert (c' = c /\ r' = Py.rstrip s) as [-> ->].
    { simpl in E. destruct (Py.rstrip s) as [|c'' r''].
      - destruct (Py.isspace c); [done|]. by injection E as <- <-.
      - by injection E as <- <-. }
    change (search_from pos App.JOB_TAG_RE (String c (Py.rstrip s)))
      with (match match_here App.JOB_TAG_RE (String c (Py.rstrip s)) with
            | Some (g, _, _) => Some (mkMatch pos g)
            | None => search_from (S pos) App.JOB_TAG_RE (Py.rstrip s)
            end).
    destruct (match_here App.JOB_TAG_RE (String c (Py.rstrip s))) as [[[g m] r]|];
      destruct (match_here App.JOB_TAG_RE (String c s)) as [[[g' m'] r2]|];
      done.
Qed.

Lemma search_groups_lstrip pos pos' s :
  groups <$> search_from pos App.JOB_TAG_RE (Py.lstrip s)
  = groups <$> search_from pos' App.JOB_TAG_RE s.
Proof.
  revert pos pos'. induction s as [|c s IH]; intros pos pos'; [done|].
  simpl Py.lstrip. destruct (Py.isspace c) eqn:Hc.
  - rewrite (IH pos (S pos')).
    change (search_from pos' App.JOB_TAG_RE (String c s))
      with (match match_here App.JOB_TAG_RE (String c s) with
            | Some (g, _, _) => Some (mkMatch pos' g)
            | None => search_from (S pos') App.JOB_TAG_RE s
            end).
    destruct (match_here App.JOB_TAG_RE (String c s)) as [[[g m] r]|] eqn:E; [|done].
    apply match_here_tag_inv in E as (job & Heq & _).
    injection Heq as -> _. vm_compute in Hc. discriminate Hc.
  - apply search_groups_pos.
Qed.

(** Trimming the text does not change the job tag found in it. *)
Lemma job_tag_strip s : App.job_tag (Py.strip s) = App.job_tag s.
Proof.
  unfold App.job_tag, Py.strip, search.
  pose proof (search_groups_rstrip 0 0 (Py.lstrip s)) as H1.
  pose proof (search_groups_lstrip 0 0 s) as H2.
  rewrite H2 in H1. unfold group.
  destruct (search_from 0 App.JOB_TAG_RE (Py.rstrip (Py.lstrip s))) as [m|];
    destruct (search_from 0 App.JOB_TAG_RE s) as [m'|]; simpl in H1; try done.
  by injection H1 as ->.
Qed.

End StripFacts.

(** ** The spreadsheet model *)

Section SheetFacts.

Import Sheets SheetSpec.

Implicit Types (g : Grid) (r : Row) (vs : list string).

Lemma at_col_set_cell r c v c' :
  at_col (set_cell r c v) c' = if decide (c' = c) then v else at_col r c'.
Proof.
  unfold at_col, set_cell. destruct (c <? length r)%nat eqn:Hlt.
  - apply Nat.ltb_lt in Hlt. destruct (decide (c' = c)) as [->|Hne].
    + by rewrite list_lookup_insert_eq.
    + by rewrite list_lookup_insert_ne.
  - apply Nat.ltb_ge in Hlt.
    destruct (decide (c' < length r)%nat) as [Hin|Hout].
    + rewrite lookup_app_l by done. destruct (decide (c' = c)); [lia|done].
    + rewrite lookup_app_r by lia.
      rewrite (proj2 (lookup_ge_None r c')) by lia.
      destruct (decide (c' < c)%nat) as [Hlo|Hhi].
      * rewrite lookup_app_l by (rewrite length_replicate; lia).
        rewrite lookup_replicate_2 by lia. destruct (decide (c' = c)); [lia|done].
      * rewrite lookup_app_r by (rewrite length_replicate; lia).
        rewrite length_replicate.
        destruct (decide (c' = c)) as [->|Hne].
        -- by replace (c - length r - (c - length r))%nat with 0%nat by lia.
        -- replace (c' - length r - (c - length r))%nat with (S (c' - c - 1)) by lia.
           done.
Qed.

Lemma at_col_write_at r c vs c' :
  at_col (write_at r c vs) c'
  = if decide (c <= c' < c + length vs)%nat then vs !!! (c' - c)%nat else at_col r c'.
Proof.
  revert r c. induction vs as [|v vs IH]; intros r c; simpl.
  - destruct (decide (c <= c' < c + 0)%nat); [lia|done].
  - rewrite IH, at_col_set_cell.
    destruct (decide (S c <= c' < S c + length vs)%nat) as [Hin|Hout].
    + destruct (decide (c <= c' < c + S (length vs))%nat); [|lia].
      replace (c' - c)%nat with (S (c' - S c)) by lia. done.
    + destruct (decide (c' = c)) as [->|Hne].
      * destruct (decide (c <= c < c + S (length vs))%nat); [|lia].
        by rewrite Nat.sub_diag.
      * destruct (decide (c <= c' < c + S (length vs))%nat); [lia|done].
Qed.

(** A write inside row [i] of the grid changes the cells it covers and no
    other. *)
Lemma cell_write_row g i c vs i' c' :
  (i < length g)%nat ->
  cell (write_row g i c vs) i' c'
  = if decide (i' = i /\ (c <= c' < c + length vs)%nat)
    then vs !!! (c' - c)%nat else cell g i' c'.
Proof.
  intros Hi. unfold write_row, cell.
  rewrite (proj2 (Nat.ltb_lt _ _) Hi).
  destruct (lookup_lt_is_Some_2 g i Hi) as [row Hrow].
  rewrite (list_lookup_total_correct g i row Hrow).
  destruct (decide (i' = i)) as [->|Hne].
  - rewrite list_lookup_insert_eq by done. rewrite Hrow, at_col_write_at.
    destruct (decide (c <= c' < c + length vs)%nat);
      destruct (decide (i = i /\ (c <= c' < c + length vs)%nat)); tauto.
  - rewrite list_lookup_insert_ne by done.
    destruct (decide (i' = i /\ (c <= c' < c + length vs)%nat)); tauto.
Qed.

Lemma length_write_row g i c vs :
  (i < length g)%nat -> length (write_row g i c vs) = length g.
Proof.
  intros Hi. unfold write_row. rewrite (proj2 (Nat.ltb_lt _ _) Hi).
  apply length_insert.
Qed.

(** What the code reads in a cell of the rows it was given is the trimmed
    cell of the grid, for the columns inside the range read. *)
Lemma field_values_get g (last : ascii) i c :
  (i < length g)%nat -> (c <= col last)%nat ->
  App.field (values_get g last !!! i) c = Py.strip (cell g i c).
Proof.
  intros Hi Hc. unfold values_get, App.field, cell.
  destruct (lookup_lt_is_Some_2 g i Hi) as [row Hrow].
  rewrite (list_lookup_total_correct _ i (take (S (col last)) row))
    by (by rewrite list_lookup_fmap, Hrow).
  rewrite Hrow. unfold at_col. rewrite lookup_take_lt by lia.
  by destruct (row !! c).
Qed.

Lemma truthy_false s : Py.truthy s = false <-> s = "".
Proof. destruct s; simpl; split; congruence. Qed.

(** The scan returns the lowest open question at or above row [n]. *)
Lemma find_unanswered_Some g (last : ascii) job n t :
  (n < length g)%nat -> (6 <= col last)%nat ->
  App.find_unanswered (values_get g last) job n = Some t ->
  exists i, t = (i + 1)%nat /\ (1 <= i <= n)%nat /\ unanswered g job i
            /\ forall j, (i < j <= n)%nat -> ~ unanswered g job j.
Proof.
  intros Hn Hc. induction n as [|n IH]; simpl; [done|].
  rewrite !field_values_get by lia.
  destruct (String.eqb_spec (Py.strip (cell g (S n) 0)) job) as [Hjob|Hjob]; simpl.
  - destruct (Py.truthy (Py.strip (cell g (S n) 6))) eqn:Hg; simpl.
    + intros Hf. destruct IH as (i & -> & Hi & Hu & Hmin); [lia|done|].
      exists i. split; [done|]. split; [lia|]. split; [done|].
      intros j Hj Hun. destruct (decide (j = S n)) as [->|Hne].
      * destruct Hun as [_ Hg']. rewrite Hg' in Hg. done.
      * apply (Hmin j); [lia|done].
    + intros [= <-]. exists (S n). split; [done|]. split; [lia|].
      split; [split; [done|by apply truthy_false]|]. intros j Hj. lia.
  - intros Hf. destruct IH as (i & -> & Hi & Hu & Hmin); [lia|done|].
    exists i. split; [done|]. split; [lia|]. split; [done|].
    intros j Hj Hun. destruct (decide (j = S n)) as [->|Hne].
    + by destruct Hun.
    + apply (Hmin j); [lia|done].
Qed.

(** The scan finds nothing only when no row from 1 to [n] is an open
    question of the job. *)
Lemma find_unanswered_None g (last : ascii) job n :
  (n < length g)%nat -> (6 <= col last)%nat ->
  App.find_unanswered (values_get g last) job n = None ->
  forall j, (1 <= j <= n)%nat -> ~ unanswered g job j.
Proof.
  intros Hn Hc. induction n as [|n IH]; simpl; [intros _ j Hj; lia|].
  rewrite !field_values_get by lia.
  destruct (String.eqb_spec (Py.strip (cell g (S n) 0)) job) as [Hjob|Hjob]; simpl.
  - destruct (Py.truthy (Py.strip (cell g (S n) 6))) eqn:Hg; simpl; [|done].
    intros Hf j Hj Hun. destruct (decide (j = S n)) as [->|Hne].
    + destruct Hun as [_ Hg']. rewrite Hg' in Hg. done.
    + apply (IH ltac:(lia) Hf j); [lia|done].
  - intros Hf j Hj Hun. destruct (decide (j = S n)) as [->|Hne].
    + by destruct Hun.
    + apply (IH ltac:(lia) Hf j); [lia|done].
Qed.

(** The scan of the whole sheet, as the two writers run it. *)
Lemma find_lowest_unanswered g (last : ascii) job i :
  (6 <= col last)%nat -> lowest_unanswered g job i ->
  App.find_unanswered (values_get g last) job (length (values_get g last) - 1)
  = Some (i + 1)%nat.
Proof.
  intros Hc (Hi & Hu & Hmin). unfold values_get at 2. rewrite length_fmap.
  destruct (App.find_unanswered (values_get g last) job (length g - 1)) as [t|] eqn:Hf.
  - apply find_unanswered_Some in Hf as (i' & -> & Hi' & Hu' & Hmin'); [|lia|done].
    f_equal. f_equal.
    destruct (decide (i' < i)%nat); [exfalso; apply (Hmin' i); [lia|done]|].
    destruct (decide (i < i')%nat); [exfalso; apply (Hmin i'); [lia|done]|].
    lia.
  - exfalso. apply (find_unanswered_None g last job (length g - 1)) with (j := i);
      [lia|done|done|lia|done].
Qed.

Lemma find_none_unanswered g (last : ascii) job :
  (6 <= col last)%nat -> none_unanswered g job ->
  App.find_unanswered (values_get g last) job (length (values_get g last) - 1) = None.
Proof.
  intros Hc Hnone. unfold values_get at 2. rewrite length_fmap.
  destruct (App.find_unanswered (values_get g last) job (length g - 1)) as [t|] eqn:Hf;
    [|done].
  destruct g as [|h g']; [done|].
  apply find_unanswered_Some in Hf as (i & -> & Hi & Hu & _); [|simpl; lia|done].
  exfalso. apply (Hnone i); [simpl in *; lia|done].
Qed.


(** What the client-thread writer does while the sheet service answers. *)
Lemma update_client_thread_info_run (s : App.State) job client_ts client_channel :
  App.down s App.SheetsGet = false ->
  App.down s App.SheetsUpdate = false ->
  App._update_client_thread_info job client_ts client_channel s
  = match values_get (App.questions s) "O" with
    | [] => (Py.Return tt, s)
    | _ :: _ =>
        match App.find_unanswered (values_get (App.questions s) "O") job
                (length (values_get (App.questions s) "O") - 1) with
        | None =>
            (Py.Return tt,
             App.set_log
               (App.log s ++
                [(App.WARNING, "No unanswered row found for job " +:+ job
                               +:+ "; skipping client thread info write.")]) s)
        | Some target =>
            (Py.Return tt,
             App.set_questions
               (write_row (App.questions s) (target - 1) 12 [client_ts; client_channel]) s)
        end
    end.
Proof.
  intros Hget Hupd.
  unfold App._update_client_thread_info, Py.try_except, App.get_questions,
    App.call, Py.bind. rewrite Hget. simpl.
  destruct (values_get (App.questions s) "O") as [|h rows] eqn:Hv; [done|].
  destruct (App.find_unanswered (h :: rows) job (length (h :: rows) - 1)) as [target|].
  - unfold App.update_questions, App.call, Py.bind. rewrite Hupd. simpl. done.
  - done.
Qed.

(** Without an open question of the job, the client-thread writer writes
    nothing and logs a warning. *)
Lemma update_client_thread_info_skips (s : App.State) job client_ts client_channel :
  App.down s App.SheetsGet = false ->
  App.questions s <> [] ->
  none_unanswered (App.questions s) job ->
  App._update_client_thread_info job client_ts client_channel s
  = (Py.Return tt,
     App.set_log
       (App.log s ++
        [(App.WARNING, "No unanswered row found for job " +:+ job
                       +:+ "; skipping client thread info write.")]) s).
Proof.
  intros Hget Hne Hnone.
  unfold App._update_client_thread_info, Py.try_except, App.get_questions,
    App.call, Py.bind. rewrite Hget. simpl.
  pose proof (find_none_unanswered _ "O" _ ltac:(vm_compute; lia) Hnone) as Hf.
  destruct (values_get (App.questions s) "O") as [|h rows] eqn:Hv.
  { unfold values_get in Hv. apply fmap_nil_inv in Hv. done. }
  by rewrite Hf.
Qed.

(** The cells the client-thread writer changes when the job has an open
    question: the two values land in columns M and N of its lowest open
    row; column O and every other cell keep their content. *)
Lemma update_client_thread_info_cells (s : App.State) job client_ts client_channel i :
  App.down s App.SheetsGet = false ->
  App.down s App.SheetsUpdate = false ->
  lowest_unanswered (App.questions s) job i ->
  forall (i' c : nat),
    cell (App.questions (snd (App._update_client_thread_info job client_ts client_channel s)))
      i' c
    = if decide (i' = i /\ c = col "M") then client_ts
      else if decide (i' = i /\ c = col "N") then client_channel
      else cell (App.questions s) i' c.
Proof.
  intros Hget Hupd Hlow r c.
  rewrite update_client_thread_info_run by done.
  pose proof (find_lowest_unanswered _ "O" _ _ ltac:(vm_compute; lia) Hlow) as Hf.
  destruct Hlow as (Hi & _).
  destruct (values_get (App.questions s) "O") as [|h rows] eqn:Hv.
  { unfold values_get in Hv. apply fmap_nil_inv in Hv. rewrite Hv in Hi. simpl in Hi. lia. }
  rewrite Hf. simpl. replace (i + 1 - 1)%nat with i by lia.
  rewrite cell_write_row by lia. simpl length.
  change (col "M") with 12%nat. change (col "N") with 13%nat.
  destruct (decide (r = i /\ (12 <= c < 12 + 2)%nat)) as [[-> Hc]|Hn].
  - destruct (decide (i = i /\ c = 12%nat)) as [[_ ->]|Hn1]; [done|].
    destruct (decide (i = i /\ c = 13%nat)) as [[_ ->]|Hn2]; [done|]. lia.
  - destruct (decide (r = i /\ c = 12%nat)) as [[-> ->]|Hn1]; [lia|].
    destruct (decide (r = i /\ c = 13%nat)) as [[-> ->]|Hn2]; [lia|]. done.
Qed.

End SheetFacts.

(** ** The sheet writers: the claims *)

Section SheetClaims.

Import Sheets SheetSpec App Scenario.

(** C2, on the code: with job 12345 open in row 2 of the sheet, the call
    [_update_client_thread_info("12345", ts, "C0CLIENT01")] writes the
    range [M2:O2] with two values.  The client timestamp lands in column M
    and the client channel in column N, over the internal channel that was
    there; column O stays empty. *)
Theorem client_thread_info_misses_column_O :
  let s := running [header_row; open_question] in
  let s' := snd (_update_client_thread_info "12345" "1736155000.000200" "C0CLIENT01" s) in
  cell (questions s) 1 (col "N") = "C08HUKW7NDU"
  /\ cell (questions s') 1 (col "M") = "1736155000.000200"
  /\ cell (questions s') 1 (col "N") = "C0CLIENT01"
  /\ cell (questions s') 1 (col "O") = "".
Proof. vm_compute. repeat split. Qed.




End SheetClaims.

(** ** Startup and the message router *)

Section RouterFacts.

Import Sheets App RouterSpec.

(** While [PENDING_INTERNAL] is unbound, the loop of the rebuild changes
    nothing: a row with job, internal timestamp and internal channel stops
    it with a [NameError] before any cache is written, and any other row is
    skipped. *)
Lemma rebuild_rows_unbound (s : State) (rows : Grid) :
  PENDING_INTERNAL s = None ->
  snd (Py.for_each rows rebuild_row s) = s.
Proof.
  intros Hp. induction rows as [|r rows IH]; [done|].
  simpl. unfold Py.bind at 1. unfold rebuild_row at 1.
  destruct (Py.truthy (field r 0) && Py.truthy (field r 11) && Py.truthy (field r 13))
    eqn:Hcond.
  - unfold Py.bind, Py.when, pending_internal_setitem, pending_internal, Py.bind, Py.get.
    rewrite Hp. done.
  - assert (Py.truthy (field r 0) && Py.truthy (field r 12) && Py.truthy (field r 11)
            && Py.truthy (field r 13) = false) as ->.
    { destruct (Py.truthy (field r 0)), (Py.truthy (field r 11)),
        (Py.truthy (field r 12)), (Py.truthy (field r 13)); done. }
    unfold Py.bind, Py.when, Py.ret. exact IH.
Qed.

Lemma rebuild_unbound (s : State) (n : nat) :
  PENDING_INTERNAL s = None ->
  exists lg, snd (rebuild_from_sheet_cache n s) = set_log lg s.
Proof.
  intros Hp. unfold rebuild_from_sheet_cache, Py.try_except, get_questions, call.
  unfold Py.bind at 1. unfold Py.bind at 1.
  destruct (down s SheetsGet).
  { eexists. reflexivity. }
  unfold Py.bind at 1. simpl.
  destruct (values_get (questions s) "O") as [|h rows]; simpl.
  { exists (log s). by destruct s. }
  unfold Py.bind at 1.
  pose proof (rebuild_rows_unbound s (drop (length rows - n) rows) Hp) as Hrows.
  destruct (Py.for_each (drop (length rows - n) rows) rebuild_row s) as [[[]|e] s1];
    simpl in Hrows; subst s1.
  - unfold pending_internal, Py.bind, Py.get. rewrite Hp. simpl. eexists. reflexivity.
  - eexists. reflexivity.
Qed.

Lemma logger_quiet lvl msg : quiet (logger lvl msg).
Proof. intros s. by exists tt, (log s ++ [(lvl, msg)]). Qed.

Lemma is_client_channel_quiet chan : quiet (_is_client_channel chan).
Proof.
  intros s. unfold _is_client_channel, Py.bind, Py.get, logger, Py.modify, Py.ret.
  destruct (bool_decide (chan ∈ INTERNAL_CHANNEL_IDS s)); [by eexists _, _|].
  destruct (CLIENT_CHANNEL_IDS s); by eexists _, _.
Qed.

Lemma get_user_name_safe_quiet user_id : quiet (_get_user_name_safe user_id).
Proof.
  intros s. unfold _get_user_name_safe, Py.try_except, users_info, call, Py.bind, Py.get,
    logger, Py.modify, Py.ret, Py.raise.
  destruct (down s UsersInfo).
  - by eexists _, _.
  - destruct (users s !! user_id).
    + eexists _, (log s). by destruct s.
    + by eexists _, _.
Qed.

Lemma joblog_lookup_quiet job_num :
  quiet (Py.try_except
           (let* hit := find_job_in_joblog job_num in
            match hit with
            | Some e => Py.ret (GoogleUtils.job_name e, GoogleUtils.monday_item_id e)
            | None => Py.ret ("", "")
            end)
           (fun e => logger ERROR ("Job Log lookup failed: " +:+ Py.exn_str e) >>
                     Py.ret ("", ""))).
Proof.
  intros s. unfold Py.try_except, find_job_in_joblog, read_range, Py.bind, Py.get.
  destruct (negb (Py.truthy_opt (JOBLOG_SHEET_ID s)));
    unfold call, Py.bind, Py.get, logger, Py.modify, Py.ret, Py.raise;
    [by eexists _, _|].
  destruct (down s SheetsGet); [by eexists _, _|].
  destruct (GoogleUtils.find_job_in_rows (values_get (joblog s) "H") job_num);
    eexists _, (log s); by destruct s.
Qed.

(** The branch of the router for a tagged internal message: whatever the
    user and Job Log lookups and the append do, the cache entry of the job
    is overwritten; the row reaches the sheet only if the append succeeds. *)
Lemma internal_question_run (s : State) (ev : Event) (text job_num : string)
    (d : gmap string (string * string)) :
  PENDING_INTERNAL s = Some d ->
  exists lg row err,
    internal_question ev text job_num s
    = (Py.Return tt,
       set_log lg
         (set_PENDING_INTERNAL (Some (<[job_num := (channel ev, ts ev)]> d))
            (if down s SheetsAppend then s
             else set_questions (questions s ++ [row]) s)))
    /\ row !! 0%nat = Some job_num
    /\ row !! 11%nat = Some (ts ev)
    /\ row !! 13%nat = Some (channel ev)
    /\ (down s SheetsAppend = true ->
         (ERROR, "Sheet append failed: " +:+ err) ∈ lg).
Proof.
  intros Hp. unfold internal_question.
  unfold Py.bind at 1.
  destruct (get_user_name_safe_quiet (default "" (user ev)) s) as (user_name & lg1 & ->).
  unfold Py.bind at 1. unfold Py.get at 1.
  unfold Py.bind at 1.
  destruct (joblog_lookup_quiet job_num (set_log lg1 s)) as (found & lg2 & ->).
  set (row := [job_num; fst found; today (set_log lg1 s); time_of_day (set_log lg1 s);
               user_name; text; ""; ""; ""; ""; snd found; ts ev; ""; channel ev; ""]).
  unfold Py.bind at 1. unfold Py.try_except, append_to_sheet, call.
  unfold Py.bind at 1. simpl.
  destruct (down s SheetsAppend) eqn:Happ.
  - unfold logger at 1, Py.modify at 1. simpl.
    unfold Py.bind, pending_internal_setitem, pending_internal, Py.bind, Py.get. simpl.
    rewrite Hp. simpl.
    eexists _, row, _. split; [reflexivity|]. repeat split; try done.
    intros _. apply elem_of_app. left. apply elem_of_app. right.
    by apply list_elem_of_singleton.
  - unfold Py.modify at 1. simpl.
    unfold Py.bind, pending_internal_setitem, pending_internal, Py.bind, Py.get. simpl.
    rewrite Hp. simpl.
    eexists _, row, "". split; [reflexivity|]. repeat split; done.
Qed.

(** The router on a tagged message of an internal channel that it does not
    ignore. *)
Lemma message_router_internal_run (s : State) (ev : Event) (job : string)
    (d : gmap string (string * string)) :
  PENDING_INTERNAL s = Some d ->
  Py.truthy_opt (subtype ev) = false ->
  Py.truthy_opt (bot_id ev) = false ->
  channel ev ∈ INTERNAL_CHANNEL_IDS s ->
  job_tag (Py.strip (default "" (text ev))) = Some job ->
  exists lg row err,
    message_router (Some ev) s
    = (Py.Return tt,
       set_log lg
         (set_PENDING_INTERNAL (Some (<[job := (channel ev, ts ev)]> d))
            (if down s SheetsAppend then s
             else set_questions (questions s ++ [row]) s)))
    /\ row !! 0%nat = Some job
    /\ row !! 11%nat = Some (ts ev)
    /\ row !! 13%nat = Some (channel ev)
    /\ (down s SheetsAppend = true ->
         (ERROR, "Sheet append failed: " +:+ err) ∈ lg).
Proof.
  intros Hp Hsub Hbot Hint Htag.
  unfold message_router. rewrite Hsub, Hbot. simpl.
  unfold Py.bind at 1. unfold logger at 1, Py.modify at 1.
  unfold Py.bind at 1. unfold Py.get at 1.
  unfold Py.bind at 1.
  match goal with |- context [_is_client_channel (channel ev) ?st] =>
    destruct (is_client_channel_quiet (channel ev) st) as (is_client & lg1 & ->) end.
  simpl INTERNAL_CHANNEL_IDS. rewrite (bool_decide_eq_true_2 _ Hint).
  unfold job_tag in Htag.
  destruct (Re.search JOB_TAG_RE (Py.strip (default "" (text ev)))) as [m|]; [|done].
  rewrite Htag. simpl default.
  match goal with |- context [internal_question ev ?tx job ?st] =>
    destruct (internal_question_run st ev tx job d Hp)
      as (lg & row & err & -> & H0 & H11 & H13 & Herr) end.
  exists lg, row, err. simpl down. split; [|done].
  by destruct (down s SheetsAppend).
Qed.

(** A [try] whose handler only logs never raises. *)
Lemma try_log_returns (c : Cmd unit) (lvl : Level) (msg : Py.exn -> string) (s : State) :
  fst (Py.try_except c (fun e => logger lvl (msg e)) s) = Py.Return tt.
Proof. unfold Py.try_except. by destruct (c s) as [[[]|e] s1]. Qed.

End RouterFacts.

Section RebuildFacts.

Import Sheets App RouterSpec.

(** Once [PENDING_INTERNAL] is bound, the loop of the rebuild replays the
    rows into the two caches and changes nothing else but the clock. *)
Lemma rebuild_rows_bound (rows : Grid) (s : State) (d : gmap string (string * string)) :
  PENDING_INTERNAL s = Some d ->
  Py.for_each rows rebuild_row s
  = (Py.Return tt,
     set_ticks (snd (replay_relay (clock s) (ticks s) (RELAY_MEM s) rows))
       (set_RELAY_MEM (fst (replay_relay (clock s) (ticks s) (RELAY_MEM s) rows))
          (set_PENDING_INTERNAL (Some (replay_pending d rows)) s))).
Proof.
  revert s d. induction rows as [|r rows IH]; intros s d Hp.
  - simpl. unfold Py.ret. f_equal. destruct s. simpl in Hp. by subst.
  - simpl Py.for_each. unfold Py.bind at 1. unfold rebuild_row at 1.
    fold (restores_pending r). fold (restores_relay r).
    unfold Py.bind at 1.
    destruct (restores_pending r) eqn:Hrp.
    + unfold Py.when at 1. unfold pending_internal_setitem, pending_internal.
      unfold Py.bind at 1. unfold Py.bind at 1. unfold Py.get at 1. rewrite Hp.
      unfold Py.ret at 1. unfold Py.modify at 1.
      set (s1 := set_PENDING_INTERNAL (Some (<[field r 0:=(field r 13, field r 11)]> d)) s).
      destruct (restores_relay r) eqn:Hrr.
      * unfold Py.when, Py.try_except, relay_save, time_time, Py.bind, Py.modify.
        simpl.
        rewrite (IH _ (<[field r 0:=(field r 13, field r 11)]> d)) by done.
        simpl. unfold replay_pending at 2. simpl. rewrite Hrp, Hrr. done.
      * unfold Py.when, Py.ret. cbv beta iota.
        rewrite (IH s1 (<[field r 0:=(field r 13, field r 11)]> d)) by done.
        simpl. unfold replay_pending at 2. simpl. rewrite Hrp, Hrr. done.
    + assert (restores_relay r = false) as Hrr.
      { unfold restores_relay, restores_pending in *.
        destruct (Py.truthy (field r 0)), (Py.truthy (field r 11)),
          (Py.truthy (field r 12)), (Py.truthy (field r 13)); done. }
      rewrite Hrr. unfold Py.when, Py.ret. cbv beta iota.
      rewrite (IH s d Hp). simpl. unfold replay_pending at 2. simpl. by rewrite Hrp, Hrr.
Qed.

(** Had the rebuild been called with [PENDING_INTERNAL] bound, it would
    have replayed the last [max_rows] data rows of the sheet into the two
    caches. *)
Lemma rebuild_after_binding (s : State) (d : gmap string (string * string))
    (max_rows : nat) (header : list string) (rows : Grid) :
  PENDING_INTERNAL s = Some d ->
  down s SheetsGet = false ->
  values_get (questions s) "O" = header :: rows ->
  let window := drop (length rows - max_rows) rows in
  exists lg,
    rebuild_from_sheet_cache max_rows s
    = (Py.Return tt,
       set_log lg
         (set_ticks (snd (replay_relay (clock s) (ticks s) (RELAY_MEM s) window))
            (set_RELAY_MEM (fst (replay_relay (clock s) (ticks s) (RELAY_MEM s) window))
               (set_PENDING_INTERNAL (Some (replay_pending d window)) s)))).
Proof.
  intros Hp Hget Hv window.
  unfold rebuild_from_sheet_cache, Py.try_except, get_questions, call.
  unfold Py.bind at 1. unfold Py.bind at 1. rewrite Hget.
  unfold Py.bind at 1. simpl. rewrite Hv.
  unfold Py.bind at 1. fold window. rewrite (rebuild_rows_bound window s d Hp).
  unfold pending_internal, Py.bind, Py.get, logger, Py.modify. simpl.
  eexists. reflexivity.
Qed.

(** Later rows overwrite earlier ones: the entry of a job is that of the
    last row of the window that restores it. *)
Lemma replay_pending_last (d : gmap string (string * string)) (before after : Grid)
    (r : list string) :
  restores_pending r = true ->
  (forall r', r' ∈ after -> restores_pending r' = true -> field r' 0 <> field r 0) ->
  replay_pending d (before ++ r :: after) !! field r 0 = Some (field r 13, field r 11).
Proof.
  intros Hr Hafter. unfold replay_pending. rewrite foldl_app. simpl. rewrite Hr.
  set (d1 := foldl _ d before). clearbody d1.
  assert (<[field r 0:=(field r 13, field r 11)]> d1 !! field r 0
          = Some (field r 13, field r 11)) as Hl by apply lookup_insert_eq.
  revert Hl. generalize (<[field r 0:=(field r 13, field r 11)]> d1).
  induction after as [|r' after IH]; intros d2 Hl; [done|].
  simpl. apply IH.
  - intros r'' Hin. apply Hafter. apply elem_of_cons. by right.
  - destruct (restores_pending r') eqn:Hr'; [|done].
    rewrite lookup_insert_ne; [done|]. apply Hafter; [|done]. apply elem_of_cons. by left.
Qed.

End RebuildFacts.

Section RouterClaims.

Import Sheets App Scenario.

(** C1, on the code.  [rebuild_from_sheet_cache] is called on line 180,
    before line 185 binds [PENDING_INTERNAL].  Whatever the Question Log
    holds, the call ends in the [NameError] its handler logs (or returns
    early), without having written either cache, and line 185 then binds
    an empty dictionary: after startup both caches are empty.  So they are
    for a sheet whose only data row carries all four fields. *)
Theorem startup_rebuild_leaves_caches_empty :
  (forall s : State,
     let s' := snd (module_body (before_import s)) in
     fst (module_body (before_import s)) = Py.Return tt
     /\ PENDING_INTERNAL s' = Some ∅
     /\ RELAY_MEM s' = RelayMemory.default
     /\ questions s' = questions s)
  /\ (let s' := snd (module_body (before_import (running [header_row; reposted_question]))) in
      PENDING_INTERNAL s' = Some ∅
      /\ RelayMemory.by_client_thread (RELAY_MEM s') "1736155000.000200" = (None, RELAY_MEM s')
      /\ log s' = [(ERROR, "rebuild_from_sheet_cache failed: name 'PENDING_INTERNAL' is not defined")]).
Proof.
  split.
  - intros s s'. subst s'.
    set (s0 := set_RELAY_MEM RelayMemory.default (before_import s)).
    assert (exists lg, module_body (before_import s)
                       = (Py.Return tt, set_PENDING_INTERNAL (Some ∅) (set_log lg s0)))
      as [lg ->].
    { unfold module_body. unfold Py.bind at 1. unfold Py.modify at 1.
      unfold Py.bind at 1. fold s0.
      destruct (rebuild_unbound s0 200 eq_refl) as [lg Hlg].
      assert (fst (rebuild_from_sheet_cache 200 s0) = Py.Return tt) as Hret
        by apply try_log_returns.
      destruct (rebuild_from_sheet_cache 200 s0) as [r s1]. simpl in Hlg, Hret.
      subst r s1. by exists lg. }
    simpl. done.
  - vm_compute. repeat split.
Qed.

(** C10.  For a message of an internal channel that the router does not
    ignore (no subtype, not from a bot) and that carries a job tag, the
    router returns normally and the Pending-Internal entry of the job is
    overwritten with the channel and timestamp of the message, whether the
    append to the Question Log succeeds or raises.  When it raises, the
    error is caught and logged and the sheet is left without the row, so
    that cache and sheet disagree; when it succeeds, the row is appended. *)
Theorem cache_update_unconditional_on_append (s : State) (ev : Event) (job : string)
    (d : gmap string (string * string)) :
  PENDING_INTERNAL s = Some d ->
  Py.truthy_opt (subtype ev) = false ->
  Py.truthy_opt (bot_id ev) = false ->
  channel ev ∈ INTERNAL_CHANNEL_IDS s ->
  job_tag (default "" (text ev)) = Some job ->
  let s' := snd (message_router (Some ev) s) in
  fst (message_router (Some ev) s) = Py.Return tt
  /\ PENDING_INTERNAL s' = Some (<[job := (channel ev, ts ev)]> d)
  /\ (down s SheetsAppend = true ->
        questions s' = questions s
        /\ exists err, (ERROR, "Sheet append failed: " +:+ err) ∈ log s')
  /\ (down s SheetsAppend = false ->
        exists row, questions s' = questions s ++ [row]
                    /\ row !! 0%nat = Some job
                    /\ row !! 11%nat = Some (ts ev)
                    /\ row !! 13%nat = Some (channel ev)).
Proof.
  intros Hp Hsub Hbot Hint Htag s'. subst s'.
  rewrite <- job_tag_strip in Htag.
  destruct (message_router_internal_run s ev job d Hp Hsub Hbot Hint Htag)
    as (lg & row & err & -> & H0 & H11 & H13 & Herr).
  simpl. split; [done|]. split; [done|]. split.
  - intros Happ. rewrite Happ. simpl. split; [done|]. exists err. by apply Herr.
  - intros Happ. rewrite Happ. simpl. by exists row.
Qed.

(** A tagged internal message while appends to the sheet fail. *)
Lemma cache_update_unconditional_on_append_witness :
  let s := append_down (running [header_row]) in
  let s' := snd (message_router (Some internal_message) s) in
  PENDING_INTERNAL s' = Some (<["12345" := ("C08HUKW7NDU", "1736154900.000100")]> ∅)
  /\ questions s' = [header_row].
Proof.
  intros s s'.
  destruct (cache_update_unconditional_on_append s internal_message "12345" ∅)
    as (_ & Hcache & Hfail & _).
  - reflexivity.
  - reflexivity.
  - reflexivity.
  - apply elem_of_cons. by left.
  - vm_compute. reflexivity.
  - split; [exact Hcache|]. by destruct (Hfail eq_refl).
Defined.

End RouterClaims.

(** ** google_utils: credentials and the Job Log *)

Section GoogleUtilsClaims.

Import GoogleUtils Scenario.

(** The bootstrap touches no file but [google_creds.json]. *)
Lemma bootstrap_writes_fixed_path (b64decode : string -> option string)
    (env : Environ) (fs fs' : Files) (path : string) :
  bootstrap b64decode env fs = Py.Return fs' ->
  path <> "google_creds.json" ->
  fs' !! path = fs !! path.
Proof.
  unfold bootstrap. intros H Hne.
  destruct (Py.truthy_opt (env !! "GOOGLE_CREDS_BASE64")
            && negb (bool_decide (is_Some (fs !! "google_creds.json")))).
  - destruct (b64decode _); [|done]. injection H as <-. by rewrite lookup_insert_ne.
  - by injection H as <-.
Qed.

(** The loader reads [google_creds.json] exactly when [GOOGLE_CREDS_FILE]
    is unset or names that file. *)
Lemma creds_file_default (env : Environ) :
  creds_file env = "google_creds.json" <->
  env !! "GOOGLE_CREDS_FILE" = None
  \/ env !! "GOOGLE_CREDS_FILE" = Some "google_creds.json".
Proof.
  unfold creds_file. destruct (env !! "GOOGLE_CREDS_FILE") as [p|]; simpl.
  - split; [intros ->; by right|]. by intros [|[= ->]].
  - split; [by left|done].
Qed.

(** C3, on the code.  With the blob in [GOOGLE_CREDS_BASE64], no
    credential file on disk and [GOOGLE_CREDS_FILE=/secrets/sa.json], the
    bootstrap writes the decoded blob to [google_creds.json], the loader
    reads [/secrets/sa.json], and loading fails for want of that file. *)
Theorem bootstrap_ignores_creds_file_override :
  bootstrap decode_demo env_both ∅ = Py.Return (<["google_creds.json" := "{}"]> ∅)
  /\ creds_file env_both = "/secrets/sa.json"
  /\ get_google_creds env_both (<["google_creds.json" := "{}"]> ∅)
     = Py.Raise (Py.FileNotFoundError "/secrets/sa.json").
Proof. vm_compute. repeat split. Qed.

(** C4, on the code.  When [Ewing Board Item ID] heads the first column its
    index is 0, which [or] treats as absent: the work-item id is then read
    from the [Monday ID] column, or is empty when there is none.  In any
    other column the header is honoured. *)
Theorem find_job_ignores_ewing_in_first_column :
  monday_item_id <$> find_job_in_rows joblog_ewing_first "12345" = Some "7702"
  /\ monday_item_id <$> find_job_in_rows joblog_ewing_only "12345" = Some ""
  /\ monday_item_id <$> find_job_in_rows joblog_ewing_last "12345" = Some "8801".
Proof. vm_compute. repeat split. Qed.

End GoogleUtilsClaims.

(** ** google_utils: document revisions *)

Section RevisionClaims.

Import GoogleUtils DocSpec.

(** The range computed from the lengths of what precedes a segment covers
    exactly that segment. *)
Lemma covered_by_segment (pre seg post : list N) (e a b : Z) :
  a = e + Z.of_nat (length pre) ->
  b = a + Z.of_nat (length seg) ->
  covered_by (pre ++ seg ++ post) e a b = seg.
Proof.
  intros -> ->. unfold covered_by.
  replace (e + Z.of_nat (length pre) - e) with (Z.of_nat (length pre)) by lia.
  replace (e + Z.of_nat (length pre) + Z.of_nat (length seg)
           - (e + Z.of_nat (length pre))) with (Z.of_nat (length seg)) by lia.
  rewrite !Nat2Z.id, drop_app_length, take_app_length. done.
Qed.

(** C8.  For a document with content ([end_index > 1]), any triggering text
    and any revision number, [append_revision_divider] makes one
    [batchUpdate] call whose requests are, in order: the style update of
    [[1, end_index)] to italic and grey (0.5, 0.5, 0.5); the insertion at
    [end_index] of two newlines, 72 [=] characters, the header
    [REVISION #<n> – <MM/DD/YYYY>] and the triggering text, with two
    newlines after each; and three style updates, bold for the divider,
    bold upright black for the header and upright black for the triggering
    text, whose ranges cover exactly those three segments of the inserted
    text. *)
Theorem revision_divider_batch (body_content : list StructuralElement)
    (triggering_text : list N) (rev_num : N) (today : Date) :
  end_index_of body_content > 1 ->
  let e := end_index_of body_content in
  let header := header_text rev_num today in
  let inserted :=
    [10%N; 10%N] ++ replicate 72 61%N ++ [10%N; 10%N] ++ header ++ [10%N; 10%N]
    ++ triggering_text ++ [10%N; 10%N] in
  let a1 := e + 2 in
  let b1 := a1 + 72 in
  let a2 := b1 + 2 in
  let b2 := a2 + Z.of_nat (length header) in
  let a3 := b2 + 2 in
  let b3 := a3 + Z.of_nat (length triggering_text) in
  header = lit "REVISION #" ++ str_of_N rev_num ++ [32%N; 8211%N; 32%N]
           ++ two_digits (month today) ++ lit "/" ++ two_digits (day today)
           ++ lit "/" ++ str_of_N (year today)
  /\ append_revision_divider body_content triggering_text rev_num today
     = [[updateTextStyle 1 e
           (mkStyle None (Some true) (Some (mkRgb (1 # 2) (1 # 2) (1 # 2))))
           "italic,foregroundColor";
         insertText e inserted;
         updateTextStyle a1 b1 (mkStyle (Some true) None None) "bold";
         updateTextStyle a2 b2
           (mkStyle (Some true) (Some false) (Some (mkRgb 0 0 0)))
           "bold,italic,foregroundColor";
         updateTextStyle a3 b3
           (mkStyle None (Some false) (Some (mkRgb 0 0 0)))
           "italic,foregroundColor"]]
  /\ covered_by inserted e a1 b1 = replicate 72 61%N
  /\ covered_by inserted e a2 b2 = header
  /\ covered_by inserted e a3 b3 = triggering_text.
Proof.
  intros He e header inserted a1 b1 a2 b2 a3 b3.
  split; [reflexivity|]. split; [|split; [|split]].
  - unfold append_revision_divider, revision_requests. cbv zeta. fold e.
    rewrite (proj2 (Z.gtb_lt e 1)) by lia.
    assert (forall x y x' y' st fl, x = x' -> y = y' ->
              updateTextStyle x y st fl = updateTextStyle x' y' st fl) as Hupd
      by (by intros ? ? ? ? ? ? -> ->).
    assert (Z.of_nat (length divider_line) = 72) as Hdiv by reflexivity.
    unfold text_to_insert. fold header. rewrite Hdiv.
    subst a1 b1 a2 b2 a3 b3 inserted. clearbody header e. simpl app.
    f_equal. f_equal. f_equal. f_equal; [apply Hupd; lia|].
    f_equal; [apply Hupd; lia|]. f_equal. apply Hupd; lia.
  - subst inserted. apply (covered_by_segment [10%N; 10%N]).
    + subst a1. simpl. lia.
    + subst b1. rewrite length_replicate. lia.
  - subst inserted.
    change ([10%N; 10%N] ++ replicate 72 61%N ++ [10%N; 10%N] ++ header ++ [10%N; 10%N]
            ++ triggering_text ++ [10%N; 10%N])
      with (([10%N; 10%N] ++ replicate 72 61%N ++ [10%N; 10%N]) ++ header
            ++ ([10%N; 10%N] ++ triggering_text ++ [10%N; 10%N])).
    apply covered_by_segment.
    + subst a2 b1 a1. simpl. lia.
    + subst b2. lia.
  - subst inserted.
    replace ([10%N; 10%N] ++ replicate 72 61%N ++ [10%N; 10%N] ++ header ++ [10%N; 10%N]
             ++ triggering_text ++ [10%N; 10%N])
      with (([10%N; 10%N] ++ replicate 72 61%N ++ [10%N; 10%N] ++ header ++ [10%N; 10%N])
            ++ triggering_text ++ [10%N; 10%N])
      by (by rewrite <- !app_assoc).
    apply covered_by_segment.
    + subst a3 b2 a2 b1 a1. rewrite !length_app, length_replicate. simpl. lia.
    + subst b3. lia.
Qed.

(** Revision 3 of a document of 119 characters, on 6 January 2025. *)
Lemma revision_divider_batch_witness :
  covered_by (text_to_insert (lit "Please confirm #12345?") 3 (mkDate 2025 1 6))
    119 195 219
  = header_text 3 (mkDate 2025 1 6)
  /\ header_text 3 (mkDate 2025 1 6)
     = lit "REVISION #3 " ++ [8211%N] ++ lit " 01/06/2025".
Proof.
  destruct (revision_divider_batch [mkElement 0 1; mkElement 1 120]
              (lit "Please confirm #12345?") 3 (mkDate 2025 1 6))
    as (_ & _ & _ & Hheader & _).
  - reflexivity.
  - split; [exact Hheader|]. vm_compute. reflexivity.
Defined.

End RevisionClaims.

(** * Further properties *)

(** ** Relay Memory Cache: saving and looking up *)

Section RelayLookup.

Import RelayMemory RelaySpec RelayLookupSpec Scenario.

Lemma save_map_lookup_fresh (self : t) (job ich its k : string) (tc tn : Z) :
  (0 < max_items self)%nat ->
  k ∉ order self ->
  tn - tc <= ttl self ->
  map (save_map self job ich its k tc tn) !! k = Some (job, ich, its, tc).
Proof.
  intros Hmax Hfresh Hlive.
  destruct (save_map_spec self job ich its k tc tn)
    as (d1 & o1 & Ho & Hexp & _ & _ & Hm' & _).
  simpl in Hexp, Hm'.
  assert (k ∉ d1) as Hd1.
  { intros Hin. specialize (Hexp k _ Hin (lookup_insert_eq _ _ _)).
    unfold expired in Hexp. simpl in Hexp. lia. }
  destruct o1 as [|x o1' _] using rev_ind.
  { exfalso. rewrite app_nil_r in Ho. apply Hd1. rewrite <- Ho.
    apply elem_of_app. right. by apply list_elem_of_singleton. }
  rewrite app_assoc in Ho. apply app_inj_tail in Ho as [Ho <-].
  assert (k ∉ o1') as Ho1.
  { intros Hin. apply Hfresh. rewrite Ho. apply elem_of_app. by right. }
  rewrite Hm'. rewrite lookup_without_notin; [apply lookup_insert_eq|].
  intros Hin. apply elem_of_app in Hin as [Hin|Hin]; [done|].
  rewrite length_app in Hin. simpl in Hin.
  rewrite take_app_le in Hin by lia.
  apply Ho1. by apply (subseteq_take _ _ _ Hin).
Qed.

(** A mapping saved under a key that is not in the queue yet, and not
    already expired when eviction runs, is found by the next lookup. *)
Theorem save_then_lookup (self : t) (job ich its k : string) (tc tn : Z) :
  (0 < max_items self)%nat ->
  k ∉ order self ->
  tn - tc <= ttl self ->
  by_client_thread (save_map self job ich its k tc tn) k
  = (Some (job, ich, its), save_map self job ich its k tc tn).
Proof.
  intros Hmax Hfresh Hlive. unfold by_client_thread.
  by rewrite (save_map_lookup_fresh self job ich its k tc tn Hmax Hfresh Hlive).
Qed.

(** A first mapping saved in the empty cache. *)
Lemma save_then_lookup_witness :
  fst (by_client_thread
         (save_map default "12345" "C08HUKW7NDU" "1736154900.000100" "1736155000.000200"
            1736155000 1736155001) "1736155000.000200")
  = Some ("12345", "C08HUKW7NDU", "1736154900.000100").
Proof.
  rewrite (save_then_lookup default "12345" "C08HUKW7NDU" "1736154900.000100"
             "1736155000.000200" 1736155000 1736155001).
  - reflexivity.
  - simpl. lia.
  - apply not_elem_of_nil.
  - simpl. lia.
Defined.

(** Saving again under the key at the front of a full queue loses the
    mapping: the key is appended a second time, capacity eviction pops its
    first occurrence and deletes the entry just stored. *)
Theorem resave_front_key_loses_mapping (self : t) (job ich its k : string)
    (rest : list string) (tc tn : Z) :
  order self = k :: rest ->
  length (order self) = max_items self ->
  tn - tc <= ttl self ->
  by_client_thread (save_map self job ich its k tc tn) k
  = (None, save_map self job ich its k tc tn)
  /\ order (save_map self job ich its k tc tn) = rest ++ [k].
Proof.
  intros Ho Hfull Hlive.
  assert (save_map self job ich its k tc tn
          = mk (max_items self) (ttl self)
               (delete k (<[k := (job, ich, its, tc)]> (map self))) (rest ++ [k])) as ->.
  { unfold save_map, _evict, stored. simpl. rewrite Ho. simpl.
    rewrite lookup_insert_eq. simpl.
    destruct (Z.gtb_spec (tn - tc) (ttl self)) as [Hgt|_]; [lia|].
    rewrite Ho in Hfull. simpl in Hfull.
    pose proof (size_evict_spec (max_items self)
                  (<[k:=(job, ich, its, tc)]> (map self)) (k :: rest ++ [k])) as [Ho2 Hm2].
    destruct (size_evict (max_items self) (<[k:=(job, ich, its, tc)]> (map self))
                (k :: rest ++ [k])) as [m2 o2].
    simpl in Ho2, Hm2. rewrite length_app in Ho2, Hm2. simpl in Ho2, Hm2.
    replace (S (length rest + 1) - max_items self)%nat with 1%nat in Ho2, Hm2 by lia.
    simpl in Ho2, Hm2. by subst. }
  split; [|done]. unfold by_client_thread. simpl. by rewrite lookup_delete_eq.
Qed.

(** The thirty keys of a full cache, the first saved again. *)
Lemma resave_front_key_loses_mapping_witness :
  fst (by_client_thread
         (save_map (run default (demo_saves 0 30)) "12345" "C1" "7.7"
            (s_key (demo_save 0)) 100 101)
         (s_key (demo_save 0))) = None.
Proof.
  destruct (resave_front_key_loses_mapping (run default (demo_saves 0 30))
              "12345" "C1" "7.7" (s_key (demo_save 0)) (s_key <$> demo_saves 1 29)
              100 101) as [-> _].
  - apply (bool_decide_unpack _). vm_compute. reflexivity.
  - apply (bool_decide_unpack _). vm_compute. reflexivity.
  - apply (bool_decide_unpack _). vm_compute. reflexivity.
  - reflexivity.
Defined.

Lemma run_last_save ops k v :
  map (run default ops) !! k = Some v ->
  exists a, last_save k ops = Some a /\ v = entry_of a.
Proof.
  revert k v. induction ops as [|op ops IH] using rev_ind; intros k v.
  - simpl. by rewrite lookup_empty.
  - rewrite run_snoc. unfold apply_save. intros Hl.
    destruct (save_map_spec (run default ops) (s_job op) (s_channel op) (s_ts op)
                (s_key op) (s_created op) (s_now op))
      as (d1 & o1 & _ & _ & _ & _ & Hm' & _).
    rewrite Hm' in Hl. apply lookup_without_Some in Hl as [Hl _]. simpl in Hl.
    unfold last_save. rewrite filter_app.
    apply lookup_insert_Some in Hl as [[<- <-]|[Hne Hl]].
    + exists op. split; [|done].
      rewrite filter_cons_True by done. rewrite filter_nil. apply last_snoc.
    + destruct (IH _ _ Hl) as (a & Ha & Hv). exists a. split; [|done].
      rewrite filter_cons_False by done. rewrite filter_nil, app_nil_r. exact Ha.
Qed.

(** A lookup only ever returns what the last save under that key stored:
    never the mapping of another key, and never an earlier mapping of the
    same key. *)
Theorem lookup_returns_last_save (ops : list Save) (k : string)
    (found : string * string * string) :
  fst (by_client_thread (run default ops) k) = Some found ->
  exists a, last_save k ops = Some a /\ found = triple_of a.
Proof.
  unfold by_client_thread.
  destruct (map (run default ops) !! k) as [[[[j c] ts] tc]|] eqn:Hl; [|done].
  simpl. intros [= <-].
  destruct (run_last_save _ _ _ Hl) as (a & Ha & Hv).
  exists a. split; [done|]. unfold entry_of in Hv. unfold triple_of. congruence.
Qed.

(** A key saved twice: the lookup gives the second mapping. *)
Lemma lookup_returns_last_save_witness :
  exists a,
    last_save "7" [mkSave "11111" "C1" "1.1" "7" 10 10; mkSave "22222" "C2" "2.2" "7" 20 20]
    = Some a
    /\ ("22222", "C2", "2.2") = triple_of a.
Proof.
  apply (lookup_returns_last_save
           [mkSave "11111" "C1" "1.1" "7" 10 10; mkSave "22222" "C2" "2.2" "7" 20 20]
           "7" ("22222", "C2", "2.2")).
  vm_compute. reflexivity.
Defined.

End RelayLookup.

(** ** The message router: what an event may change *)

Section RouterFrameFacts.

Import Sheets SheetSpec App RelaySpec RouterSpec RouterFrame.

Lemma keeps_rows_refl g : keeps_rows g g.
Proof. split; [done|]. by intros i Hi. Qed.

Lemma keeps_rows_trans g1 g2 g3 :
  keeps_rows g1 g2 -> keeps_rows g2 g3 -> keeps_rows g1 g3.
Proof.
  intros [Hl1 H1] [Hl2 H2]. split; [lia|].
  intros i Hi. destruct (H1 i Hi) as [Ha Hb]. destruct (H2 i ltac:(lia)) as [Hc Hd].
  split.
  - intros c Hc'. by rewrite Hc, Ha.
  - intros Hans c. rewrite Hd, Hb; [done|done|].
    unfold answered in *. by rewrite Hb.
Qed.

Lemma keeps_rows_append g rows : keeps_rows g (g ++ rows).
Proof.
  split; [rewrite length_app; lia|].
  intros i Hi. unfold cell. rewrite lookup_app_l by done. done.
Qed.

(** Writing into rewritable columns of an unanswered row keeps the rows. *)
Lemma keeps_rows_write g i c vs :
  (i < length g)%nat -> ~ answered g i ->
  (forall c', (c <= c' < c + length vs)%nat -> rewritable c') ->
  keeps_rows g (write_row g i c vs).
Proof.
  intros Hi Hans Hcols. split; [by rewrite length_write_row|].
  intros i' Hi'. split.
  - intros c' Hc'. rewrite cell_write_row by done.
    destruct (decide (i' = i /\ (c <= c' < c + length vs)%nat)) as [[_ Hin]|_]; [|done].
    exfalso. by apply Hc', Hcols.
  - intros Hans' c'. rewrite cell_write_row by done.
    destruct (decide (i' = i /\ (c <= c' < c + length vs)%nat)) as [[-> _]|_]; done.
Qed.

Lemma keeps_keys_refl p : keeps_keys p p.
Proof. intros d ->. by exists d. Qed.

Lemma keeps_keys_trans p1 p2 p3 :
  keeps_keys p1 p2 -> keeps_keys p2 p3 -> keeps_keys p1 p3.
Proof.
  intros H1 H2 d Hd. destruct (H1 d Hd) as (d2 & Hd2 & Hk2).
  destruct (H2 d2 Hd2) as (d3 & Hd3 & Hk3). exists d3. split; [done|].
  intros k Hk. by apply Hk3, Hk2.
Qed.

Lemma run_app (self : RelayMemory.t) ops1 ops2 :
  run self (ops1 ++ ops2) = run (run self ops1) ops2.
Proof. apply foldl_app. Qed.

(** The fields of [evolves] that hold because nothing changed. *)
Ltac unchanged :=
  first [ done | apply keeps_keys_refl | apply keeps_rows_refl
        | by (exists (@nil Save)) | simpl; lia ].

Lemma evolves_refl s : evolves s s.
Proof. split; unchanged. Qed.

Lemma evolves_trans s1 s2 s3 : evolves s1 s2 -> evolves s2 s3 -> evolves s1 s3.
Proof.
  intros [? ? ? ? ? ? ? ? ? Hp1 [o1 Hr1] Hq1 Hpo1 Hl1 Ht1]
         [? ? ? ? ? ? ? ? ? Hp2 [o2 Hr2] Hq2 Hpo2 Hl2 Ht2].
  split; try congruence; try lia.
  - by eapply keeps_keys_trans.
  - exists (o1 ++ o2). by rewrite run_app, <- Hr1.
  - by eapply keeps_rows_trans.
  - by etrans.
  - by etrans.
Qed.

Lemma evolves_bound s s' : evolves s s' -> bound s -> bound s'.
Proof.
  intros He [d Hd]. destruct (ev_pending _ _ He d Hd) as (d' & Hd' & _). by exists d'.
Qed.

Lemma evolves_log s lg : log s `prefix_of` lg -> evolves s (set_log lg s).
Proof.
  intros Hlg. split; simpl; unchanged.
Qed.

Lemma evolves_questions s g :
  keeps_rows (questions s) g -> evolves s (set_questions g s).
Proof.
  intros Hg. split; simpl; unchanged.
Qed.

Lemma sure_steady {A} (c : Cmd A) : sure c -> steady c.
Proof. intros H s Hs. by destruct (H s Hs). Qed.

Lemma sure_ret {A} (a : A) : sure (Py.ret a).
Proof. intros s _. split; [apply evolves_refl|by exists a]. Qed.

Lemma sure_get : sure (@Py.get State).
Proof. intros s _. split; [apply evolves_refl|by exists s]. Qed.

Lemma steady_raise {A} e : steady (@Py.raise State A e).
Proof. intros s _. apply evolves_refl. Qed.

Lemma sure_bind {A B} (c : Cmd A) (k : A -> Cmd B) :
  sure c -> (forall a, sure (k a)) -> sure (Py.bind c k).
Proof.
  intros Hc Hk s Hs. destruct (Hc s Hs) as [He [a Ha]]. unfold Py.bind.
  destruct (c s) as [r s1]. simpl in *. subst r.
  destruct (Hk a s1 (evolves_bound _ _ He Hs)) as [He' Hr]. split; [|done].
  by eapply evolves_trans.
Qed.

Lemma steady_bind {A B} (c : Cmd A) (k : A -> Cmd B) :
  steady c -> (forall a, steady (k a)) -> steady (Py.bind c k).
Proof.
  intros Hc Hk s Hs. pose proof (Hc s Hs) as He. unfold Py.bind.
  destruct (c s) as [[a|e] s1]; simpl in *; [|done].
  eapply evolves_trans; [done|]. apply Hk. by eapply evolves_bound.
Qed.

Lemma sure_try {A} (c : Cmd A) (h : Py.exn -> Cmd A) :
  steady c -> (forall e, sure (h e)) -> sure (Py.try_except c h).
Proof.
  intros Hc Hh s Hs. pose proof (Hc s Hs) as He. unfold Py.try_except.
  destruct (c s) as [[a|e] s1]; simpl in *; [by eauto|].
  destruct (Hh e s1 (evolves_bound _ _ He Hs)) as [He' Hr]. split; [|done].
  by eapply evolves_trans.
Qed.

Lemma quiet_sure {A} (c : Cmd A) :
  (forall s, exists a lg, c s = (Py.Return a, set_log (log s ++ lg) s)) -> sure c.
Proof.
  intros Hq s _. destruct (Hq s) as (a & lg & ->). simpl. split; [|by exists a].
  apply evolves_log. by apply prefix_app_r.
Qed.

Lemma sure_modify (f : State -> State) :
  (forall s, bound s -> evolves s (f s)) -> sure (Py.modify f).
Proof. intros Hf s Hs. split; [by apply Hf|by exists tt]. Qed.

Lemma sure_logger lvl msg : sure (logger lvl msg).
Proof.
  apply sure_modify. intros s _. apply evolves_log. by apply prefix_app_r.
Qed.

Lemma steady_call api e : steady (call api e).
Proof. intros s _. unfold call. destruct (down s api); apply evolves_refl. Qed.

Lemma sure_time_time : sure time_time.
Proof.
  intros s _. split; [|by eexists]. unfold time_time. simpl. split; simpl; unchanged.
Qed.

Lemma sure_relay_save job ich its key : sure (relay_save job ich its key).
Proof.
  unfold relay_save. apply sure_bind; [apply sure_time_time|intros tc].
  apply sure_bind; [apply sure_time_time|intros tn].
  apply sure_modify. intros s _. split; simpl; try unchanged.
  by exists [mkSave job ich its key tc tn].
Qed.

Lemma sure_by_client_thread key : sure (by_client_thread key).
Proof.
  intros s _. unfold by_client_thread, RelayMemory.by_client_thread.
  destruct (RelayMemory.map (RELAY_MEM s) !! key) as [[[[j c] t] tc]|]; simpl.
  - split; [|by eexists]. split; simpl; unchanged.
  - split; [|by eexists]. split; simpl; unchanged.
Qed.

Lemma sure_pending_internal : sure pending_internal.
Proof.
  intros s [d Hd]. unfold pending_internal, Py.bind, Py.get. rewrite Hd. simpl.
  split; [apply evolves_refl|by exists d].
Qed.

Lemma sure_pending_internal_setitem job v : sure (pending_internal_setitem job v).
Proof.
  intros s [d Hd]. unfold pending_internal_setitem, pending_internal, Py.bind, Py.get.
  rewrite Hd. simpl. split; [|by exists tt]. split; simpl; try unchanged.
  intros d0 Hd0. exists (<[job := v]> d). split; [done|].
  intros k Hk. assert (d0 = d) as -> by congruence.
  destruct (decide (k = job)) as [->|Hne].
  - rewrite lookup_insert_eq. by eexists.
  - by rewrite lookup_insert_ne.
Qed.

Lemma steady_append_to_sheet values : steady (append_to_sheet values).
Proof.
  unfold append_to_sheet. apply steady_bind; [apply steady_call|intros _].
  apply sure_steady, sure_modify. intros s _. apply evolves_questions.
  apply keeps_rows_append.
Qed.

(** A write into rewritable columns of the row the scan has found. *)
Lemma steady_update_found (s : State) (last : ascii) job target (c : ascii) vs lastc :
  (6 <= col last)%nat ->
  find_unanswered (values_get (questions s) last) job
    (length (values_get (questions s) last) - 1) = Some target ->
  (forall c', (col c <= c' < col c + length vs)%nat -> rewritable c') ->
  evolves s (snd (update_questions (mkRange c lastc target) [vs] s)).
Proof.
  intros Hlast Hf Hcols. unfold update_questions, call, Py.bind, Py.get.
  destruct (down s SheetsUpdate); [apply evolves_refl|]. simpl.
  destruct (col c + length vs <=? S (col lastc))%nat; [|apply evolves_refl].
  simpl. apply evolves_questions.
  unfold values_get in Hf at 2. rewrite length_fmap in Hf.
  destruct (questions s) as [|h rows] eqn:Hq; [done|]. rewrite <- Hq in *.
  assert (length (questions s) - 1 < length (questions s))%nat as Hlt
    by (rewrite Hq; simpl; lia).
  apply find_unanswered_Some in Hf as (i & -> & Hi & [_ Hu] & _); [|done|done].
  replace (i + 1 - 1)%nat with i by lia.
  apply keeps_rows_write; [lia| |done]. intros Hans. by apply Hans.
Qed.

Lemma sure_update_sheet_response job d t f b :
  sure (_update_sheet_response_for_job job d t f b).
Proof.
  unfold _update_sheet_response_for_job.
  apply sure_try; [|intros e; apply sure_logger].
  intros s Hs. unfold get_questions, call. unfold Py.bind at 1. unfold Py.bind at 1.
  destruct (down s SheetsGet); [apply evolves_refl|].
  unfold Py.bind at 1. simpl.
  destruct (values_get (questions s) "K") as [|h rows] eqn:Hv; [apply evolves_refl|].
  rewrite <- Hv.
  destruct (find_unanswered _ _ _) as [target|] eqn:Hf.
  - apply (steady_update_found s "K" job target "G" [d; t; f; b] "J");
      [vm_compute; lia|done|].
    intros c' Hc'. left. change (col "G") with 6%nat in Hc'. simpl in Hc'. lia.
  - apply steady_bind; [apply sure_steady, sure_logger|intros _|done].
    apply steady_append_to_sheet.
Qed.

Lemma sure_update_client_thread_info job client_ts client_channel :
  sure (_update_client_thread_info job client_ts client_channel).
Proof.
  unfold _update_client_thread_info.
  apply sure_try; [|intros e; apply sure_logger].
  intros s Hs. unfold get_questions, call. unfold Py.bind at 1. unfold Py.bind at 1.
  destruct (down s SheetsGet); [apply evolves_refl|].
  unfold Py.bind at 1. simpl.
  destruct (values_get (questions s) "O") as [|h rows] eqn:Hv; [apply evolves_refl|].
  rewrite <- Hv.
  destruct (find_unanswered _ _ _) as [target|] eqn:Hf.
  - apply (steady_update_found s "O" job target "M" [client_ts; client_channel] "O");
      [vm_compute; lia|done|].
    intros c' Hc'. right. change (col "M") with 12%nat in Hc'. simpl in Hc'. lia.
  - by apply (sure_steady _ (sure_logger _ _)).
Qed.

(** One rule for each shape of command. *)
Ltac hoare :=
  repeat match goal with
    | |- sure (Py.ret _) => apply sure_ret
    | |- sure Py.get => apply sure_get
    | |- sure (logger _ _) => apply sure_logger
    | |- sure (relay_save _ _ _ _) => apply sure_relay_save
    | |- sure (save_map _ _ _ _ _) => apply sure_relay_save
    | |- sure (by_client_thread _) => apply sure_by_client_thread
    | |- sure pending_internal => apply sure_pending_internal
    | |- sure (pending_internal_setitem _ _) => apply sure_pending_internal_setitem
    | |- sure (_update_sheet_response_for_job _ _ _ _ _) => apply sure_update_sheet_response
    | |- sure (_update_client_thread_info _ _ _) => apply sure_update_client_thread_info
    | |- sure (Py.bind _ _) => apply sure_bind; [|intros ?]
    | |- sure (Py.try_except _ _) => apply sure_try; [|intros ?]
    | |- sure (match ?x with _ => _ end) => destruct x
    | |- steady (Py.raise _) => apply steady_raise
    | |- steady (call _ _) => apply steady_call
    | |- steady (append_to_sheet _) => apply steady_append_to_sheet
    | |- steady (Py.bind _ _) => apply steady_bind; [|intros ?]
    | |- steady (match ?x with _ => _ end) => destruct x
    | |- steady (Py.ret _) => apply sure_steady
    | |- steady Py.get => apply sure_steady
    | |- steady (logger _ _) => apply sure_steady
    | |- steady (Py.modify _) => apply sure_steady
    | |- steady (Py.try_except _ _) => apply sure_steady
    | |- steady (relay_save _ _ _ _) => apply sure_steady
    | |- steady (save_map _ _ _ _ _) => apply sure_steady
    | |- steady (_update_client_thread_info _ _ _) => apply sure_steady
    end.

Lemma sure_is_client_channel chan : sure (_is_client_channel chan).
Proof. unfold _is_client_channel. hoare. Qed.

Lemma sure_get_user_name_safe user_id : sure (_get_user_name_safe user_id).
Proof. unfold _get_user_name_safe, users_info. hoare. Qed.

Lemma sure_internal_question ev text job : sure (internal_question ev text job).
Proof.
  unfold internal_question. hoare.
  - apply sure_get_user_name_safe.
  - unfold find_job_in_joblog, read_range. hoare.
Qed.

Lemma sure_client_root ev job : sure (client_root ev job).
Proof. unfold client_root. hoare. Qed.

Lemma sure_client_reply ev text thread : sure (client_reply ev text thread).
Proof.
  unfold client_reply. hoare.
  - apply sure_get_user_name_safe.
  - apply sure_modify. intros ? _. split; simpl; try unchanged. by apply prefix_app_r.
Qed.

Lemma sure_message_router event : sure (message_router event).
Proof.
  unfold message_router. hoare.
  all: first [ apply sure_is_client_channel | apply sure_internal_question
             | apply sure_client_root | apply sure_client_reply ].
Qed.

End RouterFrameFacts.

(** ** The message router: its branches *)

Section RouterBranches.

Import Sheets SheetSpec App RelaySpec RouterSpec RouterFrame.

Local Arguments String.append : simpl nomatch.

(** Where the router goes with an event it does not ignore: it logs the
    event and the channel test, then takes the branch of the channel. *)
Lemma message_router_dispatch (s : State) (ev : Event) :
  Py.truthy_opt (subtype ev) = false ->
  Py.truthy_opt (bot_id ev) = false ->
  exists lg,
    let s1 := set_log (log s ++ lg) s in
    let text := Py.strip (default "" (text ev)) in
    message_router (Some ev) s
    = if bool_decide (channel ev ∈ INTERNAL_CHANNEL_IDS s) then
        match Re.search JOB_TAG_RE text with
        | Some m => internal_question ev text (default "" (Re.group m 1)) s1
        | None => (Py.Return tt, s1)
        end
      else if match CLIENT_CHANNEL_IDS s with
              | [] => true
              | _ :: _ => bool_decide (channel ev ∈ CLIENT_CHANNEL_IDS s)
              end
      then
        match Re.search JOB_TAG_RE text,
              negb (Py.truthy_opt (thread_ts ev))
              || bool_decide (thread_ts ev = Some (ts ev)) with
        | Some m, true => client_root ev (default "" (Re.group m 1)) s1
        | _, _ =>
            match thread_ts ev with
            | Some thread =>
                if Py.truthy thread then client_reply ev text thread s1
                else (Py.Return tt, s1)
            | None => (Py.Return tt, s1)
            end
        end
      else (Py.Return tt, s1).
Proof.
  intros Hsub Hbot. unfold message_router. rewrite Hsub, Hbot. cbn [orb].
  unfold Py.bind at 1. unfold logger at 1, Py.modify at 1.
  unfold Py.bind at 1. unfold Py.get at 1.
  unfold Py.bind at 1. unfold _is_client_channel.
  unfold Py.bind at 1. unfold Py.get at 1.
  cbn [INTERNAL_CHANNEL_IDS CLIENT_CHANNEL_IDS set_log].
  destruct (bool_decide (channel ev ∈ INTERNAL_CHANNEL_IDS s)) eqn:Hint.
  - unfold Py.bind at 1. unfold logger at 1, Py.modify at 1. unfold Py.ret at 1.
    cbn [log set_log]. rewrite <- app_assoc.
    match goal with |- context [set_log (log s ++ ?l)] => exists l end. cbv zeta. destruct (Re.search _ _); reflexivity.
  - destruct (CLIENT_CHANNEL_IDS s) as [|c0 cs] eqn:Hcl.
    + unfold Py.bind at 1. unfold logger at 1, Py.modify at 1. unfold Py.ret at 1.
      cbn [log set_log]. rewrite <- app_assoc.
      match goal with |- context [set_log (log s ++ ?l)] => exists l end. cbv zeta.
      destruct (Re.search _ _); try destruct (negb _ || _);
        destruct (thread_ts ev) as [th|]; try destruct (Py.truthy th); reflexivity.
    + unfold Py.bind at 1. unfold logger at 1, Py.modify at 1. unfold Py.ret at 1.
      cbn [log set_log]. rewrite <- app_assoc.
      match goal with |- context [set_log (log s ++ ?l)] => exists l end. cbv zeta.
      destruct (bool_decide (channel ev ∈ c0 :: cs)); [|reflexivity].
      destruct (Re.search _ _); try destruct (negb _ || _);
        destruct (thread_ts ev) as [th|]; try destruct (Py.truthy th); reflexivity.
Qed.

Lemma set_log_set_log lg1 lg2 (s : State) : set_log lg2 (set_log lg1 s) = set_log lg2 s.
Proof. reflexivity. Qed.

Lemma set_log_same (s : State) : set_log (log s) s = s.
Proof. by destruct s. Qed.

Lemma truthy_nonempty x : Py.truthy x = true -> x <> "".
Proof. by destruct x. Qed.

(** The name the router shows for a user. *)
Lemma get_user_name_safe_run (s : State) (user_id : string) :
  exists nm lg,
    _get_user_name_safe user_id s = (Py.Return nm, set_log (log s ++ lg) s)
    /\ (user_id <> "" -> nm <> "")
    /\ (down s UsersInfo = true \/ users s !! user_id = None ->
          nm = user_id /\ exists err, lg = [(ERROR, "users_info failed: " +:+ err)])
    /\ (forall ui, down s UsersInfo = false -> users s !! user_id = Some ui ->
          lg = [] /\ nm = first_truthy [real_name ui; display_name ui; name ui] user_id).
Proof.
  unfold _get_user_name_safe, Py.try_except, users_info, call, Py.bind, Py.get,
    logger, Py.modify, Py.ret, Py.raise.
  destruct (down s UsersInfo) eqn:Hdown.
  { eexists user_id, [_]. split; [reflexivity|]. split; [done|]. split.
    - intros _. split; [done|]. by eexists.
    - intros ui Hd. done. }
  destruct (users s !! user_id) as [ui|] eqn:Hu.
  - eexists _, []. split; [by rewrite app_nil_r, set_log_same|].
    assert (default user_id
              (Py.or_else (real_name ui)
                 (Py.or_else (display_name ui)
                    (Py.or_else (Some (default "" (name ui))) (Some user_id))))
            = first_truthy [real_name ui; display_name ui; name ui] user_id) as ->.
    { unfold Py.or_else.
      destruct (real_name ui) as [[|? ?]|], (display_name ui) as [[|? ?]|],
        (name ui) as [[|? ?]|]; reflexivity. }
    split; [|split].
    + intros Hne.
      destruct (real_name ui) as [[|? ?]|], (display_name ui) as [[|? ?]|],
        (name ui) as [[|? ?]|]; simpl; done.
    + intros [?|?]; done.
    + intros ui' _ [= <-]. done.
  - eexists user_id, [_]. split; [reflexivity|]. split; [done|]. split.
    + intros _. split; [done|]. by eexists.
    + intros ui _ ?. done.
Qed.

(** The two sheet writers return, and touch nothing but the Question Log
    and the log; what they make of the Question Log depends on nothing but
    the sheet service. *)
Lemma response_writer_shape (s : State) job d t f b :
  _update_sheet_response_for_job job d t f b s
  = (Py.Return tt,
     set_log (log (snd (_update_sheet_response_for_job job d t f b s)))
       (set_questions (questions (snd (_update_sheet_response_for_job job d t f b s))) s)).
Proof.
  unfold _update_sheet_response_for_job, Py.try_except, get_questions, update_questions,
    append_to_sheet, call, logger, Py.bind, Py.get, Py.modify, Py.ret, Py.raise.
  destruct s as [i c j p r q jl u po dn lg ck tk td tm]. simpl.
  destruct (dn SheetsGet); [done|]. simpl.
  destruct (values_get q "K") as [|h rows]; [done|].
  destruct (find_unanswered _ _ _); simpl.
  - destruct (dn SheetsUpdate); done.
  - destruct (dn SheetsAppend); done.
Qed.

Lemma response_writer_questions (s1 s2 : State) job d t f b :
  questions s1 = questions s2 -> down s1 = down s2 ->
  questions (snd (_update_sheet_response_for_job job d t f b s1))
  = questions (snd (_update_sheet_response_for_job job d t f b s2)).
Proof.
  unfold _update_sheet_response_for_job, Py.try_except, get_questions, update_questions,
    append_to_sheet, call, logger, Py.bind, Py.get, Py.modify, Py.ret, Py.raise.
  destruct s1 as [i c j p r q jl u po dn lg ck tk td tm].
  destruct s2 as [i2 c2 j2 p2 r2 q2 jl2 u2 po2 dn2 lg2 ck2 tk2 td2 tm2]. simpl.
  intros <- <-.
  destruct (dn SheetsGet); [done|]. simpl.
  destruct (values_get q "K") as [|h rows]; [done|].
  destruct (find_unanswered _ _ _); simpl.
  - destruct (dn SheetsUpdate); done.
  - destruct (dn SheetsAppend); done.
Qed.

Lemma thread_writer_shape (s : State) job client_ts client_channel :
  _update_client_thread_info job client_ts client_channel s
  = (Py.Return tt,
     set_log (log (snd (_update_client_thread_info job client_ts client_channel s)))
       (set_questions
          (questions (snd (_update_client_thread_info job client_ts client_channel s))) s)).
Proof.
  unfold _update_client_thread_info, Py.try_except, get_questions, update_questions,
    call, logger, Py.bind, Py.get, Py.modify, Py.ret, Py.raise.
  destruct s as [i c j p r q jl u po dn lg ck tk td tm]. simpl.
  destruct (dn SheetsGet); [done|]. simpl.
  destruct (values_get q "O") as [|h rows]; [done|].
  destruct (find_unanswered _ _ _); simpl; [|done].
  destruct (dn SheetsUpdate); done.
Qed.

Lemma thread_writer_questions (s1 s2 : State) job client_ts client_channel :
  questions s1 = questions s2 -> down s1 = down s2 ->
  questions (snd (_update_client_thread_info job client_ts client_channel s1))
  = questions (snd (_update_client_thread_info job client_ts client_channel s2)).
Proof.
  unfold _update_client_thread_info, Py.try_except, get_questions, update_questions,
    call, logger, Py.bind, Py.get, Py.modify, Py.ret, Py.raise.
  destruct s1 as [i c j p r q jl u po dn lg ck tk td tm].
  destruct s2 as [i2 c2 j2 p2 r2 q2 jl2 u2 po2 dn2 lg2 ck2 tk2 td2 tm2]. simpl.
  intros <- <-.
  destruct (dn SheetsGet); [done|]. simpl.
  destruct (values_get q "O") as [|h rows]; [done|].
  destruct (find_unanswered _ _ _); simpl; [|done].
  destruct (dn SheetsUpdate); done.
Qed.

(** The branch for a tagged thread root of a client channel. *)
Lemma client_root_run (s : State) (ev : Event) (job : string)
    (d : gmap string (string * string)) :
  PENDING_INTERNAL s = Some d ->
  match d !! job with
  | None =>
      client_root ev job s
      = (Py.Return tt,
         set_log (log s ++ [(WARNING, "[REGURG] no cached internal thread for job " +:+ job)])
           s)
  | Some (ich, its) =>
      exists lg,
        client_root ev job s
        = (Py.Return tt,
           set_log (log s ++ lg ++ [(INFO, "[REGURG] saved map for job " +:+ job)])
             (set_questions
                (questions (snd (_update_client_thread_info job (ts ev) (channel ev) s)))
                (set_RELAY_MEM
                   (RelayMemory.save_map (RELAY_MEM s) job ich its (ts ev)
                      (clock s (ticks s)) (clock s (S (ticks s))))
                   (set_ticks (S (S (ticks s))) s))))
  end.
Proof.
  intros Hp.
  assert (client_root ev job s
          = match d !! job with
            | None =>
                logger WARNING ("[REGURG] no cached internal thread for job " +:+ job) s
            | Some (internal_channel, internal_ts) =>
                Py.try_except
                  (save_map job internal_channel internal_ts (channel ev) (ts ev) >>
                   _update_client_thread_info job (ts ev) (channel ev) >>
                   logger INFO ("[REGURG] saved map for job " +:+ job))
                  (fun e => logger ERROR ("[REGURG] save_map failed: " +:+ Py.exn_str e)) s
            end) as Hrun.
  { unfold client_root, pending_internal.
    unfold Py.bind at 1. unfold Py.bind at 1. unfold Py.get at 1. rewrite Hp.
    unfold Py.ret at 1. by destruct (d !! job) as [[? ?]|]. }
  destruct (d !! job) as [[ich its]|]; [|by rewrite Hrun].
  rewrite Hrun. clear Hrun.
  unfold Py.try_except, save_map, relay_save, time_time.
  unfold Py.bind at 1. unfold Py.bind at 1. unfold Py.bind at 1. unfold Py.bind at 1.
  unfold Py.modify at 1.
  cbn [clock ticks set_ticks RELAY_MEM].
  set (s2 := set_RELAY_MEM _ _).
  rewrite (thread_writer_shape s2).
  rewrite (thread_writer_questions s2 s) by done.
  pose proof (sure_update_client_thread_info job (ts ev) (channel ev) s2) as Hsure.
  destruct (Hsure ltac:(by exists d)) as [He _].
  destruct (ev_log _ _ He) as [lg Hlg]. simpl in Hlg.
  exists lg. unfold logger, Py.modify. simpl. rewrite Hlg, <- app_assoc. done.
Qed.

(** The branch for a reply in a client thread the relay cache knows. *)
Lemma client_reply_tracked (s : State) (ev : Event) (text th job ich its : string)
    (tc : Z) :
  RelayMemory.map (RELAY_MEM s) !! th = Some (job, ich, its, tc) ->
  exists nm lg,
    (default "" (user ev) <> "" -> nm <> "")
    /\ client_reply ev text th s
       = (Py.Return tt,
          set_log (log s ++ lg)
            (set_posted
               (if down s ChatPostMessage then posted s
                else posted s ++ [(ich, its, "*Client reply* (" +:+ nm +:+ ")" +:+ nl
                                             +:+ text)])
               (set_questions
                  (questions
                     (snd (_update_sheet_response_for_job job (today s) (time_of_day s)
                             nm text s))) s)))
    /\ (down s ChatPostMessage = true ->
          exists err, (ERROR, "Failed posting back to internal thread: " +:+ err) ∈ lg).
Proof.
  intros Hl. unfold client_reply, by_client_thread, RelayMemory.by_client_thread.
  unfold Py.bind at 1.
  destruct (RelayMemory.map (RELAY_MEM s) !! th) as [[[[job' ich'] its'] tc']|] eqn:E;
    [|congruence].
  assert (job' = job /\ ich' = ich /\ its' = its) as (-> & -> & ->)
    by (repeat split; congruence).
  clear E.
  replace (set_RELAY_MEM (RELAY_MEM s) s) with s by (by destruct s).
  unfold Py.bind at 1.
  destruct (get_user_name_safe_run s (default "" (user ev)))
    as (nm & lg1 & -> & Hnm & _).
  exists nm. unfold Py.bind at 1. unfold Py.get at 1. unfold Py.bind at 1.
  cbn [today time_of_day set_log].
  set (s1 := set_log (log s ++ lg1) s).
  rewrite (response_writer_shape s1).
  rewrite (response_writer_questions s1 s) by done.
  assert (exists lg2,
            log (snd (_update_sheet_response_for_job job (today s) (time_of_day s) nm text s1))
            = log s ++ lg1 ++ lg2) as [lg2 Hlg2].
  { unfold _update_sheet_response_for_job, Py.try_except, get_questions,
      update_questions, append_to_sheet, call, logger, Py.bind, Py.get, Py.modify,
      Py.ret, Py.raise. subst s1. clear Hl.
    destruct s as [i c j p r q jl u po dn lg ck tk td tm]. simpl.
    destruct (dn SheetsGet); simpl; [eexists [_]; by rewrite <- !app_assoc|].
    destruct (values_get q "K") as [|h rows]; simpl;
      [exists []; by rewrite app_nil_r|].
    destruct (find_unanswered _ _ _); simpl.
    - destruct (dn SheetsUpdate); simpl;
        [eexists [_]; by rewrite <- !app_assoc|exists []; by rewrite app_nil_r].
    - destruct (dn SheetsAppend); simpl;
        [eexists [_; _]|eexists [_]]; by rewrite <- !app_assoc. }
  rewrite Hlg2.
  unfold Py.try_except, call, Py.bind, logger, Py.modify.
  cbn [down set_log set_questions].
  change (down s1 ChatPostMessage) with (down s ChatPostMessage).
  destruct (down s ChatPostMessage) eqn:Hpost.
  - eexists (lg1 ++ lg2 ++ [_]). split; [done|]. split.
    + cbn [log set_log]. rewrite <- !app_assoc. reflexivity.
    + intros _. eexists. rewrite !elem_of_app. right. right.
      by apply list_elem_of_singleton.
  - eexists (lg1 ++ lg2 ++ [_]). split; [done|]. split; [|done].
    cbn [log set_log set_posted posted set_questions]. rewrite <- !app_assoc.
    reflexivity.
Qed.

(** The branch for a reply in a client thread the relay cache does not
    know. *)
Lemma client_reply_untracked (s : State) (ev : Event) (text th : string) :
  RelayMemory.map (RELAY_MEM s) !! th = None ->
  client_reply ev text th s
  = (Py.Return tt,
     set_log (log s ++ [(DEBUG, "[CLIENT REPLY] no mapping for (" +:+ channel ev +:+ ","
                                +:+ th +:+ ")")]) s).
Proof.
  intros Hl. unfold client_reply, by_client_thread, RelayMemory.by_client_thread.
  unfold Py.bind.
  destruct (RelayMemory.map (RELAY_MEM s) !! th) as [e|] eqn:E; [congruence|].
  replace (set_RELAY_MEM (RELAY_MEM s) s) with s by (by destruct s). reflexivity.
Qed.

(** The Job Log lookup of the router never fails: without a sheet id, or
    while the service is down, the job name and the work-item id are
    blank. *)
Lemma joblog_lookup_run (s : State) (job : string) :
  exists lg,
    Py.try_except
      (let* hit := find_job_in_joblog job in
       match hit with
       | Some e => Py.ret (GoogleUtils.job_name e, GoogleUtils.monday_item_id e)
       | None => Py.ret ("", "")
       end)
      (fun e => logger ERROR ("Job Log lookup failed: " +:+ Py.exn_str e) >>
                Py.ret ("", "")) s
    = (Py.Return
         (if Py.truthy_opt (JOBLOG_SHEET_ID s) && negb (down s SheetsGet)
          then match GoogleUtils.find_job_in_rows (values_get (joblog s) "H") job with
               | Some e => (GoogleUtils.job_name e, GoogleUtils.monday_item_id e)
               | None => ("", "")
               end
          else ("", "")),
       set_log (log s ++ lg) s)
    /\ (Py.truthy_opt (JOBLOG_SHEET_ID s) && negb (down s SheetsGet) = false ->
          exists err, lg = [(ERROR, "Job Log lookup failed: " +:+ err)]).
Proof.
  unfold Py.try_except, find_job_in_joblog, read_range, Py.bind, Py.get.
  destruct (Py.truthy_opt (JOBLOG_SHEET_ID s)); simpl.
  - unfold call. destruct (down s SheetsGet); simpl.
    + eexists [_]. split; [reflexivity|]. intros _. by eexists.
    + exists []. rewrite app_nil_r, set_log_same. split; [|done].
      by destruct (GoogleUtils.find_job_in_rows _ _).
  - eexists [_]. split; [reflexivity|]. intros _. by eexists.
Qed.

(** The branch for a tagged message of an internal channel, with the row
    it appends. *)
Lemma internal_question_row (s : State) (ev : Event) (text job : string)
    (d : gmap string (string * string)) :
  PENDING_INTERNAL s = Some d ->
  exists nm lg,
    let found :=
      if Py.truthy_opt (JOBLOG_SHEET_ID s) && negb (down s SheetsGet)
      then match GoogleUtils.find_job_in_rows (values_get (joblog s) "H") job with
           | Some e => (GoogleUtils.job_name e, GoogleUtils.monday_item_id e)
           | None => ("", "")
           end
      else ("", "") in
    let row := [job; fst found; today s; time_of_day s; nm; text;
                ""; ""; ""; ""; snd found; ts ev; ""; channel ev; ""] in
    internal_question ev text job s
    = (Py.Return tt,
       set_log (log s ++ lg)
         (set_PENDING_INTERNAL (Some (<[job := (channel ev, ts ev)]> d))
            (if down s SheetsAppend then s
             else set_questions (questions s ++ [row]) s)))
    /\ (default "" (user ev) <> "" -> nm <> "")
    /\ (Py.truthy_opt (JOBLOG_SHEET_ID s) && negb (down s SheetsGet) = false ->
          exists err, (ERROR, "Job Log lookup failed: " +:+ err) ∈ lg).
Proof.
  intros Hp. unfold internal_question.
  unfold Py.bind at 1.
  destruct (get_user_name_safe_run s (default "" (user ev))) as (nm & lg1 & -> & Hnm & _).
  unfold Py.bind at 1. unfold Py.get at 1.
  unfold Py.bind at 1.
  destruct (joblog_lookup_run (set_log (log s ++ lg1) s) job) as (lg2 & -> & Herr).
  cbn [JOBLOG_SHEET_ID down joblog today time_of_day set_log log] in *.
  set (found := if Py.truthy_opt (JOBLOG_SHEET_ID s) && negb (down s SheetsGet)
                then _ else _) in *.
  unfold Py.bind at 1. unfold Py.try_except, append_to_sheet, call.
  unfold Py.bind at 1. cbn [down set_log].
  exists nm.
  destruct (down s SheetsAppend) eqn:Happ.
  - unfold logger at 1, Py.modify at 1.
    unfold Py.bind, pending_internal_setitem, pending_internal, Py.bind, Py.get,
      logger, Py.modify, Py.ret.
    cbn [PENDING_INTERNAL set_log set_PENDING_INTERNAL log]. rewrite Hp.
    eexists (lg1 ++ lg2 ++ [_; _]). split; [|split; [done|]].
    + cbn [log set_log set_PENDING_INTERNAL]. rewrite <- !app_assoc. reflexivity.
    + intros Hf. destruct (Herr Hf) as [err ->]. exists err.
      rewrite !elem_of_app. right. left. by apply list_elem_of_singleton.
  - unfold Py.modify at 1.
    unfold Py.bind, pending_internal_setitem, pending_internal, Py.bind, Py.get,
      logger, Py.modify, Py.ret.
    cbn [PENDING_INTERNAL set_log set_PENDING_INTERNAL set_questions log questions
         values_append]. rewrite Hp.
    eexists (lg1 ++ lg2 ++ [_]). split; [|split; [done|]].
    + cbn [log set_log set_PENDING_INTERNAL set_questions]. rewrite <- !app_assoc.
      reflexivity.
    + intros Hf. destruct (Herr Hf) as [err ->]. exists err.
      rewrite !elem_of_app. right. left. by apply list_elem_of_singleton.
Qed.

End RouterBranches.

(** ** The message router: what each kind of event does *)

Section RouterFlowFacts.

Import Sheets SheetSpec TagSpec App RelaySpec RouterSpec RouterFrame.

Local Arguments String.append : simpl nomatch.
Local Arguments Re.is_digit : simpl never.
Local Arguments Py.isspace : simpl never.

Lemma search_tag_group t m :
  Re.search JOB_TAG_RE t = Some m ->
  exists job, Re.group m 1 = Some job /\ five_digits job.
Proof.
  unfold Re.search. intros Hs.
  apply search_from_Some in Hs as (pre & suf & mm & rest & _ & Hm & _).
  apply match_here_tag_inv in Hm as (job & _ & Hfive & Hg).
  exists job. unfold Re.group. by rewrite Hg.
Qed.

Lemma job_tag_None_search t : job_tag t = None -> Re.search JOB_TAG_RE t = None.
Proof.
  unfold job_tag. destruct (Re.search JOB_TAG_RE t) as [m|] eqn:Hs; [|done].
  destruct (search_tag_group _ _ Hs) as (job & -> & _). done.
Qed.



End RouterFlowFacts.

Section RouterFlows.

Import Sheets SheetSpec TagSpec App RelaySpec RouterSpec RouterFrame Scenario Flows.

Local Arguments String.append : simpl nomatch.

(** An event without a body, with a subtype (an edit, a join, ...) or
    from a bot, the echo of the relay included, is dropped before anything
    is read, logged or written: the router returns and the state is the
    same, after one such event and after any number of them. *)
Theorem ignored_events_change_nothing (s : State) (events : list (option Event)) :
  Forall ignored events ->
  deliver events s = s
  /\ forall event, event ∈ events -> message_router event s = (Py.Return tt, s).
Proof.
  assert (forall event, ignored event -> message_router event s = (Py.Return tt, s))
    as Hone.
  { intros [ev|]; [|done]. unfold ignored, message_router.
    intros [H|H]; rewrite H; [done|]. by rewrite orb_true_r. }
  intros Hall. split.
  - induction Hall as [|event events Hev _ IH]; [done|].
    unfold deliver. simpl. rewrite (Hone event Hev). exact IH.
  - intros event Hin. apply Hone. by apply (proj1 (Forall_forall _ _) Hall).
Qed.

(** The echo of the bot, although it carries a job tag and comes from an
    internal channel, and an event without a body. *)
Lemma ignored_events_change_nothing_witness :
  deliver [Some bot_echo; None] (staffed [header_row]) = staffed [header_row].
Proof.
  apply (ignored_events_change_nothing (staffed [header_row]) [Some bot_echo; None]).
  constructor; [right; reflexivity|]. constructor; [exact I|constructor].
Defined.

(** Messages the router has no use for leave the sheet, the caches and
    the internal threads alone, and only add to the log: a message of an
    internal channel without a job tag; a message of a channel that is
    neither internal nor, when client channels are listed, one of them;
    and a message of a client channel that has no job tag and is not in a
    thread. *)
Theorem unrouted_messages_only_log (s : State) (ev : Event) :
  Py.truthy_opt (subtype ev) = false ->
  Py.truthy_opt (bot_id ev) = false ->
  (channel ev ∈ INTERNAL_CHANNEL_IDS s /\ job_tag (default "" (text ev)) = None)
  \/ ((channel ev ∉ INTERNAL_CHANNEL_IDS s) /\ CLIENT_CHANNEL_IDS s <> []
       /\ (channel ev ∉ CLIENT_CHANNEL_IDS s))
  \/ ((channel ev ∉ INTERNAL_CHANNEL_IDS s) /\ job_tag (default "" (text ev)) = None
       /\ Py.truthy_opt (thread_ts ev) = false) ->
  exists lg, message_router (Some ev) s = (Py.Return tt, set_log (log s ++ lg) s).
Proof.
  intros Hsub Hbot Hcase.
  destruct (message_router_dispatch s ev Hsub Hbot) as [lg Hrun].
  exists lg. rewrite Hrun. clear Hrun.
  destruct Hcase as [[Hint Htag]|[(Hint & Hne & Hcl)|(Hint & Htag & Hth)]].
  - rewrite (bool_decide_eq_true_2 _ Hint).
    rewrite <- job_tag_strip in Htag. by rewrite (job_tag_None_search _ Htag).
  - rewrite (bool_decide_eq_false_2 _ Hint).
    destruct (CLIENT_CHANNEL_IDS s) as [|c0 cs]; [done|].
    by rewrite (bool_decide_eq_false_2 _ Hcl).
  - rewrite (bool_decide_eq_false_2 _ Hint).
    rewrite <- job_tag_strip in Htag. rewrite (job_tag_None_search _ Htag).
    destruct (match CLIENT_CHANNEL_IDS s with [] => true | _ => _ end); [|done].
    destruct (thread_ts ev) as [th|]; [|done].
    simpl in Hth. by rewrite Hth.
Qed.

(** Small talk in an internal channel, with a tag of three digits only. *)
Lemma unrouted_messages_only_log_witness :
  exists lg,
    message_router (Some untagged_message) (staffed [header_row])
    = (Py.Return tt, set_log (log (staffed [header_row]) ++ lg) (staffed [header_row])).
Proof.
  apply unrouted_messages_only_log; [reflexivity|reflexivity|].
  left. split; [|vm_compute; reflexivity].
  apply (bool_decide_unpack _). vm_compute. reflexivity.
Defined.

(** [_is_client_channel] answers yes exactly for a channel that is not
    internal and that, when client channels are listed, is one of them; a
    channel listed on both sides is internal.  It writes one log line and
    nothing else. *)
Theorem is_client_channel_decision (s : State) (chan : string) :
  exists line,
    _is_client_channel chan s
    = (Py.Return
         (bool_decide ((chan ∉ INTERNAL_CHANNEL_IDS s)
                       /\ (CLIENT_CHANNEL_IDS s = [] \/ chan ∈ CLIENT_CHANNEL_IDS s))),
       set_log (log s ++ [(INFO, line)]) s).
Proof.
  unfold _is_client_channel, Py.bind, Py.get, logger, Py.modify, Py.ret.
  destruct (decide (chan ∈ INTERNAL_CHANNEL_IDS s)) as [Hint|Hint].
  - rewrite (bool_decide_eq_true_2 _ Hint). eexists.
    rewrite bool_decide_eq_false_2; [reflexivity|]. by intros [? _].
  - rewrite (bool_decide_eq_false_2 _ Hint).
    destruct (CLIENT_CHANNEL_IDS s) as [|c0 cs] eqn:Hcl.
    + eexists. rewrite bool_decide_eq_true_2; [reflexivity|]. split; [done|by left].
    + eexists. f_equal. f_equal. apply bool_decide_ext. split.
      * intros H. split; [done|by right].
      * by intros [_ [?|?]].
Qed.

(** The name the router shows for a user is never blank unless the user
    id is: it is the first non-empty of the real name, the display name
    and the account name, and the user id when all three are empty, when
    the user is unknown or when the lookup fails; a failure is logged and
    never raised. *)
Theorem user_name_resolution (s : State) (user_id : string) :
  exists nm lg,
    _get_user_name_safe user_id s = (Py.Return nm, set_log (log s ++ lg) s)
    /\ (user_id <> "" -> nm <> "")
    /\ (down s UsersInfo = true \/ users s !! user_id = None ->
          nm = user_id /\ exists err, lg = [(ERROR, "users_info failed: " +:+ err)])
    /\ (forall ui, down s UsersInfo = false -> users s !! user_id = Some ui ->
          lg = [] /\ nm = first_truthy [real_name ui; display_name ui; name ui] user_id).
Proof. apply get_user_name_safe_run. Qed.

(** The router on a tagged thread root of a client channel. *)
Lemma message_router_client_root (s : State) (ev : Event) (job : string) :
  Py.truthy_opt (subtype ev) = false ->
  Py.truthy_opt (bot_id ev) = false ->
  channel ev ∉ INTERNAL_CHANNEL_IDS s ->
  CLIENT_CHANNEL_IDS s = [] \/ channel ev ∈ CLIENT_CHANNEL_IDS s ->
  job_tag (default "" (text ev)) = Some job ->
  Py.truthy_opt (thread_ts ev) = false \/ thread_ts ev = Some (ts ev) ->
  exists lg,
    message_router (Some ev) s = client_root ev job (set_log (log s ++ lg) s).
Proof.
  intros Hsub Hbot Hint Hcl Htag Hroot.
  destruct (message_router_dispatch s ev Hsub Hbot) as [lg Hrun].
  exists lg. rewrite Hrun. clear Hrun.
  rewrite (bool_decide_eq_false_2 _ Hint).
  assert (match CLIENT_CHANNEL_IDS s with
          | [] => true
          | _ :: _ => bool_decide (channel ev ∈ CLIENT_CHANNEL_IDS s)
          end = true) as ->.
  { destruct Hcl as [->|Hin]; [done|].
    destruct (CLIENT_CHANNEL_IDS s); [done|]. by apply bool_decide_eq_true_2. }
  rewrite <- job_tag_strip in Htag. unfold job_tag in Htag.
  destruct (Re.search JOB_TAG_RE (Py.strip (default "" (text ev)))) as [m|]; [|done].
  rewrite Htag.
  assert (negb (Py.truthy_opt (thread_ts ev)) || bool_decide (thread_ts ev = Some (ts ev))
          = true) as ->.
  { destruct Hroot as [->|Hr]; [done|]. rewrite (bool_decide_eq_true_2 _ Hr).
    apply orb_true_r. }
  done.
Qed.

(** The router on a reply in a thread of a client channel. *)
Lemma message_router_client_reply (s : State) (ev : Event) (th : string) :
  Py.truthy_opt (subtype ev) = false ->
  Py.truthy_opt (bot_id ev) = false ->
  channel ev ∉ INTERNAL_CHANNEL_IDS s ->
  CLIENT_CHANNEL_IDS s = [] \/ channel ev ∈ CLIENT_CHANNEL_IDS s ->
  thread_ts ev = Some th -> th <> "" -> th <> ts ev ->
  exists lg,
    message_router (Some ev) s
    = client_reply ev (Py.strip (default "" (text ev))) th (set_log (log s ++ lg) s).
Proof.
  intros Hsub Hbot Hint Hcl Hth Hne Hroot.
  destruct (message_router_dispatch s ev Hsub Hbot) as [lg Hrun].
  exists lg. rewrite Hrun. clear Hrun.
  rewrite (bool_decide_eq_false_2 _ Hint).
  assert (match CLIENT_CHANNEL_IDS s with
          | [] => true
          | _ :: _ => bool_decide (channel ev ∈ CLIENT_CHANNEL_IDS s)
          end = true) as ->.
  { destruct Hcl as [->|Hin]; [done|].
    destruct (CLIENT_CHANNEL_IDS s); [done|]. by apply bool_decide_eq_true_2. }
  rewrite Hth.
  assert (Py.truthy th = true) as Htr by (by destruct th).
  assert (negb (Py.truthy_opt (Some th)) || bool_decide (Some th = Some (ts ev)) = false)
    as ->.
  { simpl. rewrite Htr. simpl. apply bool_decide_eq_false_2. congruence. }
  rewrite Htr. by destruct (Re.search _ _).
Qed.

(** A tagged thread root of a client channel for a job nobody asked about
    in an internal channel is not relayed: a warning is logged, no mapping
    is saved and the sheet is not written. *)
Theorem client_root_without_question (s : State) (ev : Event) (job : string)
    (d : gmap string (string * string)) :
  PENDING_INTERNAL s = Some d ->
  Py.truthy_opt (subtype ev) = false ->
  Py.truthy_opt (bot_id ev) = false ->
  channel ev ∉ INTERNAL_CHANNEL_IDS s ->
  CLIENT_CHANNEL_IDS s = [] \/ channel ev ∈ CLIENT_CHANNEL_IDS s ->
  job_tag (default "" (text ev)) = Some job ->
  Py.truthy_opt (thread_ts ev) = false \/ thread_ts ev = Some (ts ev) ->
  d !! job = None ->
  exists lg,
    message_router (Some ev) s
    = (Py.Return tt,
       set_log (log s ++ lg
                ++ [(WARNING, "[REGURG] no cached internal thread for job " +:+ job)]) s).
Proof.
  intros Hp Hsub Hbot Hint Hcl Htag Hroot Hd.
  destruct (message_router_client_root s ev job Hsub Hbot Hint Hcl Htag Hroot)
    as [lg ->].
  exists lg. pose proof (client_root_run (set_log (log s ++ lg) s) ev job d Hp) as Hrun.
  rewrite Hd in Hrun. rewrite Hrun. cbn [log set_log]. by rewrite <- app_assoc.
Qed.

(** The question reposted before anybody asked it internally. *)
Lemma client_root_without_question_witness :
  exists lg,
    message_router (Some client_root_message) (staffed [header_row])
    = (Py.Return tt,
       set_log (log (staffed [header_row]) ++ lg
                ++ [(WARNING, "[REGURG] no cached internal thread for job " +:+ "12345")])
         (staffed [header_row])).
Proof.
  apply (client_root_without_question (staffed [header_row]) client_root_message "12345" ∅).
  - reflexivity.
  - reflexivity.
  - reflexivity.
  - apply (bool_decide_unpack _). vm_compute. reflexivity.
  - by left.
  - vm_compute. reflexivity.
  - by left.
  - reflexivity.
Defined.

(** A tagged thread root of a client channel for a job that has a
    Pending-Internal entry: the router returns; the relay cache gets the
    mapping from the timestamp of the root to the job and the internal
    thread, whether the sheet can be written or not; the Pending-Internal
    entry stays, so that further roots of the job are mapped as well;
    nothing is posted; and the Question Log is what the client-thread write
    makes of it. *)
Theorem client_root_saves_mapping (s : State) (ev : Event) (job ich its : string)
    (d : gmap string (string * string)) :
  PENDING_INTERNAL s = Some d ->
  Py.truthy_opt (subtype ev) = false ->
  Py.truthy_opt (bot_id ev) = false ->
  channel ev ∉ INTERNAL_CHANNEL_IDS s ->
  CLIENT_CHANNEL_IDS s = [] \/ channel ev ∈ CLIENT_CHANNEL_IDS s ->
  job_tag (default "" (text ev)) = Some job ->
  Py.truthy_opt (thread_ts ev) = false \/ thread_ts ev = Some (ts ev) ->
  d !! job = Some (ich, its) ->
  let s' := snd (message_router (Some ev) s) in
  fst (message_router (Some ev) s) = Py.Return tt
  /\ RELAY_MEM s'
     = RelayMemory.save_map (RELAY_MEM s) job ich its (ts ev)
         (clock s (ticks s)) (clock s (S (ticks s)))
  /\ PENDING_INTERNAL s' = Some d
  /\ posted s' = posted s
  /\ questions s'
     = questions (snd (_update_client_thread_info job (ts ev) (channel ev) s))
  /\ (INFO, "[REGURG] saved map for job " +:+ job) ∈ log s'.
Proof.
  intros Hp Hsub Hbot Hint Hcl Htag Hroot Hd s'. subst s'.
  destruct (message_router_client_root s ev job Hsub Hbot Hint Hcl Htag Hroot)
    as [lg ->].
  pose proof (client_root_run (set_log (log s ++ lg) s) ev job d Hp) as Hrun.
  rewrite Hd in Hrun. destruct Hrun as [lg2 ->]. cbn [fst snd].
  split; [done|]. split; [done|]. split; [done|]. split; [done|]. split.
  - cbn [questions set_log set_questions].
    by apply thread_writer_questions.
  - cbn [log set_log]. rewrite !elem_of_app. right. right.
    by apply list_elem_of_singleton.
Qed.

(** The question of job 12345, asked internally and then reposted. *)
Lemma client_root_saves_mapping_witness :
  RELAY_MEM reposted
  = RelayMemory.save_map RelayMemory.default "12345" "C08HUKW7NDU" "1736154900.000100"
      "1736155000.000200" 1736155000 1736155001
  /\ posted reposted = [].
Proof.
  destruct (client_root_saves_mapping asked client_root_message "12345" "C08HUKW7NDU"
              "1736154900.000100"
              (<["12345" := ("C08HUKW7NDU", "1736154900.000100")]> ∅))
    as (_ & Hrelay & _ & Hposted & _).
  - vm_compute. reflexivity.
  - reflexivity.
  - reflexivity.
  - apply (bool_decide_unpack _). vm_compute. reflexivity.
  - by left.
  - vm_compute. reflexivity.
  - by left.
  - vm_compute. reflexivity.
  - split; [exact Hrelay|exact Hposted].
Defined.

(** A reply in a client thread the relay cache knows: the router returns;
    the response writer is run for the job of the thread with the date and
    time of the reply, the name shown for the author and the trimmed text;
    then the reply is posted to the internal thread of the question, under
    the same name.  When the post fails the error is logged and the sheet
    keeps the response.  Neither cache changes. *)
Theorem client_reply_recorded_and_echoed (s : State) (ev : Event) (th job ich its : string)
    (tc : Z) :
  Py.truthy_opt (subtype ev) = false ->
  Py.truthy_opt (bot_id ev) = false ->
  channel ev ∉ INTERNAL_CHANNEL_IDS s ->
  CLIENT_CHANNEL_IDS s = [] \/ channel ev ∈ CLIENT_CHANNEL_IDS s ->
  thread_ts ev = Some th -> th <> "" -> th <> ts ev ->
  RelayMemory.map (RELAY_MEM s) !! th = Some (job, ich, its, tc) ->
  let s' := snd (message_router (Some ev) s) in
  let text := Py.strip (default "" (text ev)) in
  exists nm,
    fst (message_router (Some ev) s) = Py.Return tt
    /\ (default "" (user ev) <> "" -> nm <> "")
    /\ questions s'
       = questions (snd (_update_sheet_response_for_job job (today s) (time_of_day s)
                           nm text s))
    /\ posted s'
       = (if down s ChatPostMessage then posted s
          else posted s ++ [(ich, its, "*Client reply* (" +:+ nm +:+ ")" +:+ nl +:+ text)])
    /\ (down s ChatPostMessage = true ->
          exists err, (ERROR, "Failed posting back to internal thread: " +:+ err) ∈ log s')
    /\ RELAY_MEM s' = RELAY_MEM s
    /\ PENDING_INTERNAL s' = PENDING_INTERNAL s.
Proof.
  intros Hsub Hbot Hint Hcl Hth Hne Hroot Hl s' text. subst s' text.
  destruct (message_router_client_reply s ev th Hsub Hbot Hint Hcl Hth Hne Hroot)
    as [lg ->].
  destruct (client_reply_tracked (set_log (log s ++ lg) s) ev
              (Py.strip (default "" (text ev))) th job ich its tc Hl)
    as (nm & lg2 & Hnm & -> & Herr).
  exists nm. cbn [fst snd].
  split; [done|]. split; [done|]. split; [|split; [done|split; [|done]]].
  - cbn [questions set_log set_posted set_questions today time_of_day].
    by apply response_writer_questions.
  - intros Hdown. destruct (Herr Hdown) as [err Hin]. exists err.
    cbn [log set_log]. rewrite elem_of_app. by right.
Qed.

(** The client answers in the thread of the reposted question. *)
Lemma client_reply_recorded_and_echoed_witness :
  exists nm,
    posted (snd (message_router (Some client_reply_message) reposted))
    = [("C08HUKW7NDU", "1736154900.000100",
        "*Client reply* (" +:+ nm +:+ ")" +:+ nl +:+ "Yes, confirmed.")]
    /\ nm <> "".
Proof.
  destruct (client_reply_recorded_and_echoed reposted client_reply_message
              "1736155000.000200" "12345" "C08HUKW7NDU" "1736154900.000100" 1736155000)
    as (nm & _ & Hnm & _ & Hposted & _).
  - reflexivity.
  - reflexivity.
  - apply (bool_decide_unpack _). vm_compute. reflexivity.
  - by left.
  - reflexivity.
  - done.
  - done.
  - vm_compute. reflexivity.
  - exists nm. split; [exact Hposted|]. by apply Hnm.
Defined.

(** A reply in a thread the relay cache does not know (never mapped,
    evicted, or mapped before a restart) is not recorded and not echoed:
    the router logs a debug line and changes nothing else. *)
Theorem client_reply_untracked_dropped (s : State) (ev : Event) (th : string) :
  Py.truthy_opt (subtype ev) = false ->
  Py.truthy_opt (bot_id ev) = false ->
  channel ev ∉ INTERNAL_CHANNEL_IDS s ->
  CLIENT_CHANNEL_IDS s = [] \/ channel ev ∈ CLIENT_CHANNEL_IDS s ->
  thread_ts ev = Some th -> th <> "" -> th <> ts ev ->
  RelayMemory.map (RELAY_MEM s) !! th = None ->
  exists lg,
    message_router (Some ev) s
    = (Py.Return tt,
       set_log (log s ++ lg
                ++ [(DEBUG, "[CLIENT REPLY] no mapping for (" +:+ channel ev +:+ ","
                            +:+ th +:+ ")")]) s).
Proof.
  intros Hsub Hbot Hint Hcl Hth Hne Hroot Hl.
  destruct (message_router_client_reply s ev th Hsub Hbot Hint Hcl Hth Hne Hroot)
    as [lg ->].
  rewrite (client_reply_untracked (set_log (log s ++ lg) s) ev
             (Py.strip (default "" (text ev))) th Hl).
  exists lg. cbn [log set_log]. by rewrite <- app_assoc.
Qed.

(** The client answers in a thread that was never mapped. *)
Lemma client_reply_untracked_dropped_witness :
  exists lg,
    message_router (Some client_reply_message) asked
    = (Py.Return tt,
       set_log (log asked ++ lg
                ++ [(DEBUG, "[CLIENT REPLY] no mapping for (" +:+ "C0CLIENT01" +:+ ","
                            +:+ "1736155000.000200" +:+ ")")]) asked).
Proof.
  apply (client_reply_untracked_dropped asked client_reply_message "1736155000.000200").
  - reflexivity.
  - reflexivity.
  - apply (bool_decide_unpack _). vm_compute. reflexivity.
  - by left.
  - reflexivity.
  - done.
  - done.
  - vm_compute. reflexivity.
Defined.

(** The router on a tagged message of an internal channel. *)
Lemma message_router_internal (s : State) (ev : Event) (job : string) :
  Py.truthy_opt (subtype ev) = false ->
  Py.truthy_opt (bot_id ev) = false ->
  channel ev ∈ INTERNAL_CHANNEL_IDS s ->
  job_tag (default "" (text ev)) = Some job ->
  exists lg,
    message_router (Some ev) s
    = internal_question ev (Py.strip (default "" (text ev))) job (set_log (log s ++ lg) s).
Proof.
  intros Hsub Hbot Hint Htag.
  destruct (message_router_dispatch s ev Hsub Hbot) as [lg Hrun].
  exists lg. rewrite Hrun. clear Hrun.
  rewrite (bool_decide_eq_true_2 _ Hint).
  rewrite <- job_tag_strip in Htag. unfold job_tag in Htag.
  destruct (Re.search JOB_TAG_RE (Py.strip (default "" (text ev)))) as [m|]; [|done].
  by rewrite Htag.
Qed.

(** The row a tagged internal message appends while the sheet takes
    appends: job, job name, date, time, the name shown for the author, the
    trimmed text, four blank response cells, the work-item id, the
    timestamp of the message, a blank client timestamp, the channel and a
    blank client channel.  The job name and the work-item id come from the
    first Job Log row of the job; when the Job Log cannot be read (no sheet
    id configured, or the service fails) they are blank, the failure is
    logged and the row is appended all the same. *)
Theorem internal_question_appends_row (s : State) (ev : Event) (job : string)
    (d : gmap string (string * string)) :
  PENDING_INTERNAL s = Some d ->
  Py.truthy_opt (subtype ev) = false ->
  Py.truthy_opt (bot_id ev) = false ->
  channel ev ∈ INTERNAL_CHANNEL_IDS s ->
  job_tag (default "" (text ev)) = Some job ->
  down s SheetsAppend = false ->
  let s' := snd (message_router (Some ev) s) in
  exists nm jn mid,
    questions s'
    = questions s ++ [[job; jn; today s; time_of_day s; nm;
                       Py.strip (default "" (text ev)); ""; ""; ""; ""; mid; ts ev; "";
                       channel ev; ""]]
    /\ (default "" (user ev) <> "" -> nm <> "")
    /\ (Py.truthy_opt (JOBLOG_SHEET_ID s) = false \/ down s SheetsGet = true ->
          jn = "" /\ mid = ""
          /\ exists err, (ERROR, "Job Log lookup failed: " +:+ err) ∈ log s')
    /\ (Py.truthy_opt (JOBLOG_SHEET_ID s) = true -> down s SheetsGet = false ->
          (jn, mid)
          = match GoogleUtils.find_job_in_rows (values_get (joblog s) "H") job with
            | Some e => (GoogleUtils.job_name e, GoogleUtils.monday_item_id e)
            | None => ("", "")
            end).
Proof.
  intros Hp Hsub Hbot Hint Htag Happ s'. subst s'.
  destruct (message_router_internal s ev job Hsub Hbot Hint Htag) as [lg ->].
  destruct (internal_question_row (set_log (log s ++ lg) s) ev
              (Py.strip (default "" (text ev))) job d Hp)
    as (nm & lg2 & Hrun & Hnm & Herr).
  cbv zeta in Hrun. rewrite Hrun. clear Hrun.
  cbn [down set_log JOBLOG_SHEET_ID joblog today time_of_day questions] in *.
  rewrite Happ. cbn [snd questions set_log set_PENDING_INTERNAL set_questions log].
  eexists nm, _, _. split; [reflexivity|]. split; [done|]. split.
  - intros Hfail.
    assert (Py.truthy_opt (JOBLOG_SHEET_ID s) && negb (down s SheetsGet) = false) as Hf.
    { destruct Hfail as [->| ->]; [done|]. apply andb_false_r. }
    rewrite Hf. split; [done|]. split; [done|].
    destruct (Herr Hf) as [err Hin]. exists err. rewrite elem_of_app. by right.
  - intros -> ->. simpl. by destruct (GoogleUtils.find_job_in_rows _ _).
Qed.

(** The question of job 12345, with the Job Log at hand. *)
Lemma internal_question_appends_row_witness :
  exists nm,
    questions asked
    = [header_row;
       ["12345"; "Elm Street"; "2025-01-06"; "09:20:00"; nm; "Please confirm #12345?";
        ""; ""; ""; ""; "8801"; "1736154900.000100"; ""; "C08HUKW7NDU"; ""]].
Proof.
  destruct (internal_question_appends_row (staffed [header_row]) internal_message
              "12345" ∅) as (nm & jn & mid & Hq & _ & _ & Hfound).
  - reflexivity.
  - reflexivity.
  - reflexivity.
  - apply (bool_decide_unpack _). vm_compute. reflexivity.
  - vm_compute. reflexivity.
  - reflexivity.
  - exists nm. specialize (Hfound eq_refl eq_refl). vm_compute in Hfound.
    injection Hfound as -> ->. exact Hq.
Defined.

(** Once [PENDING_INTERNAL] is bound the router never raises, whatever
    the event and whichever of the services fail. *)
Theorem message_router_never_raises (s : State) (event : option Event) :
  bound s -> fst (message_router event s) = Py.Return tt.
Proof.
  intros Hs. destruct (sure_message_router event s Hs) as [_ [[] Hr]]. exact Hr.
Qed.

(** A reply while every service is down. *)
Lemma message_router_never_raises_witness :
  fst (message_router (Some client_reply_message)
         (mkState ["C08HUKW7NDU"] [] None (Some ∅) (RELAY_MEM reposted) [] [] ∅ []
            (fun _ => true) [] (fun _ => 0) 0 "2025-01-06" "09:20:00"))
  = Py.Return tt.
Proof. apply message_router_never_raises. by exists ∅. Defined.

Lemma deliver_snoc events event (s : State) :
  deliver (events ++ [event]) s = snd (message_router event (deliver events s)).
Proof. unfold deliver. by rewrite foldl_app. Qed.

Lemma deliver_evolves_bound events (s : State) :
  bound s -> evolves s (deliver events s).
Proof.
  intros Hs. induction events as [|event events IH] using rev_ind.
  - apply evolves_refl.
  - rewrite deliver_snoc. eapply evolves_trans; [exact IH|].
    apply sure_message_router. by eapply evolves_bound.
Qed.

(** However many events are handled, and whatever they are: the channel
    lists, the Job Log and the user directory are never written; no key
    leaves the Pending-Internal dictionary; the relay cache changes by
    saves only; no row of the Question Log is removed, no cell outside
    columns G to J and M, N of an existing row is rewritten, and no cell at
    all of a row that carries a response date; posted messages and log
    lines are only added. *)
Theorem deliver_keeps_state (s : State) (events : list (option Event)) :
  bound s -> evolves s (deliver events s).
Proof. apply deliver_evolves_bound. Qed.

(** The three events of a relayed question. *)
Lemma deliver_keeps_state_witness :
  evolves (staffed [header_row])
    (deliver [Some internal_message; Some client_root_message; Some client_reply_message]
       (staffed [header_row])).
Proof. apply deliver_keeps_state. by exists ∅. Defined.

(** However many client threads are relayed, the relay cache never holds
    more than thirty mappings. *)
Theorem deliver_relay_bounded (s : State) (events : list (option Event)) :
  bound s -> reachable (RELAY_MEM s) ->
  reachable (RELAY_MEM (deliver events s))
  /\ (size (RelayMemory.map (RELAY_MEM (deliver events s))) <= 30)%nat.
Proof.
  intros Hs [ops0 Hr].
  destruct (ev_relay _ _ (deliver_evolves_bound events s Hs)) as [ops Hops].
  assert (reachable (RELAY_MEM (deliver events s))) as Hreach.
  { exists (ops0 ++ ops). by rewrite run_app, <- Hr. }
  split; [done|]. destruct Hreach as [all ->].
  destruct all as [|op all _] using rev_ind.
  { change (size (∅ : gmap string RelayMemory.entry) <= 30)%nat.
    rewrite map_size_empty. lia. }
  rewrite run_snoc. unfold apply_save.
  pose proof (save_map_size (run RelayMemory.default all) (s_job op) (s_channel op)
                (s_ts op) (s_key op) (s_created op) (s_now op)
                (reachable_covered _ (ex_intro _ all eq_refl))) as Hsize.
  destruct (run_params RelayMemory.default all) as [Hmax _]. rewrite Hmax in Hsize.
  exact Hsize.
Qed.

(** Forty client threads opened for the same job. *)
Lemma deliver_relay_bounded_witness :
  (size (RelayMemory.map
           (RELAY_MEM (deliver (replicate 40 (Some client_root_message)) asked))) <= 30)%nat.
Proof.
  apply (deliver_relay_bounded asked (replicate 40 (Some client_root_message))).
  - by exists (<["12345" := ("C08HUKW7NDU", "1736154900.000100")]> ∅).
  - by exists [].
Defined.

End RouterFlows.

(** ** A question relayed from end to end *)

Section RelayedQuestion.

Import Sheets SheetSpec TagSpec App RelaySpec RouterSpec RouterFrame Scenario Flows.

Local Arguments String.append : simpl nomatch.







End RelayedQuestion.

(** ** The Job Log lookup *)

Section JobLogFacts.

Import Sheets GoogleUtils JobLogSpec Scenario.

Lemma enumerate_into_notin (hs : list string) i idx k :
  k ∉ hs -> enumerate_into i hs idx !! k = idx !! k.
Proof.
  revert i idx. induction hs as [|h hs IH]; intros i idx Hk; [done|].
  apply not_elem_of_cons in Hk as [Hne Hk]. simpl.
  rewrite IH by done. by rewrite lookup_insert_ne.
Qed.

(** The dictionary built from the header row sends a header to the last
    column that carries it. *)
Lemma enumerate_into_last (hs : list string) i idx k j :
  last_index hs k j -> enumerate_into i hs idx !! k = Some (i + j)%nat.
Proof.
  revert i idx j. induction hs as [|h hs IH]; intros i idx j [Hj Hlast]; [done|].
  simpl. destruct j as [|j].
  - simpl in Hj. injection Hj as ->.
    rewrite enumerate_into_notin.
    + rewrite lookup_insert_eq. f_equal. lia.
    + intros Hin. apply list_elem_of_lookup in Hin as [j' Hj'].
      apply (Hlast (S j')); [lia|done].
  - rewrite (IH (S i) _ j).
    + f_equal. lia.
    + split; [done|]. intros j' Hlt. apply (Hlast (S j')). lia.
Qed.

Lemma last_index_exists (hs : list string) k :
  k ∈ hs -> exists j, last_index hs k j.
Proof.
  induction hs as [|h hs IH]; intros Hin; [by apply elem_of_nil in Hin|].
  destruct (decide (k ∈ hs)) as [Hin'|Hnot].
  - destruct (IH Hin') as [j [Hj Hlast]]. exists (S j). split; [done|].
    intros [|j'] Hlt; [lia|]. apply Hlast. lia.
  - apply elem_of_cons in Hin as [->|?]; [|done]. exists 0%nat. split; [done|].
    intros [|j'] Hlt; [lia|]. simpl. intros Hj'. apply Hnot.
    by apply list_elem_of_lookup_2 in Hj'.
Qed.

Lemma last_index_unique (hs : list string) k j1 j2 :
  last_index hs k j1 -> last_index hs k j2 -> j1 = j2.
Proof.
  intros [H1 L1] [H2 L2].
  destruct (decide (j1 < j2)%nat); [by destruct (L1 j2)|].
  destruct (decide (j2 < j1)%nat); [by destruct (L2 j1)|]. lia.
Qed.

Lemma header_index (hs : list string) k :
  ((k ∉ hs) /\ enumerate_into 0 hs ∅ !! k = None)
  \/ exists j, last_index hs k j /\ enumerate_into 0 hs ∅ !! k = Some j.
Proof.
  destruct (decide (k ∈ hs)) as [Hin|Hnot].
  - right. destruct (last_index_exists _ _ Hin) as [j Hj]. exists j. split; [done|].
    by rewrite (enumerate_into_last hs 0 ∅ k j Hj).
  - left. split; [done|]. by rewrite enumerate_into_notin.
Qed.

(** The loop returns the first row that names the job. *)
Lemma scan_rows_Some hs j n m w job rows e :
  scan_rows hs (Some j) n m w job rows = Some e ->
  exists before after,
    rows = before ++ raw_row e :: after
    /\ names_job j job (raw_row e)
    /\ (forall r, r ∈ before -> ~ names_job j job r)
    /\ job_num e = job /\ headers e = hs
    /\ job_name e = field_at (raw_row e) n
    /\ monday_item_id e = field_at (raw_row e) m
    /\ wl_item_id e = field_at (raw_row e) w.
Proof.
  induction rows as [|r rows IH]; [done|]. simpl.
  destruct (r !! j) as [v|] eqn:Hv.
  - destruct (String.eqb_spec (Py.strip v) job) as [Heq|Hne].
    + intros [= <-]. exists [], rows. simpl. split; [done|]. split; [by exists v|].
      split; [by intros r' Hin%elem_of_nil|]. done.
    + intros Hs. destruct (IH Hs) as (before & after & -> & Hn & Hb & Hrest).
      exists (r :: before), after. split; [done|]. split; [done|]. split; [|done].
      intros r' [->|Hin]%elem_of_cons; [|by apply Hb].
      intros (v' & Hv' & Hjob). congruence.
  - intros Hs. destruct (IH Hs) as (before & after & -> & Hn & Hb & Hrest).
    exists (r :: before), after. split; [done|]. split; [done|]. split; [|done].
    intros r' [->|Hin]%elem_of_cons; [|by apply Hb].
    intros (v' & Hv' & Hjob). congruence.
Qed.

Lemma scan_rows_None hs j n m w job rows :
  scan_rows hs (Some j) n m w job rows = None <->
  forall r, r ∈ rows -> ~ names_job j job r.
Proof.
  induction rows as [|r rows IH]; simpl.
  - split; [by intros _ r Hin%elem_of_nil|done].
  - destruct (r !! j) as [v|] eqn:Hv.
    + destruct (String.eqb_spec (Py.strip v) job) as [Heq|Hne].
      * split; [done|]. intros H. exfalso. apply (H r); [by left|]. by exists v.
      * rewrite IH. split.
        -- intros H r' [->|Hin]%elem_of_cons; [|by apply H].
           intros (v' & Hv' & Hjob). congruence.
        -- intros H r' Hin. apply H. by right.
    + rewrite IH. split.
      * intros H r' [->|Hin]%elem_of_cons; [|by apply H].
        intros (v' & Hv' & Hjob). congruence.
      * intros H r' Hin. apply H. by right.
Qed.

Lemma scan_rows_no_column hs n m w job rows :
  scan_rows hs None n m w job rows = None.
Proof. induction rows as [|r rows IH]; [done|]. exact IH. Qed.

Lemma field_at_col (r : list string) n : field_at r (Some n) = Py.strip (at_col r n).
Proof. unfold field_at, at_col. by destruct (r !! n). Qed.

Lemma header_index_last (hs : list string) k j :
  last_index hs k j -> enumerate_into 0 hs ∅ !! k = Some j.
Proof. intros Hj. by rewrite (enumerate_into_last hs 0 ∅ k j Hj). Qed.

(** What [find_job_in_joblog] returns, given the rows it has read.  The
    job column is the last column whose trimmed header is [Job #]; the hit
    is the first data row whose cell in that column, trimmed, is the job
    number (rows too short to have the cell are passed over).  The job name
    is the trimmed cell under the last [Job Name] header, blank without
    such a header; the work-item id is the trimmed cell under
    [Ewing Board Item ID] when that header is not in the first column, and
    under [Monday ID] when there is no [Ewing Board Item ID] header. *)
Theorem find_job_first_match (header : list string) (data : list (list string))
    (job : string) (e : JobLogEntry) :
  find_job_in_rows (header :: data) job = Some e ->
  let hs := Py.strip <$> header in
  exists j before after,
    last_index hs "Job #" j
    /\ data = before ++ raw_row e :: after
    /\ names_job j job (raw_row e)
    /\ (forall r, r ∈ before -> ~ names_job j job r)
    /\ job_num e = job /\ headers e = hs
    /\ (forall n, last_index hs "Job Name" n ->
          job_name e = Py.strip (at_col (raw_row e) n))
    /\ ("Job Name" ∉ hs -> job_name e = "")
    /\ (forall n, last_index hs "Ewing Board Item ID" n -> n <> 0%nat ->
          monday_item_id e = Py.strip (at_col (raw_row e) n))
    /\ ("Ewing Board Item ID" ∉ hs -> forall n, last_index hs "Monday ID" n ->
          monday_item_id e = Py.strip (at_col (raw_row e) n)).
Proof.
  intros Hf hs. unfold find_job_in_rows in Hf. cbv zeta in Hf. fold hs in Hf.
  destruct (header_index hs "Job #") as [[_ Hnone]|(j & Hj & Hsome)].
  { rewrite Hnone in Hf. by rewrite scan_rows_no_column in Hf. }
  rewrite Hsome in Hf.
  apply scan_rows_Some in Hf
    as (before & after & Hd & Hn & Hb & Hjob & Hh & Hname & Hmon & _).
  exists j, before, after. repeat (split; [done|]). split; [|split; [|split]].
  - intros n Hlast. rewrite Hname, (header_index_last _ _ _ Hlast). apply field_at_col.
  - intros Hnot. rewrite Hname. by rewrite enumerate_into_notin.
  - intros n Hlast Hn0. rewrite Hmon, (header_index_last _ _ _ Hlast).
    destruct n as [|n]; [done|]. apply field_at_col.
  - intros Hnot n Hlast. rewrite Hmon.
    rewrite (enumerate_into_notin hs 0 ∅ _ Hnot), lookup_empty.
    rewrite (header_index_last _ _ _ Hlast). apply field_at_col.
Qed.

(** Job 12345 in a Job Log that lists job 54321 first. *)
Lemma find_job_first_match_witness :
  exists e,
    find_job_in_rows
      [[" Job # "; "Job Name"; "Monday ID"; "Ewing Board Item ID"];
       ["54321"; "Oak Avenue"; "7001"; "8001"];
       ["12345 "; " Elm Street"; "7702"; "8801"];
       ["12345"; "Elm Street (old)"; "7000"; "8000"]] "12345" = Some e
    /\ raw_row e = ["12345 "; " Elm Street"; "7702"; "8801"]
    /\ job_name e = "Elm Street"
    /\ monday_item_id e = "8801".
Proof.
  eexists. split; [vm_compute; reflexivity|].
  match goal with |- raw_row ?e = _ /\ _ => set (hit := e) end.
  destruct (find_job_first_match
              [" Job # "; "Job Name"; "Monday ID"; "Ewing Board Item ID"]
              [["54321"; "Oak Avenue"; "7001"; "8001"];
               ["12345 "; " Elm Street"; "7702"; "8801"];
               ["12345"; "Elm Street (old)"; "7000"; "8000"]] "12345" hit)
    as (j & before & after & _ & _ & _ & _ & _ & _ & Hname & _ & Hmon & _).
  - vm_compute. reflexivity.
  - split; [reflexivity|]. split.
    + rewrite (Hname 1%nat); [vm_compute; reflexivity|].
      split; [reflexivity|]. intros [|[|[|[|[|j']]]]] Hlt; try lia; done.
    + rewrite (Hmon 3%nat); [vm_compute; reflexivity| |done].
      split; [reflexivity|]. intros [|[|[|[|[|j']]]]] Hlt; try lia; done.
Defined.

(** [find_job_in_joblog] returns [None] exactly when the range is empty,
    when no header is [Job #] once trimmed, or when no data row has the job
    number, trimmed, in the job column. *)
Theorem find_job_none_iff (rows : list (list string)) (job : string) :
  find_job_in_rows rows job = None <->
  match rows with
  | [] => True
  | header :: data =>
      forall j, last_index (Py.strip <$> header) "Job #" j ->
                forall r, r ∈ data -> ~ names_job j job r
  end.
Proof.
  destruct rows as [|header data]; [done|].
  unfold find_job_in_rows. cbv zeta.
  destruct (header_index (Py.strip <$> header) "Job #") as [[Hnot Hnone]|(j & Hj & Hsome)].
  - rewrite Hnone, scan_rows_no_column. split; [|done].
    intros _ j [Hj _]. exfalso. apply Hnot. by apply list_elem_of_lookup_2 in Hj.
  - rewrite Hsome, scan_rows_None. split.
    + intros H j' Hj'. by rewrite (last_index_unique _ _ _ _ Hj' Hj).
    + intros H. by apply H.
Qed.

End JobLogFacts.

(** ** The channel lists read from the environment *)

Section ConfigFacts.

Import Config ConfigSpec.

Local Arguments Py.isspace : simpl never.
Local Arguments String.append : simpl nomatch.

Lemma chars_append a b :
  list_ascii_of_string (a +:+ b) = list_ascii_of_string a ++ list_ascii_of_string b.
Proof. induction a as [|c a IH]; [done|]. simpl. by rewrite IH. Qed.

Lemma lstrip_suffix s : exists ws, s = ws +:+ Py.lstrip s.
Proof.
  induction s as [|c s [ws IH]]; [by exists ""|].
  simpl. destruct (Py.isspace c).
  - exists (String c ws). simpl. by rewrite <- IH.
  - by exists "".
Qed.

(** Trimming only removes characters. *)
Lemma chars_strip s c :
  c ∈ list_ascii_of_string (Py.strip s) -> c ∈ list_ascii_of_string s.
Proof.
  unfold Py.strip. intros Hin.
  destruct (lstrip_suffix s) as [ws Hs]. destruct (rstrip_prefix (Py.lstrip s)) as [ws' Hl].
  rewrite Hs, chars_append, Hl, chars_append, !elem_of_app. right. by left.
Qed.

Lemma length_lstrip s : (String.length (Py.lstrip s) <= String.length s)%nat.
Proof.
  induction s as [|c s IH]; [done|]. simpl. destruct (Py.isspace c); simpl; lia.
Qed.

Lemma length_rstrip s : (String.length (Py.rstrip s) <= String.length s)%nat.
Proof.
  induction s as [|c s IH]; [done|]. simpl.
  destruct (Py.rstrip s) as [|c' r']; [destruct (Py.isspace c)|]; simpl in *; lia.
Qed.

Lemma rstrip_idem s : Py.rstrip (Py.rstrip s) = Py.rstrip s.
Proof.
  induction s as [|c s IH]; [done|]. simpl.
  destruct (Py.rstrip s) as [|c' r'] eqn:E.
  - destruct (Py.isspace c) eqn:Hc; [done|]. simpl. by rewrite Hc.
  - change (Py.rstrip (String c (String c' r')) = String c (String c' r')).
    change (Py.rstrip (String c (String c' r')))
      with (match Py.rstrip (String c' r') with
            | EmptyString => if Py.isspace c then EmptyString else String c EmptyString
            | r'' => String c r''
            end).
    by rewrite IH.
Qed.

(** Trimming twice is trimming once. *)
Lemma strip_idem s : Py.strip (Py.strip s) = Py.strip s.
Proof.
  unfold Py.strip. destruct (Py.lstrip s) as [|c r] eqn:E; [done|].
  assert (Py.isspace c = false) as Hc.
  { clear -E. induction s as [|c0 s IH]; [done|]. simpl in E.
    destruct (Py.isspace c0) eqn:H0; [by apply IH|]. by injection E as <- _. }
  rewrite (rstrip_cons c r Hc). simpl. rewrite Hc.
  rewrite <- (rstrip_cons c r Hc). apply rstrip_idem.
Qed.

(** A trimmed, non-empty string has no white space to lose at either end. *)
Lemma trimmed_ends id :
  id <> "" -> Py.strip id = id ->
  Py.rstrip id = id /\ exists c r, id = String c r /\ Py.isspace c = false.
Proof.
  intros Hne Hs. destruct id as [|c r]; [done|].
  destruct (Py.isspace c) eqn:Hc.
  - exfalso. unfold Py.strip in Hs. simpl in Hs. rewrite Hc in Hs.
    pose proof (length_rstrip (Py.lstrip r)). pose proof (length_lstrip r).
    rewrite Hs in H. simpl in H. lia.
  - split; [|by exists c, r]. unfold Py.strip in Hs. simpl in Hs. by rewrite Hc in Hs.
Qed.

Lemma rstrip_app a b : Py.rstrip b <> "" -> Py.rstrip (a +:+ b) = a +:+ Py.rstrip b.
Proof.
  intros Hb. induction a as [|c a IH]; [done|].
  change (Py.rstrip (String c (a +:+ b)) = String c (a +:+ Py.rstrip b)).
  change (Py.rstrip (String c (a +:+ b)))
    with (match Py.rstrip (a +:+ b) with
          | EmptyString => if Py.isspace c then EmptyString else String c EmptyString
          | r' => String c r'
          end).
  rewrite IH. destruct (a +:+ Py.rstrip b) eqn:E; [|done].
  destruct a; [by simpl in E|done].
Qed.

Lemma split_comma_free (sep : ascii) s p :
  p ∈ split sep s -> sep ∉ list_ascii_of_string p.
Proof.
  revert p. induction s as [|c s IH]; intros p.
  - simpl. intros ->%list_elem_of_singleton. apply not_elem_of_nil.
  - simpl. destruct (Ascii.eqb_spec c sep) as [->|Hne].
    + intros [->|Hin]%elem_of_cons; [apply not_elem_of_nil|by apply IH].
    + destruct (split sep s) as [|piece pieces] eqn:E.
      * intros ->%list_elem_of_singleton. simpl.
        intros [?|Hin]%elem_of_cons; [done|by apply elem_of_nil in Hin].
      * intros [->|Hin]%elem_of_cons.
        -- simpl. intros [?|Hin]%elem_of_cons; [done|].
           apply (IH piece); [by left|done].
        -- apply IH. by right.
Qed.

Lemma split_whole (sep : ascii) a :
  sep ∉ list_ascii_of_string a -> split sep a = [a].
Proof.
  induction a as [|c a IH]; [done|]. simpl.
  intros [Hne Hnot]%not_elem_of_cons.
  destruct (Ascii.eqb_spec c sep) as [->|_]; [done|]. by rewrite IH.
Qed.

Lemma split_app (sep : ascii) a b :
  sep ∉ list_ascii_of_string a ->
  split sep (a +:+ String sep b) = a :: split sep b.
Proof.
  induction a as [|c a IH]; simpl.
  - intros _. by rewrite Ascii.eqb_refl.
  - intros [Hne Hnot]%not_elem_of_cons.
    destruct (Ascii.eqb_spec c sep) as [->|_]; [done|]. by rewrite IH.
Qed.

(** Splitting what was joined gives the pieces back. *)
Lemma split_concat (ids : list string) :
  ids <> [] -> Forall clean ids -> split "," (String.concat "," ids) = ids.
Proof.
  induction ids as [|id ids IH]; [done|]. intros _ Hall.
  apply Forall_cons in Hall as [(_ & _ & Hcomma) Hall].
  destruct ids as [|id2 ids].
  - simpl. by apply split_whole.
  - change (String.concat "," (id :: id2 :: ids))
      with (id +:+ String "," (String.concat "," (id2 :: ids))).
    rewrite split_app by done. by rewrite IH.
Qed.

Lemma concat_clean (ids : list string) :
  ids <> [] -> Forall clean ids ->
  Py.strip (String.concat "," ids) = String.concat "," ids
  /\ String.concat "," ids <> "".
Proof.
  intros Hne Hall.
  assert (Py.rstrip (String.concat "," ids) = String.concat "," ids
          /\ exists c r, String.concat "," ids = String c r /\ Py.isspace c = false)
    as (Hr & c & r & Hc & Hsp).
  { induction ids as [|id ids IH]; [done|].
    apply Forall_cons in Hall as [(Hid & Hstrip & _) Hall].
    destruct (trimmed_ends id Hid Hstrip) as (Hrid & c & r & -> & Hc).
    destruct ids as [|id2 ids].
    - simpl. split; [done|]. by exists c, r.
    - change (String.concat "," (String c r :: id2 :: ids))
        with (String c r +:+ String "," (String.concat "," (id2 :: ids))).
      destruct (IH ltac:(done) Hall) as (Hrt & c2 & r2 & Hc2 & Hsp2).
      split; [|by eexists c, _].
      rewrite rstrip_app.
      + by rewrite (rstrip_cons ","), Hrt.
      + by rewrite (rstrip_cons ","). }
  split; [|by rewrite Hc]. unfold Py.strip. rewrite Hc. simpl. rewrite Hsp.
  by rewrite <- Hc.
Qed.

Lemma listed_concat (ids : list string) :
  ids <> [] -> Forall clean ids -> listed (String.concat "," ids) = ids.
Proof.
  intros Hne Hall. unfold listed. rewrite split_concat by done.
  clear Hne. induction ids as [|id ids IH]; [done|].
  apply Forall_cons in Hall as [(Hid & Hstrip & _) Hall].
  rewrite fmap_cons. simpl. rewrite Hstrip.
  destruct id; [done|]. simpl. f_equal. by apply IH.
Qed.

Lemma listed_clean value id : id ∈ listed value -> clean id.
Proof.
  unfold listed. rewrite list_elem_of_In, filter_In, <- list_elem_of_In.
  intros [Hin Htr]. apply list_elem_of_fmap in Hin as (p & -> & Hp).
  split; [by destruct (Py.strip p)|]. split; [apply strip_idem|].
  intros Hc. apply chars_strip in Hc. by apply (split_comma_free _ _ _ Hp).
Qed.

(** Whatever the environment holds, [INTERNAL_CHANNEL_IDS] is never
    empty, and every id of the two lists is non-empty, trimmed and free of
    commas.  With the variables unset, the internal list is the pair of
    built-in channels and the client list is empty. *)
Theorem channel_lists_well_formed (environ : gmap string string) :
  INTERNAL_CHANNEL_IDS environ <> []
  /\ (forall id, id ∈ INTERNAL_CHANNEL_IDS environ -> clean id)
  /\ (forall id, id ∈ CLIENT_CHANNEL_IDS environ -> clean id)
  /\ (environ !! "INTERNAL_CHANNEL_IDS" = None ->
       INTERNAL_CHANNEL_IDS environ = ["C08HUKW7NDU"; "C08SLQ1J952"])
  /\ (environ !! "CLIENT_CHANNEL_IDS" = None -> CLIENT_CHANNEL_IDS environ = []).
Proof.
  unfold INTERNAL_CHANNEL_IDS, CLIENT_CHANNEL_IDS, getenv_stripped. cbv zeta.
  split; [|split; [|split; [|split]]].
  - by destruct (if Py.truthy _ then _ else _).
  - intros id.
    destruct (Py.truthy (Py.strip (default "" (environ !! "INTERNAL_CHANNEL_IDS")))).
    + destruct (listed _) as [|i0 ids] eqn:E.
      * intros Hin. repeat (apply elem_of_cons in Hin as [->|Hin]);
          [| |by apply elem_of_nil in Hin]; (split; [done|split; [reflexivity|]]);
          apply (bool_decide_unpack _); vm_compute; reflexivity.
      * rewrite <- E. apply listed_clean.
    + intros Hin. repeat (apply elem_of_cons in Hin as [->|Hin]);
        [| |by apply elem_of_nil in Hin]; (split; [done|split; [reflexivity|]]);
        apply (bool_decide_unpack _); vm_compute; reflexivity.
  - intros id.
    destruct (Py.truthy (Py.strip (default "" (environ !! "CLIENT_CHANNEL_IDS")))).
    + apply listed_clean.
    + by intros Hin%elem_of_nil.
  - by intros ->.
  - by intros ->.
Qed.

(** Ids written as a comma-separated list are read back as written: for
    a non-empty list of ids that are non-empty, trimmed and free of commas,
    joined by commas in the variable, the channel list is that list, in
    order. *)
Theorem channel_lists_round_trip (environ : gmap string string) (ids : list string) :
  ids <> [] -> Forall clean ids ->
  (environ !! "INTERNAL_CHANNEL_IDS" = Some (String.concat "," ids) ->
   INTERNAL_CHANNEL_IDS environ = ids)
  /\ (environ !! "CLIENT_CHANNEL_IDS" = Some (String.concat "," ids) ->
      CLIENT_CHANNEL_IDS environ = ids).
Proof.
  intros Hne Hall. destruct (concat_clean ids Hne Hall) as [Hstrip Hnonempty].
  unfold INTERNAL_CHANNEL_IDS, CLIENT_CHANNEL_IDS, getenv_stripped. cbv zeta.
  split; intros ->; simpl default; rewrite Hstrip.
  - destruct (String.concat "," ids) eqn:E; [done|]. simpl Py.truthy. cbv iota.
    rewrite <- E, listed_concat by done. by destruct ids.
  - destruct (String.concat "," ids) eqn:E; [done|]. simpl Py.truthy. cbv iota.
    by rewrite <- E, listed_concat.
Qed.

(** Two internal channels and one client channel. *)
Lemma channel_lists_round_trip_witness :
  INTERNAL_CHANNEL_IDS (<["INTERNAL_CHANNEL_IDS" := "C0AAA,C0BBB"]> ∅) = ["C0AAA"; "C0BBB"].
Proof.
  apply (channel_lists_round_trip (<["INTERNAL_CHANNEL_IDS" := "C0AAA,C0BBB"]> ∅)
           ["C0AAA"; "C0BBB"]).
  - done.
  - repeat constructor; try done; apply (bool_decide_unpack _); vm_compute; reflexivity.
  - reflexivity.
Defined.

End ConfigFacts.

(** ** Document links *)

Section DocLinkFacts.

Import Rx DocLinks DocLinkSpec.

Local Arguments String.append : simpl nomatch.
Local Arguments id_char : simpl never.

Lemma after_Some lit s rest : after lit s = Some rest <-> s = lit +:+ rest.
Proof.
  revert s. induction lit as [|a lit IH]; intros s; simpl.
  - split; congruence.
  - destruct s as [|b s]; [done|].
    destruct (Ascii.eqb_spec a b) as [->|Hne].
    + rewrite IH. split; congruence.
    + split; [done|]. congruence.
Qed.

(** Every run is a non-empty prefix made of characters of the class. *)
Lemma runs_spec cls s m rest :
  (m, rest) ∈ runs cls s ->
  s = m +:+ rest /\ m <> "" /\ forallb cls (list_ascii_of_string m) = true.
Proof.
  revert m rest. induction s as [|c s IH]; intros m rest; simpl.
  - by intros ?%elem_of_nil.
  - destruct (cls c) eqn:Hc; [|by intros ?%elem_of_nil].
    rewrite elem_of_app, list_elem_of_fmap, list_elem_of_singleton.
    intros [([m' rest'] & [= -> ->] & Hin)|[= -> ->]].
    + destruct (IH _ _ Hin) as (-> & _ & Hall). simpl. by rewrite Hc, Hall.
    + simpl. by rewrite Hc.
Qed.

(** The first run is the longest: the text does not go on with a
    character of the class. *)
Lemma runs_head cls s m rest tl :
  runs cls s = (m, rest) :: tl ->
  match rest with EmptyString => True | String c _ => cls c = false end.
Proof.
  revert m rest tl. induction s as [|c s IH]; intros m rest tl; simpl; [done|].
  destruct (cls c) eqn:Hc; [|done].
  destruct (runs cls s) as [|[m' rest'] tl'] eqn:E.
  - simpl. intros [= <- <- <-]. destruct s as [|c' s]; [done|].
    simpl in E. destruct (cls c'); [|done]. by destruct (_ <$> _).
  - simpl. intros [= <- <- <-]. by apply (IH m' rest' tl').
Qed.

(** A text made of characters of the class, followed by none, is the
    first run. *)
Lemma runs_full cls id rest :
  id <> "" -> forallb cls (list_ascii_of_string id) = true ->
  match rest with EmptyString => True | String c _ => cls c = false end ->
  exists tl, runs cls (id +:+ rest) = (id, rest) :: tl.
Proof.
  intros Hne Hall Hstop. induction id as [|c id IH]; [done|].
  simpl in Hall. apply andb_true_iff in Hall as [Hc Hall]. simpl. rewrite Hc.
  destruct id as [|c' id].
  - simpl. exists []. destruct rest as [|c' rest]; [done|]. simpl. by rewrite Hstop.
  - destruct (IH ltac:(done) Hall) as [tl ->]. by eexists.
Qed.

(** Where [search] finds its match. *)
Lemma search_Some r s m :
  search r s = Some m ->
  exists pre suf w tl,
    s = pre +:+ suf /\ ways r suf = w :: tl /\ groups m = fst (fst w) :: snd (fst w).
Proof.
  induction s as [|c s IH]; simpl.
  - destruct (ways r "") as [|w tl] eqn:E; [done|].
    intros [= <-]. by exists "", "", w, tl.
  - destruct (ways r (String c s)) as [|w tl] eqn:E.
    + intros Hs. destruct (IH Hs) as (pre & suf & w & tl & -> & Hw & Hg).
      by exists (String c pre), suf, w, tl.
    + intros [= <-]. by exists "", (String c s), w, tl.
Qed.

Lemma bind_head {A B} (f : A -> list B) (l : list A) y tl :
  l ≫= f = y :: tl -> exists x tl', x ∈ l /\ f x = y :: tl'.
Proof.
  induction l as [|x l IH]; [done|]. rewrite bind_cons.
  destruct (f x) as [|y' tl'] eqn:E.
  - intros H. destruct (IH H) as (x' & tl'' & Hin & Hf). exists x', tl''.
    split; [by right|done].
  - intros [= -> <-]. exists x, tl'. split; [by left|done].
Qed.

(** The first way a sequence matches: some way of its first part,
    followed by the first way of its second part after it. *)
Lemma ways_Seq_head r1 r2 s w tl :
  ways (Seq r1 r2) s = w :: tl ->
  exists w1 w2 tl2,
    w1 ∈ ways r1 s /\ ways r2 (snd w1) = w2 :: tl2
    /\ w = (fst (fst w1) +:+ fst (fst w2), snd (fst w1) ++ snd (fst w2), snd w2).
Proof.
  change (ways (Seq r1 r2) s)
    with (w1 ← ways r1 s; w2 ← ways r2 (snd w1);
          [(fst (fst w1) +:+ fst (fst w2), snd (fst w1) ++ snd (fst w2), snd w2)]).
  intros H. apply bind_head in H as (w1 & tl' & Hin & Hf).
  destruct (ways r2 (snd w1)) as [|w2 tl2] eqn:E; [done|].
  rewrite bind_cons in Hf. injection Hf as <- _. by exists w1, w2, tl2.
Qed.

Lemma ways_Str lit s w : w ∈ ways (Str lit) s -> w = (lit, [], snd w) /\ s = lit +:+ snd w.
Proof.
  simpl. destruct (after lit s) as [rest|] eqn:E; [|by intros ?%elem_of_nil].
  intros ->%list_elem_of_singleton. split; [done|]. by apply after_Some.
Qed.

Lemma ways_Opt c s w :
  w ∈ ways (Opt c) s ->
  (w = (String c "", [], snd w) /\ s = String c (snd w)) \/ w = ("", [], s).
Proof.
  simpl. rewrite elem_of_app, list_elem_of_singleton. intros [Hin| ->]; [|by right].
  left. destruct s as [|c' rest]; [by apply elem_of_nil in Hin|].
  destruct (Ascii.eqb_spec c c') as [<-|]; [|by apply elem_of_nil in Hin].
  by apply list_elem_of_singleton in Hin as ->.
Qed.

Lemma ways_Grp_Plus cls s w tl :
  ways (Grp (Plus cls)) s = w :: tl ->
  exists m rest tl',
    runs cls s = (m, rest) :: tl' /\ w = (m, [m], rest).
Proof.
  simpl. destruct (runs cls s) as [|[m rest] tl'] eqn:E; [done|].
  simpl. intros [= <- _]. by exists m, rest, tl'.
Qed.

(** The first way [_DOC_URL_RE] matches at the start of a text. *)
Lemma ways_doc_url s w tl :
  ways _DOC_URL_RE s = w :: tl ->
  exists scheme id rest,
    (scheme = "http" \/ scheme = "https")
    /\ w = (scheme +:+ "://docs.google.com/document/d/" +:+ id,
            [scheme +:+ "://docs.google.com/document/d/" +:+ id; id], rest)
    /\ s = (scheme +:+ "://docs.google.com/document/d/" +:+ id) +:+ rest
    /\ doc_id id /\ stops rest.
Proof.
  unfold _DOC_URL_RE.
  change (ways (Grp ?r) s) with ((fun w => (fst (fst w), fst (fst w) :: snd (fst w), snd w))
                                  <$> ways r s).
  destruct (ways (Seq _ _) s) as [|w0 tl0] eqn:E0; [done|].
  rewrite fmap_cons. intros [= <- _].
  apply ways_Seq_head in E0 as (w1 & w2 & tl2 & H1 & E2 & ->).
  apply ways_Str in H1 as [Hw1 ->]. rewrite Hw1. cbn [fst snd].
  apply ways_Seq_head in E2 as (w3 & w4 & tl4 & H3 & E4 & ->).
  apply ways_Seq_head in E4 as (w5 & w6 & tl6 & H5 & E6 & ->).
  apply ways_Str in H5 as [Hw5 Hs5]. rewrite Hw5. cbn [fst snd].
  apply ways_Grp_Plus in E6 as (id & rest & tl' & Hruns & ->). cbn [fst snd].
  pose proof (runs_head _ _ _ _ _ Hruns) as Hstop.
  destruct (runs_spec id_char (snd w5) id rest) as (Hs6 & Hne & Hall);
    [rewrite Hruns; by left|].
  apply ways_Opt in H3 as [[Hw3 Hs3]| ->].
  - exists "https", id, rest. rewrite Hw3. cbn [fst snd]. split; [by right|].
    split; [done|]. split; [|done].
    rewrite Hs3, Hs5, Hs6. reflexivity.
  - exists "http", id, rest. cbn [fst snd] in *. split; [by left|].
    split; [done|]. split; [|done].
    rewrite Hs5, Hs6. reflexivity.
Qed.

Lemma ways_doc_url_intro scheme id post :
  scheme = "http" \/ scheme = "https" -> doc_id id -> stops post ->
  exists tl,
    ways _DOC_URL_RE ((scheme +:+ "://docs.google.com/document/d/" +:+ id) +:+ post)
    = (scheme +:+ "://docs.google.com/document/d/" +:+ id,
       [scheme +:+ "://docs.google.com/document/d/" +:+ id; id], post) :: tl.
Proof.
  intros Hscheme [Hne Hall] Hstop.
  destruct (runs_full id_char id post Hne Hall Hstop) as [tl Hruns].
  assert (forall a b c, (a +:+ b) +:+ c = a +:+ (b +:+ c)) as Hassoc.
  { intros a b c. induction a as [|x a IH]; [done|]. simpl. by rewrite IH. }
  destruct Hscheme as [-> | ->]; unfold _DOC_URL_RE; rewrite !Hassoc;
    cbn -[runs]; rewrite Hruns; cbn; by eexists.
Qed.

Lemma ways_doc_url_first c s : c <> "h"%char -> ways _DOC_URL_RE (String c s) = [].
Proof.
  intros Hc. destruct (ways _DOC_URL_RE (String c s)) as [|w tl] eqn:E; [done|].
  apply ways_doc_url in E as (scheme & id & rest & [-> | ->] & _ & Hs & _);
    simpl in Hs; injection Hs as -> _; done.
Qed.

Lemma search_skip r pre suf :
  (forall c, c ∈ list_ascii_of_string pre -> forall s, ways r (String c s) = []) ->
  search r (pre +:+ suf) = search r suf.
Proof.
  induction pre as [|c pre IH]; intros Hskip; [done|].
  simpl. rewrite (Hskip c) by (by left). apply IH.
  intros c' Hin. apply Hskip. by right.
Qed.

Lemma search_head r s w tl :
  ways r s = w :: tl -> search r s = Some (mkMatch (fst (fst w) :: snd (fst w))).
Proof. intros H. destruct s; simpl; by rewrite H. Qed.

(** The id of a document link is what [doc_id_from_url] reads in it. *)
Lemma doc_id_of_url scheme id :
  scheme = "http" \/ scheme = "https" -> doc_id id ->
  doc_id_from_url (scheme +:+ "://docs.google.com/document/d/" +:+ id) = Some id.
Proof.
  intros Hscheme [Hne Hall].
  destruct (runs_full id_char id "" Hne Hall I) as [tl Hruns].
  assert (id +:+ "" = id) as Hid.
  { clear. induction id as [|c id IH]; [done|]. simpl. by rewrite IH. }
  rewrite Hid in Hruns.
  unfold doc_id_from_url. destruct Hscheme as [-> | ->]; cbn -[runs]; by rewrite Hruns.
Qed.

End DocLinkFacts.

Section DocLinkProperties.

Import Rx DocLinks DocLinkSpec.

Local Arguments String.append : simpl nomatch.

(** A link that [extract_google_doc_link] returns is a piece of the text
    of the form [http://docs.google.com/document/d/<id>] or
    [https://...], with the id as long as the text allows; the id returned
    is the id of the link, and it is the id that [doc_id_from_url] reads in
    the link returned. *)
Theorem doc_link_round_trip (text url id : string) :
  extract_google_doc_link text = (Some url, Some id) ->
  doc_id_from_url url = Some id
  /\ exists pre post scheme,
       text = pre +:+ url +:+ post
       /\ (scheme = "http" \/ scheme = "https")
       /\ url = scheme +:+ "://docs.google.com/document/d/" +:+ id
       /\ doc_id id /\ stops post.
Proof.
  unfold extract_google_doc_link.
  destruct (negb (Py.truthy text)); [done|].
  destruct (search _DOC_URL_RE text) as [m|] eqn:Hs; [|done].
  apply search_Some in Hs as (pre & suf & w & tl & -> & Hw & Hg).
  apply ways_doc_url in Hw as (scheme & id' & rest & Hscheme & -> & -> & Hid & Hstop).
  unfold group. rewrite Hg. cbn [fst snd lookup list_lookup].
  intros [= <- <-]. split; [by apply doc_id_of_url|].
  by exists pre, rest, scheme.
Qed.

(** A link in a cell of the board. *)
Lemma doc_link_round_trip_witness :
  doc_id_from_url "https://docs.google.com/document/d/1aB_c-9" = Some "1aB_c-9".
Proof.
  apply (doc_link_round_trip
           "Spec: https://docs.google.com/document/d/1aB_c-9/edit?usp=sharing"
           "https://docs.google.com/document/d/1aB_c-9" "1aB_c-9").
  vm_compute. reflexivity.
Defined.

(** A document link in a text is found, id and all, when nothing before
    it can start one (no [h] before the link) and the text does not go on
    with a character of an id; an empty text has no link. *)
Theorem doc_link_found (pre post scheme id : string) :
  "h"%char ∉ list_ascii_of_string pre ->
  scheme = "http" \/ scheme = "https" -> doc_id id -> stops post ->
  extract_google_doc_link
    (pre +:+ (scheme +:+ "://docs.google.com/document/d/" +:+ id) +:+ post)
  = (Some (scheme +:+ "://docs.google.com/document/d/" +:+ id), Some id)
  /\ extract_google_doc_link "" = (None, None).
Proof.
  intros Hpre Hscheme Hid Hstop. split; [|done].
  unfold extract_google_doc_link.
  assert (Py.truthy (pre +:+ (scheme +:+ "://docs.google.com/document/d/" +:+ id) +:+ post)
          = true) as ->.
  { destruct pre; [|done]. by destruct Hscheme as [-> | ->]. }
  simpl negb. cbv iota.
  rewrite search_skip.
  - destruct (ways_doc_url_intro scheme id post Hscheme Hid Hstop) as [tl Hw].
    by rewrite (search_head _ _ _ _ Hw).
  - intros c Hin s. apply ways_doc_url_first. by intros ->.
Qed.

(** A link followed by a path, after some words. *)
Lemma doc_link_found_witness :
  extract_google_doc_link "Spec: http://docs.google.com/document/d/1aB_c-9/edit"
  = (Some "http://docs.google.com/document/d/1aB_c-9", Some "1aB_c-9").
Proof.
  apply (doc_link_found "Spec: " "/edit" "http" "1aB_c-9").
  - apply (bool_decide_unpack _). vm_compute. reflexivity.
  - by left.
  - split; [done|reflexivity].
  - reflexivity.
Defined.

End DocLinkProperties.

(** ** Credentials *)

Section CredentialFacts.

Import GoogleUtils.

(** The bootstrap of the credential file, case by case.  A file
    [google_creds.json] that exists is never overwritten, and without a
    blob in [GOOGLE_CREDS_BASE64] nothing is written or decoded.  With a
    blob and no file, the decoded blob is written, and the loader then
    reads it back when [GOOGLE_CREDS_FILE] is unset or names
    [google_creds.json]; a blob that does not decode makes the import
    fail. *)
Theorem credential_bootstrap (b64decode : string -> option string)
    (env : gmap string string) (fs : gmap string string) :
  (is_Some (fs !! "google_creds.json") \/ Py.truthy_opt (env !! "GOOGLE_CREDS_BASE64") = false ->
   bootstrap b64decode env fs = Py.Return fs)
  /\ (forall b64 blob,
        env !! "GOOGLE_CREDS_BASE64" = Some b64 -> b64 <> "" ->
        fs !! "google_creds.json" = None ->
        b64decode b64 = Some blob ->
        env !! "GOOGLE_CREDS_FILE" = None
        \/ env !! "GOOGLE_CREDS_FILE" = Some "google_creds.json" ->
        exists fs',
          bootstrap b64decode env fs = Py.Return fs'
          /\ get_google_creds env fs' = Py.Return blob
          /\ forall path, path <> "google_creds.json" -> fs' !! path = fs !! path)
  /\ (forall b64,
        env !! "GOOGLE_CREDS_BASE64" = Some b64 -> b64 <> "" ->
        fs !! "google_creds.json" = None ->
        b64decode b64 = None ->
        bootstrap b64decode env fs = Py.Raise Py.BinasciiError).
Proof.
  unfold bootstrap. split; [|split].
  - intros [Hfile|Hblob].
    + rewrite (bool_decide_eq_true_2 _ Hfile). simpl. by rewrite andb_false_r.
    + by rewrite Hblob.
  - intros b64 blob Hb Hne Hfs Hdec Hpath. rewrite Hb, Hfs.
    rewrite bool_decide_eq_false_2 by (by intros [? ?]). simpl.
    assert (Py.truthy b64 = true) as -> by (by destruct b64).
    simpl. rewrite Hdec.
    eexists. split; [reflexivity|]. split.
    + unfold get_google_creds. rewrite (proj2 (creds_file_default env) Hpath).
      by rewrite lookup_insert_eq.
    + intros path Hp. by rewrite lookup_insert_ne.
  - intros b64 Hb Hne Hfs Hdec. rewrite Hb, Hfs.
    rewrite bool_decide_eq_false_2 by (by intros [? ?]). simpl.
    assert (Py.truthy b64 = true) as -> by (by destruct b64).
    simpl. by rewrite Hdec.
Qed.

End CredentialFacts.

(** ** The sheet writers when the service fails *)

Section SheetFailures.

Import Sheets SheetSpec App.

Local Arguments String.append : simpl nomatch.

(** Neither sheet writer lets a failure of the sheet service out.  When
    the read of the Question Log fails, each logs one error and leaves the
    sheet alone.  When the read succeeds and the write into the open row of
    the job fails, each logs one error and the row keeps its cells.  When
    the job has no open row and the append of the response-only row fails,
    the response writer logs its warning and the error, and the response is
    lost. *)
Theorem sheet_writers_contain_failures (s : State)
    (job resp_date resp_time resp_from resp_body client_ts client_channel : string) :
  (down s SheetsGet = true ->
   exists e1 e2,
     _update_sheet_response_for_job job resp_date resp_time resp_from resp_body s
     = (Py.Return tt,
        set_log (log s ++ [(ERROR, "Sheet response update failed: " +:+ e1)]) s)
     /\ _update_client_thread_info job client_ts client_channel s
        = (Py.Return tt,
           set_log (log s ++ [(ERROR, "Sheet client thread write failed: " +:+ e2)]) s))
  /\ (down s SheetsGet = false -> down s SheetsUpdate = true ->
      forall i, lowest_unanswered (questions s) job i ->
      exists e1 e2,
        _update_sheet_response_for_job job resp_date resp_time resp_from resp_body s
        = (Py.Return tt,
           set_log (log s ++ [(ERROR, "Sheet response update failed: " +:+ e1)]) s)
        /\ _update_client_thread_info job client_ts client_channel s
           = (Py.Return tt,
              set_log (log s ++ [(ERROR, "Sheet client thread write failed: " +:+ e2)]) s))
  /\ (down s SheetsGet = false -> down s SheetsAppend = true ->
      questions s <> [] -> none_unanswered (questions s) job ->
      exists e1,
        _update_sheet_response_for_job job resp_date resp_time resp_from resp_body s
        = (Py.Return tt,
           set_log (log s ++ [(WARNING, "No unanswered row found for job " +:+ job
                                        +:+ "; appending a response-only row.");
                              (ERROR, "Sheet response update failed: " +:+ e1)]) s)).
Proof.
  split; [|split].
  - intros Hget.
    unfold _update_sheet_response_for_job, _update_client_thread_info, Py.try_except,
      get_questions, call, Py.bind. rewrite Hget. by eexists _, _.
  - intros Hget Hupd i Hlow.
    pose proof (find_lowest_unanswered _ "K" _ _ ltac:(vm_compute; lia) Hlow) as HfK.
    pose proof (find_lowest_unanswered _ "O" _ _ ltac:(vm_compute; lia) Hlow) as HfO.
    assert (questions s <> []) as Hne.
    { destruct Hlow as [Hi _]. destruct (questions s); [simpl in Hi; lia|done]. }
    unfold _update_sheet_response_for_job, _update_client_thread_info, Py.try_except,
      get_questions, update_questions, call, Py.bind, Py.get, Py.ret.
    rewrite Hget. simpl.
    destruct (values_get (questions s) "K") as [|hK rK] eqn:HvK;
      [by apply fmap_nil_inv in HvK|].
    destruct (values_get (questions s) "O") as [|hO rO] eqn:HvO;
      [by apply fmap_nil_inv in HvO|].
    rewrite HfK, HfO. simpl. rewrite Hupd. by eexists _, _.
  - intros Hget Happ Hne Hnone.
    pose proof (find_none_unanswered _ "K" _ ltac:(vm_compute; lia) Hnone) as Hf.
    unfold _update_sheet_response_for_job, Py.try_except,
      get_questions, append_to_sheet, logger, call, Py.bind, Py.get, Py.ret, Py.modify.
    rewrite Hget. simpl.
    destruct (values_get (questions s) "K") as [|hK rK] eqn:HvK;
      [by apply fmap_nil_inv in HvK|].
    rewrite Hf. simpl. rewrite Happ. simpl. rewrite <- app_assoc. by eexists.
Qed.

(** The client-thread write, in general: with the service up and the
    job open in some row, the client timestamp lands in column M and the
    client channel in column N of the lowest open row of the job, and no
    other cell changes; with the service up and the job open in no row of a
    sheet that has its header, nothing is written and a warning is
    logged. *)
Theorem client_thread_write_cells (s : State) (job client_ts client_channel : string) :
  down s SheetsGet = false ->
  down s SheetsUpdate = false ->
  (forall i, lowest_unanswered (questions s) job i ->
   forall (i' c : nat),
     cell (questions (snd (_update_client_thread_info job client_ts client_channel s)))
       i' c
     = if decide (i' = i /\ c = col "M") then client_ts
       else if decide (i' = i /\ c = col "N") then client_channel
       else cell (questions s) i' c)
  /\ (questions s <> [] -> none_unanswered (questions s) job ->
      _update_client_thread_info job client_ts client_channel s
      = (Py.Return tt,
         set_log
           (log s ++
            [(WARNING, "No unanswered row found for job " +:+ job
                       +:+ "; skipping client thread info write.")]) s)).
Proof.
  intros Hget Hupd. split.
  - intros i Hlow. by apply update_client_thread_info_cells.
  - intros Hne Hnone. by apply update_client_thread_info_skips.
Qed.

(** The open question of job 12345 in row 2: the work-item id in
    column K is left alone. *)
Lemma client_thread_write_cells_witness :
  cell (questions (snd (_update_client_thread_info "12345" "1736155000.000200" "C0CLIENT01"
                          (Scenario.running [Scenario.header_row; Scenario.open_question]))))
    1 (col "K") = "8801".
Proof.
  destruct (client_thread_write_cells
              (Scenario.running [Scenario.header_row; Scenario.open_question])
              "12345" "1736155000.000200" "C0CLIENT01" eq_refl eq_refl) as [Hcells _].
  rewrite (Hcells 1%nat); [reflexivity|].
  split; [simpl; lia|]. split; [split; reflexivity|]. intros j Hj. simpl in Hj. lia.
Defined.

End SheetFailures.

(** ** Trimming and the job tag *)

Section TrimFacts.

Import App.

(** The router trims the text of a message before it looks for the job
    tag: that never changes whether a tag is found, nor the job number
    found. *)
Theorem job_tag_unchanged_by_trimming (text : string) :
  job_tag (Py.strip text) = job_tag text.
Proof. apply job_tag_strip. Qed.

End TrimFacts.

(** ** The rebuild of the caches, once the dictionary is bound *)

Section RebuildReplay.

Import Sheets App RouterSpec.

Lemma replay_pending_other (d : gmap string (string * string)) (rows : list (list string))
    (job : string) :
  (forall r, r ∈ rows -> restores_pending r = true -> field r 0 <> job) ->
  replay_pending d rows !! job = d !! job.
Proof.
  revert d. induction rows as [|r rows IH]; intros d Hrows; [done|].
  unfold replay_pending. simpl. fold (replay_pending
    (if restores_pending r then <[field r 0 := (field r 13, field r 11)]> d else d) rows).
  rewrite IH by (intros r' Hin; apply Hrows; by right).
  destruct (restores_pending r) eqn:Hr; [|done].
  rewrite lookup_insert_ne; [done|]. apply Hrows; [by left|done].
Qed.

(** Called with [PENDING_INTERNAL] bound and the sheet readable,
    [rebuild_from_sheet_cache] returns, leaves the sheet as it is, and
    replays the last [max_rows] data rows into the dictionary: a job gets
    the internal channel and timestamp of the last of these rows that
    carries the job with both (all trimmed, none empty), and a job that no
    such row of the window carries keeps the entry it had, if any. *)
Theorem rebuild_restores_latest_thread (s : State) (d : gmap string (string * string))
    (max_rows : nat) (header : list string) (rows : list (list string)) :
  PENDING_INTERNAL s = Some d ->
  down s SheetsGet = false ->
  values_get (questions s) "O" = header :: rows ->
  let window := drop (length rows - max_rows) rows in
  let s' := snd (rebuild_from_sheet_cache max_rows s) in
  exists d',
    fst (rebuild_from_sheet_cache max_rows s) = Py.Return tt
    /\ PENDING_INTERNAL s' = Some d'
    /\ questions s' = questions s
    /\ (forall before r after,
          window = before ++ r :: after ->
          restores_pending r = true ->
          (forall r', r' ∈ after -> restores_pending r' = true -> field r' 0 <> field r 0) ->
          d' !! field r 0 = Some (field r 13, field r 11))
    /\ (forall job,
          (forall r, r ∈ window -> restores_pending r = true -> field r 0 <> job) ->
          d' !! job = d !! job).
Proof.
  intros Hp Hget Hv window s'. subst s'.
  destruct (rebuild_after_binding s d max_rows header rows Hp Hget Hv) as [lg ->].
  fold window. exists (replay_pending d window). cbn [fst snd].
  split; [done|]. split; [done|]. split; [done|]. split.
  - intros before r after -> Hr Hafter. by apply replay_pending_last.
  - intros job Hjob. by apply replay_pending_other.
Qed.

(** The reposted question of job 12345 on a sheet of two rows. *)
Lemma rebuild_restores_latest_thread_witness :
  exists d',
    PENDING_INTERNAL
      (snd (rebuild_from_sheet_cache 200
              (Scenario.running [Scenario.header_row; Scenario.reposted_question])))
    = Some d'
    /\ d' !! "12345" = Some ("C08HUKW7NDU", "1736154900.000100").
Proof.
  destruct (rebuild_restores_latest_thread
              (Scenario.running [Scenario.header_row; Scenario.reposted_question])
              ∅ 200 Scenario.header_row [Scenario.reposted_question]
              eq_refl eq_refl eq_refl) as (d' & _ & Hp & _ & Hlast & _).
  exists d'. split; [exact Hp|].
  apply (Hlast [] Scenario.reposted_question []).
  - reflexivity.
  - reflexivity.
  - by intros r' ?%elem_of_nil.
Defined.

End RebuildReplay.

(** ** Documents *)

Section DocumentFacts.

Import GoogleUtils DocSpec Docs.

(** On a document without content ([end_index] at most 1) the revision
    block is inserted without the style update that greys out the old
    text: one [batchUpdate] with four requests, the insertion and the
    three style updates, whose ranges again cover the divider, the header
    and the triggering text; an empty content list puts the block at
    index 1. *)
Theorem revision_divider_empty_document (body_content : list StructuralElement)
    (triggering_text : list N) (rev_num : N) (today : Date) :
  end_index_of body_content <= 1 ->
  let e := end_index_of body_content in
  let header := header_text rev_num today in
  let inserted := text_to_insert triggering_text rev_num today in
  let a1 := e + 2 in
  let b1 := a1 + 72 in
  let a2 := b1 + 2 in
  let b2 := a2 + Z.of_nat (length header) in
  let a3 := b2 + 2 in
  let b3 := a3 + Z.of_nat (length triggering_text) in
  append_revision_divider body_content triggering_text rev_num today
  = [[insertText e inserted;
      updateTextStyle a1 b1 (mkStyle (Some true) None None) "bold";
      updateTextStyle a2 b2
        (mkStyle (Some true) (Some false) (Some (mkRgb 0 0 0)))
        "bold,italic,foregroundColor";
      updateTextStyle a3 b3
        (mkStyle None (Some false) (Some (mkRgb 0 0 0)))
        "italic,foregroundColor"]]
  /\ covered_by inserted e a1 b1 = replicate 72 61%N
  /\ covered_by inserted e a2 b2 = header
  /\ covered_by inserted e a3 b3 = triggering_text
  /\ (body_content = [] -> e = 1).
Proof.
  intros He e header inserted a1 b1 a2 b2 a3 b3.
  split; [|split; [|split; [|split]]].
  - unfold append_revision_divider, revision_requests. cbv zeta. fold e.
    assert ((e >? 1) = false) as -> by (rewrite Z.gtb_ltb; apply Z.ltb_ge; lia).
    assert (forall x y x' y' st fl, x = x' -> y = y' ->
              updateTextStyle x y st fl = updateTextStyle x' y' st fl) as Hupd
      by (by intros ? ? ? ? ? ? -> ->).
    assert (Z.of_nat (length divider_line) = 72) as Hdiv by reflexivity.
    fold header. rewrite Hdiv.
    subst a1 b1 a2 b2 a3 b3 inserted. clearbody header e. simpl app.
    f_equal. f_equal. f_equal; [apply Hupd; lia|].
    f_equal; [apply Hupd; lia|]. f_equal. apply Hupd; lia.
  - subst inserted. unfold text_to_insert. apply (covered_by_segment [10%N; 10%N]).
    + subst a1. simpl. lia.
    + subst b1. unfold divider_line. rewrite length_replicate. lia.
  - subst inserted. unfold text_to_insert. fold header.
    change ([newline; newline] ++ divider_line ++ [newline; newline] ++ header
            ++ [newline; newline] ++ triggering_text ++ [newline; newline])
      with (([newline; newline] ++ divider_line ++ [newline; newline]) ++ header
            ++ ([newline; newline] ++ triggering_text ++ [newline; newline])).
    apply covered_by_segment.
    + subst a2 b1 a1. simpl. lia.
    + subst b2. lia.
  - subst inserted. unfold text_to_insert. fold header.
    replace ([newline; newline] ++ divider_line ++ [newline; newline] ++ header
             ++ [newline; newline] ++ triggering_text ++ [newline; newline])
      with (([newline; newline] ++ divider_line ++ [newline; newline] ++ header
             ++ [newline; newline]) ++ triggering_text ++ [newline; newline])
      by (by rewrite <- !app_assoc).
    apply covered_by_segment.
    + subst a3 b2 a2 b1 a1. rewrite !length_app. unfold divider_line.
      rewrite length_replicate. simpl. lia.
    + subst b3. lia.
  - intros ->. reflexivity.
Qed.

(** The first revision of an empty document. *)
Lemma revision_divider_empty_document_witness :
  covered_by (text_to_insert (lit "Please confirm #12345?") 1 (mkDate 2025 1 6)) 1 3 75
  = replicate 72 61%N.
Proof.
  destruct (revision_divider_empty_document [] (lit "Please confirm #12345?") 1
              (mkDate 2025 1 6)) as (_ & Hdiv & _).
  - reflexivity.
  - exact Hdiv.
Defined.


End DocumentFacts.

(** ** After a restart *)

Section Restart.

Import Sheets App RouterSpec RouterFrame Scenario Flows.

Local Arguments String.append : simpl nomatch.

(** The state the module body leaves: both caches empty, whatever the
    sheet holds. *)
Lemma module_body_run (s : State) :
  exists lg,
    module_body (before_import s)
    = (Py.Return tt,
       set_PENDING_INTERNAL (Some ∅)
         (set_log lg (set_RELAY_MEM RelayMemory.default (before_import s)))).
Proof.
  set (s0 := set_RELAY_MEM RelayMemory.default (before_import s)).
  unfold module_body. unfold Py.bind at 1. unfold Py.modify at 1.
  unfold Py.bind at 1. fold s0.
  destruct (rebuild_unbound s0 200 eq_refl) as [lg Hlg].
  assert (fst (rebuild_from_sheet_cache 200 s0) = Py.Return tt) as Hret
    by apply try_log_returns.
  destruct (rebuild_from_sheet_cache 200 s0) as [r s1]. simpl in Hlg, Hret.
  subst r s1. by exists lg.
Qed.

(** What was open before a restart is forgotten by it.  After the module
    body has run, on whatever sheet: a reply in a client thread, mapped
    before the restart or not, is not recorded and not echoed, the router
    only logs that it has no mapping; and a tagged thread root of a client
    channel finds no internal thread for its job, asked before the restart
    or not, and is not mapped, the router only logs its warning. *)
Theorem restart_forgets_open_questions (s : State) (ev : Event) :
  let s0 := snd (module_body (before_import s)) in
  Py.truthy_opt (subtype ev) = false ->
  Py.truthy_opt (bot_id ev) = false ->
  channel ev ∉ INTERNAL_CHANNEL_IDS s ->
  CLIENT_CHANNEL_IDS s = [] \/ channel ev ∈ CLIENT_CHANNEL_IDS s ->
  (forall th, thread_ts ev = Some th -> th <> "" -> th <> ts ev ->
     exists lg,
       message_router (Some ev) s0
       = (Py.Return tt,
          set_log (log s0 ++ lg
                   ++ [(DEBUG, "[CLIENT REPLY] no mapping for (" +:+ channel ev +:+ ","
                               +:+ th +:+ ")")]) s0))
  /\ (forall job, job_tag (default "" (text ev)) = Some job ->
        Py.truthy_opt (thread_ts ev) = false \/ thread_ts ev = Some (ts ev) ->
        exists lg,
          message_router (Some ev) s0
          = (Py.Return tt,
             set_log (log s0 ++ lg
                      ++ [(WARNING, "[REGURG] no cached internal thread for job " +:+ job)])
               s0)).
Proof.
  intros s0 Hsub Hbot Hint Hcl. subst s0.
  destruct (module_body_run s) as [lg0 ->]. cbn [snd].
  set (s0 := set_PENDING_INTERNAL _ _). split.
  - intros th Hth Hne Hroot.
    destruct (message_router_client_reply s0 ev th Hsub Hbot Hint Hcl Hth Hne Hroot)
      as [lg ->].
    rewrite (client_reply_untracked (set_log (log s0 ++ lg) s0) ev
               (Py.strip (default "" (text ev))) th) by apply lookup_empty.
    exists lg. cbn [log set_log]. by rewrite <- app_assoc.
  - intros job Htag Hroot.
    destruct (message_router_client_root s0 ev job Hsub Hbot Hint Hcl Htag Hroot)
      as [lg ->].
    pose proof (client_root_run (set_log (log s0 ++ lg) s0) ev job ∅ eq_refl) as Hrun.
    rewrite lookup_empty in Hrun. rewrite Hrun.
    exists lg. cbn [log set_log]. by rewrite <- app_assoc.
Qed.

(** The client answers after a restart, the question and its thread
    still on the sheet. *)
Lemma restart_forgets_open_questions_witness :
  exists lg,
    message_router (Some client_reply_message)
      (snd (module_body (before_import (staffed [header_row; reposted_question]))))
    = (Py.Return tt,
       set_log
         (log (snd (module_body (before_import (staffed [header_row; reposted_question]))))
          ++ lg ++ [(DEBUG, "[CLIENT REPLY] no mapping for (" +:+ "C0CLIENT01" +:+ ","
                            +:+ "1736155000.000200" +:+ ")")])
         (snd (module_body (before_import (staffed [header_row; reposted_question]))))).
Proof.
  destruct (restart_forgets_open_questions (staffed [header_row; reposted_question])
              client_reply_message) as [Hreply _].
  - reflexivity.
  - reflexivity.
  - apply (bool_decide_unpack _). vm_compute. reflexivity.
  - by left.
  - apply (Hreply "1736155000.000200"); done.
Defined.

End Restart.
